(** * urbanworm: the tile-mosaic pipeline of [utils.py]

    A shallow embedding of [tms_to_geotiff] and of the functions nested in
    it ([resolution_to_zoom_level], [from4326_to3857], [deg2num],
    [is_empty], [paste_tile], [finish_picture], [get_tile], [draw_tile]),
    of the helpers [meters_to_degrees], [calculate_bearing] and [closest]
    of [utils.py], and of the chat methods of [UrbanDataSet.py]
    ([chat], [LLM_chat], [oneImgChat], [loopImgChat]).

    Conventions of the model.
    - Python floats are modelled by the real numbers: rounding error of
      IEEE arithmetic is outside the model.  Operations that raise in
      Python ([/] by zero, [math.log] outside its domain) raise here.
    - Exceptions are values of [exn]; a computation that can raise returns
      a [result]; a computation with effects is a function on [World].
    - The HTTP client, the imaging library and the raster writer are
      external: the first two are interfaces ([Session], [Imaging]), the
      network is an oracle giving the outcome of every GET attempt.
    - The URL of a tile is kept symbolic; whether [str.format] raises on
      the template is given by an interface ([Formatter]).
    - Console output ([print]) is not modelled; module imports and the set-up
      of the EPSG:3857 reference are taken to succeed. *)

From Stdlib Require Import Reals Lra Lia ZArith List String Ascii Bool.
From Stdlib.Strings Require Import Byte.
From stdpp Require Import gmap strings.
Import ListNotations.

#[local] Open Scope string_scope.
#[local] Open Scope list_scope.
#[local] Open Scope Z_scope.

(** ** Python values and exceptions *)

Module Py.

(** The exceptions this code can raise.  [Exception e] is the re-raise of
    the last handler of [tms_to_geotiff]: [raise Exception(e)]. *)
Inductive exn : Type :=
| ValueError (msg : string)
| ZeroDivisionError
| AttributeError (msg : string)
| IndexError
| KeyError (key : string)
| TransportError (msg : string)      (* raised by SESSION.get *)
| HTTPStatusError (status : Z)       (* raised by raise_for_status *)
| UnidentifiedImageError             (* raised by Image.open *)
| RuntimeError (msg : string)        (* raised by GDAL and rasterio *)
| ImportError (msg : string)
| FileNotFoundError (msg : string)
| Exception (e : exn).

Inductive result (A : Type) : Type :=
| Ok (a : A)
| Raise (e : exn).
Arguments Ok {A} a.
Arguments Raise {A} e.

Definition bind {A B} (r : result A) (k : A -> result B) : result B :=
  match r with
  | Ok a => k a
  | Raise e => Raise e
  end.

Definition is_ok {A} (r : result A) : bool :=
  match r with Ok _ => true | Raise _ => false end.

(** [str.upper] on ASCII text. *)
Definition upper_ascii (c : ascii) : ascii :=
  let n := nat_of_ascii c in
  if ((97 <=? n) && (n <=? 122))%nat then ascii_of_nat (n - 32) else c.

Fixpoint upper (s : string) : string :=
  match s with
  | EmptyString => EmptyString
  | String c s' => String (upper_ascii c) (upper s')
  end.

(** [s.startswith(p)] *)
Definition startswith (s p : string) : bool := String.prefix p s.

(** [range(a, b)] over the integers. *)
Definition range (a b : Z) : list Z :=
  map (fun i => a + Z.of_nat i) (seq 0 (Z.to_nat (b - a))).

(** [itertools.product(xs, ys)]: the first component varies slowest. *)
Definition product {A B} (xs : list A) (ys : list B) : list (A * B) :=
  flat_map (fun x => map (fun y => (x, y)) ys) xs.

End Py.
Export Py.

Notation "'let!' x ':=' r 'in' k" := (Py.bind r (fun x => k))
  (at level 10, x name, r at level 100, k at level 200).
Notation "'let!' ' pat ':=' r 'in' k" :=
  (Py.bind r (fun x => match x with pat => k end))
  (at level 10, pat pattern, r at level 100, k at level 200).

(** ** Float arithmetic of [math], over the reals *)

Module PyFloat.
#[local] Open Scope R_scope.

(** [math.radians] *)
Definition radians (deg : R) : R := deg * (PI / 180).

(** [a / b]: raises on a zero divisor. *)
Definition truediv (a b : R) : result R :=
  if Req_dec_T b 0 then Raise ZeroDivisionError else Ok (a / b).

(** [math.log]: raises outside the positive reals. *)
Definition math_log (x : R) : result R :=
  if Rlt_dec 0 x then Ok (ln x) else Raise (ValueError "math domain error").

Definition log2 (x : R) : R := ln x / ln 2.

(** [math.log2] *)
Definition math_log2 (x : R) : result R :=
  if Rlt_dec 0 x then Ok (log2 x) else Raise (ValueError "math domain error").

(** [math.floor] and [math.ceil] *)
Definition floor (x : R) : Z := Int_part x.
Definition ceil (x : R) : Z := (- Int_part (- x))%Z.

(** [int(x)]: truncation towards zero. *)
Definition int (x : R) : Z := if Rlt_dec x 0 then ceil x else floor x.

(** [round(x)]: to the nearest integer, ties to the even one. *)
Definition round (x : R) : Z :=
  let f := floor x in
  if Rlt_dec (x - IZR f) (1 / 2) then f
  else if Rlt_dec (1 / 2) (x - IZR f) then (f + 1)%Z
  else if Z.even f then f else (f + 1)%Z.

(** [sorted([a, b])] as the pair (smaller, larger). *)
Definition sorted2 (a b : R) : R * R := (Rmin a b, Rmax a b).

(** [2 ** zoom] for an integer [zoom] *)
Definition pow2 (zoom : Z) : R := powerRZ 2 zoom.

End PyFloat.
Export PyFloat.

(** ** TileIndexer: coordinate arithmetic *)

(** Lines 249-259. *)
Definition initial_resolution : R := 156543.03392804097%R.

Definition resolution_to_zoom_level (resolution : R) : result Z :=
  let! q := truediv initial_resolution resolution in
  let! zoom_level := math_log2 q in
  Ok (int zoom_level).

(** Lines 268-274: exactly one of [zoom] and [resolution] is given. *)
Definition select_zoom (zoom : option Z) (resolution : option R) : result Z :=
  match zoom, resolution with
  | None, None => Raise (ValueError "Either zoom or resolution must be provided")
  | Some _, Some _ => Raise (ValueError "Only one of zoom or resolution can be provided")
  | Some z, None => Ok z
  | None, Some r => resolution_to_zoom_level r
  end.

Definition EARTH_EQUATORIAL_RADIUS : R := 6378137.0%R.

(** Lines 297-302. *)
Definition from4326_to3857 (lat lon : R) : result (R * R) :=
  let xtile := (radians lon * EARTH_EQUATORIAL_RADIUS)%R in
  let! l := math_log (tan (radians (45 + lat / 2.0))) in
  let ytile := (l * EARTH_EQUATORIAL_RADIUS)%R in
  Ok (xtile, ytile).

(** Lines 304-309. *)
Definition deg2num (lat lon : R) (zoom : Z) : result (R * R) :=
  let lat_r := radians lat in
  let n := pow2 zoom in
  let xtile := ((lon + 180) / 360 * n)%R in
  let! sec := truediv 1 (cos lat_r) in
  let! l := math_log (tan lat_r + sec) in
  let ytile := ((1 - l / PI) / 2 * n)%R in
  Ok (xtile, ytile).

(** ** The environment: files, network, imaging *)

Definition bytes := list byte.

(** The URL [source.format(z=zoom, x=x, y=y)], kept symbolic: the template
    and the three numbers substituted into it. *)
Record url : Type := Url { template : string; uz : Z; ux : Z; uy : Z }.

(** [str.format] is Python's: [format_error source zoom x y] is what
    [source.format(z=zoom, x=x, y=y)] raises, if it raises (a [KeyError]
    for a field other than z, x and y, an [IndexError] for a positional
    field, a [ValueError] for a malformed template). *)
Class Formatter := { format_error : string -> Z -> Z -> Z -> option exn }.

Definition format_url {formatter : Formatter} (source : string) (zoom x y : Z)
    : result url :=
  match format_error source zoom x y with
  | Some e => Raise e
  | None => Ok (Url source zoom x y)
  end.

(** What one [SESSION.get(url, timeout=60)] does: it returns a response,
    whatever its status, or raises (connection error, timeout). *)
Inductive attempt : Type :=
| Response (status_code : Z) (content : bytes)
| Fails (e : exn).

(** The network answers every GET; [net u k] is the outcome of attempt
    number [k] (from 0) of the fetch of [u]. *)
Definition Network := url -> nat -> attempt.

(** The two HTTP clients the code can run on differ in the statuses on which
    [raise_for_status] raises. *)
Class Session := { error_status : Z -> bool }.

Definition requests_Session : Session :=
  {| error_status := fun s => (400 <=? s) && (s <? 600) |}.
Definition httpx_Client : Session :=
  {| error_status := fun s => negb ((200 <=? s) && (s <=? 299)) |}.

(** The part of PIL the code uses.  [getextrema] gives one (min, max) pair
    per band. *)
Class Imaging := {
  Image : Type;
  Image_open : bytes -> result Image;
  Image_new : string -> Z * Z -> Image;
  mode : Image -> string;
  size : Image -> Z * Z;
  paste : Image -> Image -> Z * Z -> Image;
  convert : Image -> string -> Image;
  getextrema : Image -> list (Z * Z);
  crop : Image -> Z * Z * Z * Z -> Image;
  getbands : Image -> list string;
  getdata : Image -> nat -> list Z;
}.

Definition GeoTransform : Type := R * R * R * R * R * R.

(** A GeoTIFF dataset as the GDAL driver holds it. *)
Record GTiff : Type := {
  xsize : Z;
  ysize : Z;
  options : list string;
  geotransform : GeoTransform;
  projection : string;
  rasters : list (list Z);
}.

Inductive file : Type :=
| Raster (g : GTiff)
| Blob (content : bytes).

(** rasterio's warp and rio-cogeo's translation are external. *)
Class RasterIO := {
  rio_cogeo_installed : bool;
  warp : GTiff -> string -> result GTiff;
  cog_translate : file -> string -> result file;
}.

Inductive event : Type :=
| EvGet (u : url)
| EvReproject (image out dst_crs : string)
| EvCog (src dst : string).

Record World : Type := {
  files : gmap string file;
  trace : list event;
}.

Definition log (e : event) (w : World) : World :=
  {| files := files w; trace := trace w ++ [e] |}.

Definition store (path : string) (f : file) (w : World) : World :=
  {| files := <[path := f]> (files w); trace := trace w |}.

(** os.path.exists *)
Definition exists_ (path : string) (w : World) : bool :=
  bool_decide (is_Some (files w !! path)).

(** Computations with effects and exceptions. *)
Definition M (A : Type) : Type := World -> result A * World.

Definition ret {A} (a : A) : M A := fun w => (Ok a, w).
Definition raise {A} (e : exn) : M A := fun w => (Raise e, w).
Definition lift {A} (r : result A) : M A := fun w => (r, w).
Definition mbind {A B} (m : M A) (k : A -> M B) : M B :=
  fun w => match m w with
           | (Ok a, w') => k a w'
           | (Raise e, w') => (Raise e, w')
           end.

Notation "'do!' x ':=' m 'in' k" := (mbind m (fun x => k))
  (at level 10, x name, m at level 100, k at level 200).
Notation "'do!' ' pat ':=' m 'in' k" :=
  (mbind m (fun x => match x with pat => k end))
  (at level 10, pat pattern, m at level 100, k at level 200).

Definition emit (e : event) : M unit := fun w => (Ok tt, log e w).

(** ** The pipeline *)

(** A non-string [source] is any other Python object. *)
Inductive pyobj : Type :=
| PyStr (s : string)
| PyOther.

(** Line 227. *)
Definition xyz_tiles : gmap string string :=
  list_to_map
    [ ("OPENSTREETMAP", "https://tile.openstreetmap.org/{z}/{x}/{y}.png");
      ("ROADMAP", "https://mt1.google.com/vt/lyrs=m&x={x}&y={y}&z={z}");
      ("SATELLITE", "https://mt1.google.com/vt/lyrs=s&x={x}&y={y}&z={z}");
      ("TERRAIN", "https://mt1.google.com/vt/lyrs=p&x={x}&y={y}&z={z}");
      ("HYBRID", "https://mt1.google.com/vt/lyrs=y&x={x}&y={y}&z={z}") ].

(** The text of the [ValueError] of lines 245-247; it holds double
    quotes. *)
Definition quoted (s : string) : string :=
  String "034"%char (String.append s (String "034"%char EmptyString)).

Definition source_message : string :=
  String.concat ", "
    [String.append "source must be one of " (quoted "OpenStreetMap");
     quoted "ROADMAP"; quoted "SATELLITE"; quoted "TERRAIN"; quoted "HYBRID";
     "or a URL"].

(** Lines 261-266. *)
Definition unpack_bbox (bbox : list R) : result (R * R * R * R) :=
  match bbox with
  | [west; south; east; north] => Ok (west, south, east, north)
  | _ => Raise (ValueError
      "bbox must be a list of 4 coordinates in the format of [xmin, ymin, xmax, ymax]")
  end.

Section Pipeline.

Context {session : Session} {formatter : Formatter} {imaging : Imaging} {rio : RasterIO}.
Variable net : Network.
(** The dictionary [get_basemaps()] returns, read from xyzservices. *)
Variable basemaps : gmap string string.
(** [web_mercator.ExportToWkt()] *)
Variable WKT_3857 : string.

(** Lines 237-247.  The [else] that raises belongs to the [isinstance]
    test: inside the string branch the chain of [elif] has no [else]. *)
Definition resolve_source (source : pyobj) : result string :=
  match source with
  | PyStr s =>
      match xyz_tiles !! upper s with
      | Some t => Ok t
      | None =>
          match basemaps !! s with
          | Some t => Ok t
          | None => if startswith s "http" then Ok s (* pass *) else Ok s
          end
      end
  | PyOther => Raise (ValueError source_message)
  end.

(** Lines 311-321.  [is_empty] is only called on RGBA images. *)
Definition zero_extrema (e : Z * Z) : bool := (fst e =? 0) && (snd e =? 0).

Definition is_empty (im : Image) : result bool :=
  let extrema := getextrema im in
  if (3 <=? length extrema)%nat then
    if (3 <? length extrema)%nat && zero_extrema (List.last extrema (1, 1)) then Ok true
    else Ok (forallb zero_extrema (firstn 3 extrema))
  else
    match extrema with
    | e :: _ => Ok (zero_extrema e)
    | [] => Raise IndexError
    end.

(** Lines 323-349.  The canvas [bigim] may not exist yet; [base_size] is
    the two-element list the caller owns, returned with the canvas. *)
Definition paste_tile (bigim : option Image) (base_size : Z * Z)
    (tile : option bytes) (corner_xy : Z * Z) (bbox : Z * Z * Z * Z)
    : result (option Image * (Z * Z)) :=
  match tile with
  | None => Ok (bigim, base_size)
  | Some tile =>
      let '(b0, b1, b2, b3) := bbox in
      let! im := Image_open tile in
      let mode_ := if String.eqb (mode im) "RGB" then "RGB" else "RGBA" in
      let size_ := size im in
      let '(newim, base_size) :=
        match bigim with
        | None =>
            (Image_new mode_ (fst size_ * (b2 - b0), snd size_ * (b3 - b1)), size_)
        | Some bigim => (bigim, base_size)
        end in
      let dx := Z.abs (fst corner_xy - b0) in
      let dy := Z.abs (snd corner_xy - b1) in
      let xy0 := (fst size_ * dx, snd size_ * dy) in
      if String.eqb mode_ "RGB" then Ok (Some (paste newim im xy0), base_size)
      else
        let im := if negb (String.eqb (mode im) mode_) then convert im mode_ else im in
        let! empty := is_empty im in
        if negb empty then Ok (Some (paste newim im xy0), base_size)
        else Ok (Some newim, base_size)
  end.

(** Lines 351-362.  On a canvas that was never created, [bigim.crop]
    is an attribute access on [None]. *)
Definition finish_picture (bigim : option Image) (base_size : Z * Z)
    (bbox : Z * Z * Z * Z) (x0 y0 x1 y1 : R) : result Image :=
  let '(b0, b1, _, _) := bbox in
  let xfrac := (x0 - IZR b0)%R in
  let yfrac := (y0 - IZR b1)%R in
  let x2 := round (IZR (fst base_size) * xfrac) in
  let y2 := round (IZR (snd base_size) * yfrac) in
  let imgw := round (IZR (fst base_size) * (x1 - x0)) in
  let imgh := round (IZR (snd base_size) * (y1 - y0)) in
  match bigim with
  | None => Raise (AttributeError "'NoneType' object has no attribute 'crop'")
  | Some bigim =>
      let retim := crop bigim (x2, y2, x2 + imgw, y2 + imgh) in
      if String.eqb (mode retim) "RGBA" then
        match nth_error (getextrema retim) 3 with
        | None => Raise IndexError
        | Some e =>
            if (fst e =? 255) && (snd e =? 255) then Ok (convert retim "RGB")
            else Ok retim
        end
      else Ok retim
  end.

(** [SESSION.get(url, timeout=60)], attempt number [k] of this fetch. *)
Definition SESSION_get (u : url) (k : nat) : M attempt :=
  fun w => (Ok (net u k), log (EvGet u) w).

(** Lines 366-373, the loop of [get_tile]: [retry] counts the attempts
    that are left, [k] those already made.  [get_tile] enters it with
    [retry = 3]. *)
Fixpoint get_loop (u : url) (retry k : nat) : M (Z * bytes) :=
  do! a := SESSION_get u k in
  match a with
  | Response status_code content => ret (status_code, content)
  | Fails e =>
      match retry with
      | S (S _ as retry') => get_loop u retry' (S k)
      | _ => raise e
      end
  end.

Definition raise_for_status (status_code : Z) : result unit :=
  if error_status status_code then Raise (HTTPStatusError status_code) else Ok tt.

(** Lines 364-379. *)
Definition get_tile (u : url) : M (option bytes) :=
  do! '(status_code, content) := get_loop u 3 0 in
  if status_code =? 404 then ret None
  else
    match content with
    | [] => ret None
    | _ :: _ =>
        do! _ := lift (raise_for_status status_code) in
        ret (Some content)
    end.

(** A future holds what its task returned or raised. *)
Definition future : Type := result (option bytes).

(** [executor.submit(get_tile, url)].  The pool runs the tasks; they are
    taken here in submission order. *)
Definition submit (u : url) : M future :=
  fun w => let '(r, w') := get_tile u w in (Ok r, w').

(** Lines 396-400: the URL of every tile is formatted and its fetch
    submitted, in the order of [corners].  An exception of [format] leaves
    the [with] block once the fetches submitted before it have run. *)
Fixpoint submit_tiles (source : string) (zoom : Z) (corners : list (Z * Z))
    : M (list future) :=
  match corners with
  | [] => ret []
  | (x, y) :: corners' =>
      do! u := lift (format_url source zoom x y) in
      do! f := submit u in
      do! fs := submit_tiles source zoom corners' in
      ret (f :: fs)
  end.

(** Lines 402-405: the loop over [zip(futures, corners)]. *)
Fixpoint paste_all (jobs : list (future * (Z * Z))) (bbox : Z * Z * Z * Z)
    (bigim : option Image) (base_size : Z * Z)
    : result (option Image * (Z * Z)) :=
  match jobs with
  | [] => Ok (bigim, base_size)
  | (fut, corner_xy) :: jobs' =>
      let! tile := fut in
      let! '(bigim, base_size) := paste_tile bigim base_size tile corner_xy bbox in
      paste_all jobs' bbox bigim base_size
  end.


(** [gdal.GetDriverByName("GTiff").Create(...)]: with [gdal.UseExceptions()]
    a dataset without pixels or bands is refused; otherwise the file is
    created (replacing what was there) with zero-filled bands. *)
Definition gdal_Create (filename : string) (xs ys : Z) (bands : nat)
    (opts : list string) : M unit :=
  fun w =>
    if (xs <=? 0) || (ys <=? 0) || (bands =? 0)%nat then
      (Raise (RuntimeError "Attempt to create dataset with sizes that must be larger than zero"), w)
    else
      (Ok tt,
       store filename
         (Raster {| xsize := xs; ysize := ys; options := opts;
                    geotransform := (0, 1, 0, 0, 0, 1)%R;
                    projection := EmptyString;
                    rasters := repeat (repeat 0 (Z.to_nat (xs * ys))) bands |})
         w).

(** A method call on the open dataset [gtiff]. *)
Definition on_dataset (filename : string) (f : GTiff -> GTiff) : M unit :=
  fun w =>
    (Ok tt,
     {| files := alter (fun x => match x with Raster g => Raster (f g) | b => b end)
                   filename (files w);
        trace := trace w |}).

Definition SetGeoTransform (filename : string) (gt : GeoTransform) : M unit :=
  on_dataset filename (fun g =>
    {| xsize := xsize g; ysize := ysize g; options := options g;
       geotransform := gt; projection := projection g; rasters := rasters g |}).

Definition SetProjection (filename : string) (wkt : string) : M unit :=
  on_dataset filename (fun g =>
    {| xsize := xsize g; ysize := ysize g; options := options g;
       geotransform := geotransform g; projection := wkt; rasters := rasters g |}).

(** [gtiff.GetRasterBand(band + 1).WriteArray(array)] *)
Definition WriteArray (filename : string) (band : nat) (array : list Z) : M unit :=
  on_dataset filename (fun g =>
    {| xsize := xsize g; ysize := ysize g; options := options g;
       geotransform := geotransform g; projection := projection g;
       rasters := <[band := array]> (rasters g) |}).

(** Lines 439-443. *)
Fixpoint write_bands (filename : string) (img : Image) (bands : list nat) : M unit :=
  match bands with
  | [] => ret tt
  | band :: bands' =>
      do! _ := WriteArray filename band (getdata img band) in
      write_bands filename img bands'
  end.

Definition default_options : list string :=
  ["COMPRESS=DEFLATE"; "PREDICTOR=2"; "ZLEVEL=9"; "TILED=YES"].

(** Lines 433-437: the geotransform of an image of [w] by [h] pixels. *)
Definition make_geotransform (lat0 lon0 lat1 lon1 : R) (w h : Z)
    : result GeoTransform :=
  let! '(xp0, yp0) := from4326_to3857 lat0 lon0 in
  let! '(xp1, yp1) := from4326_to3857 lat1 lon1 in
  let! pwidth := truediv (Rabs (xp1 - xp0)) (IZR w) in
  let! pheight := truediv (Rabs (yp1 - yp0)) (IZR h) in
  Ok (Rmin xp0 xp1, pwidth, 0, Rmax yp0 yp1, 0, - pheight)%R.

(** Lines 388-401: the tile indices and the integer box around them. *)
Definition tile_corners (x0 y0 x1 y1 : R) : list (Z * Z) :=
  product (range (floor x0) (ceil x1)) (range (floor y0) (ceil y1)).

(** Lines 401-448: what [draw_tile] does with the futures, each paired with
    the tile index it was submitted for. *)
Definition draw_fetched (jobs : list (future * (Z * Z))) (lat0 lon0 lat1 lon1 : R)
    (filename : string) (kwargs : option (list string))
    (x0 y0 x1 y1 : R) : M Image :=
  let bbox := (floor x0, floor y0, ceil x1, ceil y1) in
  do! '(bigim, base_size) := lift (paste_all jobs bbox None (256, 256)) in
  do! img := lift (finish_picture bigim base_size bbox x0 y0 x1 y1) in
  let imgbands := length (getbands img) in
  let opts := match kwargs with Some o => o | None => default_options end in
  do! _ := gdal_Create filename (fst (size img)) (snd (size img)) imgbands opts in
  do! gt := lift (make_geotransform lat0 lon0 lat1 lon1
                    (fst (size img)) (snd (size img))) in
  do! _ := SetGeoTransform filename gt in
  do! _ := SetProjection filename WKT_3857 in
  do! _ := write_bands filename img (seq 0 imgbands) in
  ret img.

(** Lines 388-448: [draw_tile] once the fractional tile coordinates of the
    two corners are sorted. *)
Definition draw_sorted (source : string) (lat0 lon0 lat1 lon1 : R) (zoom : Z)
    (filename : string) (kwargs : option (list string))
    (x0 y0 x1 y1 : R) : M Image :=
  let corners := tile_corners x0 y0 x1 y1 in
  do! futures := submit_tiles source zoom corners in
  draw_fetched (combine futures corners) lat0 lon0 lat1 lon1 filename kwargs
    x0 y0 x1 y1.

(** Lines 381-448. *)
Definition draw_tile (source : string) (lat0 lon0 lat1 lon1 : R) (zoom : Z)
    (filename : string) (kwargs : option (list string)) : M Image :=
  do! '(x0, y0) := lift (deg2num lat0 lon0 zoom) in
  do! '(x1, y1) := lift (deg2num lat1 lon1 zoom) in
  let '(x0, x1) := sorted2 x0 x1 in
  let '(y0, y1) := sorted2 y0 y1 in
  draw_sorted source lat0 lon0 lat1 lon1 zoom filename kwargs x0 y0 x1 y1.

(** Lines 588-624, called with an explicit [dst_path] as this pipeline
    does; paths are taken as absolute. *)
Definition image_to_cog (source dst_path : string) : M unit :=
  if negb rio_cogeo_installed then
    raise (ImportError "The rio-cogeo package is not installed. Please install it with `pip install rio-cogeo` or `conda install rio-cogeo -c conda-forge`.")
  else
    do! _ := emit (EvCog source dst_path) in
    fun w =>
      if negb (startswith source "http") && negb (exists_ source w) then
        (Raise (FileNotFoundError "The provided input file could not be found."), w)
      else
        match files w !! source with
        | None => (Raise (RuntimeError "cannot open the source"), w)
        | Some f =>
            match cog_translate f "deflate" with
            | Ok f' => (Ok tt, store dst_path f' w)
            | Raise e => (Raise e, w)
            end
        end.

(** Lines 531-585. *)
Definition reproject (image output dst_crs : string) (to_cog : bool) : M unit :=
  do! _ := emit (EvReproject image output dst_crs) in
  do! _ := (fun w =>
    match files w !! image with
    | Some (Raster g) =>
        match warp g dst_crs with
        | Ok g' => (Ok tt, store output (Raster g') w)
        | Raise e => (Raise e, w)
        end
    | _ => (Raise (RuntimeError "not recognized as a supported file format"), w)
    end) in
  if to_cog then image_to_cog output output else ret tt.

(** [try: ... except Exception as e: raise Exception(e)] *)
Definition reraise {A} (m : M A) : M A :=
  fun w => match m w with
           | (Raise e, w') => (Raise (Exception e), w')
           | ok => ok
           end.

(** Lines 167-461. *)
Definition tms_to_geotiff (output : string) (bbox : list R) (zoom : option Z)
    (resolution : option R) (source : pyobj) (crs : string)
    (to_cog return_image overwrite quiet : bool)
    (kwargs : option (list string)) : M (option Image) :=
  fun w =>
    if negb overwrite && exists_ output w then (Ok None, w)
    else
      (do! source := lift (resolve_source source) in
       do! '(west, south, east, north) := lift (unpack_bbox bbox) in
       do! zoom := lift (select_zoom zoom resolution) in
       reraise
         (do! image := draw_tile source south west north east zoom output kwargs in
          if return_image then ret (Some image)
          else if negb (String.eqb (upper crs) "EPSG:3857") then
            do! _ := reproject output output crs to_cog in ret None
          else if to_cog then
            do! _ := image_to_cog output output in ret None
          else ret None)) w.

End Pipeline.

(** * Other functions of [utils.py] *)

Module Geodesy.
#[local] Open Scope R_scope.

(** Lines 27-31. *)
Definition meters_to_degrees (meters latitude : R) : result R :=
  let meters_per_degree := 111320 * (1 - 0.000022 * Rabs latitude) in
  truediv meters meters_per_degree.

(** [math.degrees] *)
Definition degrees (rad : R) : R := rad * (180 / PI).

(** [math.atan2 y x] on the reals (no signed zeros): the angle of the
    point [(x, y)] in (-pi, pi], and 0 at the origin. *)
Definition atan2 (y x : R) : R :=
  if Rlt_dec 0 x then atan (y / x)
  else if Rlt_dec x 0 then
    if Rle_dec 0 y then atan (y / x) + PI else atan (y / x) - PI
  else if Rlt_dec 0 y then PI / 2
  else if Rlt_dec y 0 then - (PI / 2)
  else 0.

(** [a % b] on floats for a positive [b]: the remainder has the sign of
    [b]. *)
Definition fmod (a b : R) : R := a - b * IZR (floor (a / b)).

(** Lines 116-124. *)
Definition calculate_bearing (lat1 lon1 lat2 lon2 : R) : R :=
  let lat1 := radians lat1 in
  let lon1 := radians lon1 in
  let lat2 := radians lat2 in
  let lon2 := radians lon2 in
  let delta_lon := lon2 - lon1 in
  let x := sin delta_lon * cos lat2 in
  let y := cos lat1 * sin lat2 - sin lat1 * cos lat2 * cos delta_lon in
  let bearing := degrees (atan2 x y) in
  fmod (bearing + 360) 360.

(** One entry of [response['data']]: the image id and the point of its
    geometry. *)
Record feature : Type := {
  f_id : string;
  f_lon : R;
  f_lat : R
}.

(** [np.min] of a non-empty array. *)
Definition np_min (d : R) (ds : list R) : R := fold_left Rmin ds d.

Definition eqb_R (a b : R) : bool := if Req_dec_T a b then true else false.

Section Closest.

(** [np.argsort], whose order among equal keys is that of the library. *)
Variable argsort : list R -> list nat.

(** Lines 97-111.  [centroid] is the pair [(centroid.x, centroid.y)]. *)
Definition closest (centroid : R * R) (data : list feature) (multi : bool)
    : result (list feature) :=
  let c := centroid in
  match data with
  | [] => Raise (AttributeError "'DataFrame' object has no attribute 'geometry'")
  | f0 :: fs =>
      let dis (f : feature) :=
        (f_lon f - fst c) * (f_lon f - fst c) + (f_lat f - snd c) * (f_lat f - snd c) in
      let dis_array := map dis data in
      if multi && (3 <? length dis_array)%nat then
        let smallest_indices := firstn 3 (argsort dis_array) in
        let ids := omap (fun i => option_map f_id (nth_error data i)) smallest_indices in
        Ok (List.filter (fun f => existsb (String.eqb (f_id f)) ids) data)
      else
        let m := np_min (dis f0) (map dis fs) in
        match List.find (fun f => eqb_R (dis f) m) data with
        | None => Raise IndexError
        | Some f => Ok (List.filter (fun f' => String.eqb (f_id f') (f_id f)) data)
        end
  end.

End Closest.

End Geodesy.

(** * The chat functions of [UrbanDataSet.py] *)

Module Dataset.
#[local] Open Scope R_scope.

(** Lines 13-20. *)
Record QnA : Type := {
  question : string;
  answer : string;
  explanation : string
}.

Record Response : Type := { responses : list QnA }.

(** What these methods raise. *)
Inductive error : Type :=
| ETypeError                         (* a comparison or [len] on [None] *)
| EException (msg : string)          (* [raise Exception(msg)] *)
| ERuntimeError (msg : string)
| EIndexError
| EKeyError
| EAttributeError
| EClient (msg : string).            (* raised by ollama or by the validation *)

Inductive outcome (A : Type) : Type :=
| Done (a : A)
| Failed (e : error).
Arguments Done {A} a.
Arguments Failed {A} e.

(** The arguments of one [ollama.chat] call. *)
Record request : Type := {
  r_model : string;
  r_system : option string;
  r_prompt : option string;
  r_image : option string;
  r_temperature : option R;
  r_top_k : R;
  r_top_p : R
}.

(** The calls made to the ollama client, in order. *)
Inductive call : Type :=
| Pull (model : string)
| Chat (r : request).

(** A method: it extends the log of calls and returns or raises. *)
Definition C (A : Type) : Type := list call -> outcome A * list call.

Definition cret {A} (a : A) : C A := fun log => (Done a, log).
Definition cfail {A} (e : error) : C A := fun log => (Failed e, log).
Definition cbind {A B} (m : C A) (k : A -> C B) : C B :=
  fun log => match m log with
             | (Done a, log') => k a log'
             | (Failed e, log') => (Failed e, log')
             end.

(** The result of [LLM_chat]: a [Response], a list of lists of [QnA], or
    [None]. *)
Inductive reply : Type :=
| Single (r : Response)
| PerImage (res : list (list QnA))
| NoReply.

(** The dictionary of [loopImgChat]; the key ['imgBase64'] may be absent. *)
Record loop_dic : Type := {
  d_responses : list (list QnA);
  d_img : list string;
  d_imgBase64 : option (list string)
}.

(** [f'{x}'] for a string or [None]. *)
Definition fstr (x : option string) : string :=
  match x with
  | Some s => s
  | None => "None"
  end.

Definition supported_models : list string :=
  ["granite3.2-vision"; "llama3.2-vision"; "gemma3"; "gemma3:1b";
   "gemma3:12b"; "gemma3:27b"; "minicpm-v"; "mistral-small3.1"].

Definition analyzing : string :=
  "You are analyzing aerial or street view images. For street view, you should just focus on the building and yard in the middle. ".

Section Client.

(** [ollama.pull]: [None] when it returns, the message when it raises. *)
Variable ollama_pull : string -> option string.

(** [ollama.chat] followed by [format.model_validate_json] of its content. *)
Variable ollama_chat : request -> outcome Response.

(** Lines 83-99. *)
Definition checkModel (model : string) : C unit :=
  if existsb (String.eqb model) supported_models then cret tt
  else cfail (EException (String.append model " is not supported")).

(** Lines 101-117. *)
Definition preload_model (model_name : string) : C unit :=
  fun log =>
    match ollama_pull model_name with
    | None => (Done tt, log ++ [Pull model_name])
    | Some _ =>
        (Failed (ERuntimeError "Ollama not available. Install it before running."),
         log ++ [Pull model_name])
    end.

(** Lines 522-569. *)
Definition chat (model : string) (system prompt img : option string)
    (temp top_k top_p : option R) : C Response :=
  match top_k with
  | None => cfail ETypeError
  | Some top_k =>
      let top_k :=
        if Rlt_dec 100 top_k then 100
        else if Rle_dec top_k 0 then 1
        else top_k in
      match top_p with
      | None => cfail ETypeError
      | Some top_p =>
          let top_p :=
            if Rlt_dec 1 top_p then 1
            else if Rle_dec top_p 0 then 0
            else top_p in
          let req := {| r_model := model; r_system := system; r_prompt := prompt;
                        r_image := img; r_temperature := temp;
                        r_top_k := top_k; r_top_p := top_p |} in
          fun log => (ollama_chat req, log ++ [Chat req])
      end
  end.

(** The loop of lines 514-516: [res += [r.responses]] for every image. *)
Fixpoint chat_each (model : string) (system prompt : option string)
    (temp top_k top_p : option R) (res : list (list QnA))
    (img : list (option string)) : C (list (list QnA)) :=
  match img with
  | [] => cret res
  | i :: img' =>
      cbind (chat model system prompt i temp top_k top_p) (fun r =>
      chat_each model system prompt temp top_k top_p (res ++ [responses r]) img')
  end.

(** Lines 485-520. *)
Definition LLM_chat (model : string) (system prompt : option string)
    (img : option (list (option string))) (temp top_k top_p : option R) : C reply :=
  match prompt, img with
  | Some _, Some img =>
      if (length img =? 1)%nat then
        cbind (chat model system prompt (nth 0 img None) temp top_k top_p) (fun r =>
        cret (Single r))
      else if (length img =? 3)%nat then
        let system := Some (String.append analyzing (fstr system)) in
        cbind (chat_each model system prompt temp top_k top_p [] img) (fun res =>
        cret (PerImage res))
      else cret NoReply
  | _, _ => cfail (EException "Prompt or image(s) is missing.")
  end.

(** [r.responses] for the result of [LLM_chat]. *)
Definition responses_of (r : reply) : outcome (list QnA) :=
  match r with
  | Single r => Done (responses r)
  | PerImage _ | NoReply => Failed EAttributeError
  end.

Definition clift {A} (r : outcome A) : C A := fun log => (r, log).

(** Lines 156-186.  [self_img] is [self.img]; the result is the dictionary
    of the first [QnA] and, with [saveImg], the image under ['img']. *)
Definition oneImgChat (self_img : option string) (model : string)
    (system prompt : option string) (temp top_k top_p : option R)
    (saveImg : bool) : C (QnA * option (option string)) :=
  cbind (checkModel model) (fun _ =>
  cbind (preload_model model) (fun _ =>
  cbind (LLM_chat model system prompt (Some [self_img]) temp top_k top_p) (fun r =>
  cbind (clift (responses_of r)) (fun rs =>
  match rs with
  | [] => cfail EIndexError
  | r0 :: _ => cret (r0, if saveImg then Some self_img else None)
  end)))).

(** The body of the loop of [loopImgChat] for the index [i]. *)
Definition loopImgChat_step (self_imgs : list string) (self_base64Imgs : option (list string))
    (model : string) (system prompt : option string) (temp top_k top_p : option R)
    (saveImg : bool) (i : nat) (dic : loop_dic) : C loop_dic :=
  cbind (clift (match self_base64Imgs with
                | None => Failed EAttributeError
                | Some b => match nth_error b i with
                            | Some img => Done img
                            | None => Failed EIndexError
                            end
                end)) (fun img =>
  cbind (LLM_chat model system prompt (Some [Some img]) temp top_k top_p) (fun r =>
  cbind (clift (responses_of r)) (fun r =>
  cbind (clift (if saveImg then
                  match (if (i =? 0)%nat then Some [] else d_imgBase64 dic) with
                  | Some l => Done (Some (l ++ [img]))
                  | None => Failed EKeyError
                  end
                else Done (d_imgBase64 dic))) (fun b64 =>
  cbind (clift (match nth_error self_imgs i with
                | Some p => Done p
                | None => Failed EIndexError
                end)) (fun p =>
  cret {| d_responses := d_responses dic ++ [r];
          d_img := d_img dic ++ [p];
          d_imgBase64 := b64 |}))))).

Fixpoint loopImgChat_loop (self_imgs : list string) (self_base64Imgs : option (list string))
    (model : string) (system prompt : option string) (temp top_k top_p : option R)
    (saveImg : bool) (indices : list nat) (dic : loop_dic) : C loop_dic :=
  match indices with
  | [] => cret dic
  | i :: indices' =>
      cbind (loopImgChat_step self_imgs self_base64Imgs model system prompt
               temp top_k top_p saveImg i dic) (fun dic' =>
      loopImgChat_loop self_imgs self_base64Imgs model system prompt
        temp top_k top_p saveImg indices' dic')
  end.

(** Lines 188-229, for [output_df = False]: the dictionary returned, which
    is also the one stored in [self.results].  [self_imgs] is [self.imgs],
    [self_base64Imgs] is [self.base64Imgs], absent when the constructor
    did not set it. *)
Definition loopImgChat (self_imgs : option (list string))
    (self_base64Imgs : option (list string))
    (model : string) (system prompt : option string) (temp top_k top_p : option R)
    (saveImg : bool) : C loop_dic :=
  cbind (checkModel model) (fun _ =>
  cbind (preload_model model) (fun _ =>
  match self_imgs with
  | None => cfail ETypeError
  | Some imgs =>
      loopImgChat_loop imgs self_base64Imgs model system prompt temp top_k top_p
        saveImg (seq 0 (length imgs))
        {| d_responses := []; d_img := []; d_imgBase64 := None |}
  end)).

End Client.

(** The [Chat] requests of a log. *)
Definition chats (log : list call) : list request :=
  omap (fun c => match c with Chat r => Some r | Pull _ => None end) log.

End Dataset.

(** * Definitions for the statements *)

(** What follows [draw_tile] inside the [try] block (lines 454-459). *)
Definition after_draw {imaging : Imaging} {rio : RasterIO} (output crs : string) (to_cog return_image : bool)
    (image : Image) : M (option Image) :=
  if return_image then ret (Some image)
  else if negb (String.eqb (upper crs) "EPSG:3857") then
    do! _ := reproject output output crs to_cog in ret None
  else if to_cog then
    do! _ := image_to_cog output output in ret None
  else ret None.

(** The fetches of a list of URLs, in submission order: what
    [submit_tiles] does once every URL is formatted. *)
Fixpoint submit_all {session : Session} (net : Network) (us : list url)
    : M (list future) :=
  match us with
  | [] => ret []
  | u :: us' =>
      do! f := submit net u in
      do! fs := submit_all net us' in
      ret (f :: fs)
  end.

(** Every tile of [corners] has a URL: [format] raises for none of them. *)
Definition formats {formatter : Formatter} (source : string) (zoom : Z)
    (corners : list (Z * Z)) : Prop :=
  forall x y, In (x, y) corners -> format_error source zoom x y = None.

(** A computation that leaves the trace, or the files, as they were. *)
Definition keeps_trace {A} (m : M A) : Prop :=
  forall w, trace (snd (m w)) = trace w.
Definition keeps_files {A} (m : M A) : Prop :=
  forall w, files (snd (m w)) = files w.


Definition no_world : World := {| files := ∅; trace := [] |}.

(** The future of the fetch of [u]: what [get_tile] returns or raises. *)
Definition tile_future {session : Session} (net : Network) (u : url) : future :=
  fst (get_tile net u no_world).

(** The first response to [u] comes at attempt [k], after [k] attempts that
    raised, within the three attempts of [get_tile]. *)
Definition answers (net : Network) (u : url) (k : nat) (s : Z) (c : bytes) : Prop :=
  (k < 3)%nat /\
  (forall j, (j < k)%nat -> exists e, net u j = Fails e) /\
  net u k = Response s c.


(** The jobs of the loop: every tile index with the future of its URL. *)
Definition jobs_of {session : Session} (net : Network) (source : string) (zoom : Z)
    (corners : list (Z * Z)) : list (future * (Z * Z)) :=
  map (fun c => (tile_future net (Url source zoom (fst c) (snd c)), c)) corners.

(** The number of GET requests for [u] among the events [evs]. *)
#[global] Instance url_eq_dec : EqDecision url.
Proof. solve_decision. Defined.

Definition is_get (u : url) (e : event) : bool :=
  match e with
  | EvGet u' => bool_decide (u' = u)
  | _ => false
  end.

Definition requests_of (u : url) (evs : list event) : nat :=
  length (List.filter (is_get u) evs).

(** A computation that changes no file other than [fn]. *)
Definition writes_only {A} (fn : string) (m : M A) : Prop :=
  forall w p, p <> fn -> files (snd (m w)) !! p = files w !! p.

(** The first tile of the loop that is present. *)
Fixpoint first_present (jobs : list (future * (Z * Z))) : option bytes :=
  match jobs with
  | [] => None
  | (Ok (Some tile), _) :: _ => Some tile
  | _ :: jobs' => first_present jobs'
  end.

(** The squared distance, in degrees, that [closest] compares. *)
Definition sq_distance (c : R * R) (f : Geodesy.feature) : R :=
  ((Geodesy.f_lon f - fst c) * (Geodesy.f_lon f - fst c) +
   (Geodesy.f_lat f - snd c) * (Geodesy.f_lat f - snd c))%R.

(** The entries of [data] with the id of [f], in the order of [data]. *)
Definition with_id_of (f : Geodesy.feature) (data : list Geodesy.feature)
    : list Geodesy.feature :=
  List.filter (fun f' => String.eqb (Geodesy.f_id f') (Geodesy.f_id f)) data.

(** The request that [chat] sends when [top_k] and [top_p] are numbers. *)
Definition request_of (model : string) (system prompt img : option string)
    (temp : option R) (top_k top_p : R) : Dataset.request :=
  {| Dataset.r_model := model;
     Dataset.r_system := system;
     Dataset.r_prompt := prompt;
     Dataset.r_image := img;
     Dataset.r_temperature := temp;
     Dataset.r_top_k :=
       if Rlt_dec 100 top_k then 100%R
       else if Rle_dec top_k 0 then 1%R
       else top_k;
     Dataset.r_top_p :=
       if Rlt_dec 1 top_p then 1%R
       else if Rle_dec top_p 0 then 0%R
       else top_p |}.

(** [l[s : s + n]] *)
Definition slice {A} (l : list A) (s n : nat) : list A := firstn n (skipn s l).

(** The georeferencing formulas in the words of the specification:
    [x = R * lonRad], [y = R * ln (tan (pi/4 + latRad/2))] with
    [R = 6378137.0]; pixel sizes [|dx| / w] and [|dy| / h]. *)
Module Spec.
#[local] Open Scope R_scope.

Definition Rearth : R := 6378137.0.
Definition toRad (deg : R) : R := deg * PI / 180.
Definition mercator_x (lon : R) : R := Rearth * toRad lon.
Definition mercator_y (lat : R) : R := Rearth * ln (tan (PI / 4 + toRad lat / 2)).

(** The slippy-map formula: [x = (lon+180)/360 * 2^zoom],
    [y = (1 - ln (tan latRad + sec latRad) / pi) / 2 * 2^zoom]. *)
Definition sec (x : R) : R := 1 / cos x.
Definition tile_xy (lat lon : R) (zoom : Z) : R * R :=
  ((lon + 180) / 360 * powerRZ 2 zoom,
   (1 - ln (tan (toRad lat) + sec (toRad lat)) / PI) / 2 * powerRZ 2 zoom).

Definition geotransform (lat0 lon0 lat1 lon1 : R) (w h : Z) : GeoTransform :=
  let x0 := mercator_x lon0 in
  let y0 := mercator_y lat0 in
  let x1 := mercator_x lon1 in
  let y1 := mercator_y lat1 in
  let pixelWidth := Rabs (x1 - x0) / IZR w in
  let pixelHeight := Rabs (y1 - y0) / IZR h in
  (Rmin x0 x1, pixelWidth, 0, Rmax y0 y1, 0, - pixelHeight).
End Spec.

(** * Reference models of the environment *)

(** An imaging model on pixel grids: an image is a mode, a size and the
    bands of every pixel.  Tiles are encoded as a solid colour: the number
    of bands (3 or 4), the width and the height on two bytes each, then one
    value per band. *)
Module Pixels.

Record image : Type := {
  p_mode : string;
  p_width : Z;
  p_height : Z;
  p_pixel : Z -> Z -> list Z;
}.

Definition bands (m : string) : list string :=
  if String.eqb m "RGB" then ["R"; "G"; "B"]
  else if String.eqb m "RGBA" then ["R"; "G"; "B"; "A"]
  else ["L"].

Definition inside (im : image) (x y : Z) : bool :=
  (0 <=? x) && (x <? p_width im) && (0 <=? y) && (y <? p_height im).

(** A pixel in another mode: RGB gains an opaque alpha, RGBA loses it. *)
Definition recode (m : string) (px : list Z) : list Z :=
  if String.eqb m "RGBA" then firstn 3 (px ++ [0; 0; 0]) ++ [nth 3 px 255]
  else if String.eqb m "RGB" then firstn 3 (px ++ [0; 0; 0])
  else firstn 1 (px ++ [0]).

Definition word (hi lo : byte) : Z := Z.of_N (Byte.to_N hi) * 256 + Z.of_N (Byte.to_N lo).

Definition open (b : bytes) : result image :=
  match b with
  | n :: wh :: wl :: hh :: hl :: px =>
      let k := N.to_nat (Byte.to_N n) in
      if ((k =? 3)%nat || (k =? 4)%nat) && (length px =? k)%nat then
        Ok {| p_mode := if (k =? 3)%nat then "RGB" else "RGBA";
              p_width := word wh wl; p_height := word hh hl;
              p_pixel := fun _ _ => map (fun v => Z.of_N (Byte.to_N v)) px |}
      else Raise UnidentifiedImageError
  | _ => Raise UnidentifiedImageError
  end.

Definition new (m : string) (sz : Z * Z) : image :=
  {| p_mode := m; p_width := fst sz; p_height := snd sz;
     p_pixel := fun _ _ => map (fun _ => 0) (bands m) |}.

Definition paste (canvas im : image) (xy : Z * Z) : image :=
  {| p_mode := p_mode canvas; p_width := p_width canvas; p_height := p_height canvas;
     p_pixel := fun x y =>
       if inside im (x - fst xy) (y - snd xy)
       then recode (p_mode canvas) (p_pixel im (x - fst xy) (y - snd xy))
       else p_pixel canvas x y |}.

Definition convert (im : image) (m : string) : image :=
  {| p_mode := m; p_width := p_width im; p_height := p_height im;
     p_pixel := fun x y => recode m (p_pixel im x y) |}.

Definition crop (im : image) (box : Z * Z * Z * Z) : image :=
  let '(l, t, r, b) := box in
  {| p_mode := p_mode im; p_width := r - l; p_height := b - t;
     p_pixel := fun x y =>
       if inside im (x + l) (y + t) then p_pixel im (x + l) (y + t)
       else map (fun _ => 0) (bands (p_mode im)) |}.

Definition getdata (im : image) (band : nat) : list Z :=
  flat_map (fun y => map (fun x => nth band (p_pixel im x y) 0)
                       (range 0 (p_width im)))
    (range 0 (p_height im)).

Definition extrema (vs : list Z) : Z * Z :=
  match vs with
  | [] => (0, 0)
  | v :: vs' => (fold_right Z.min v vs', fold_right Z.max v vs')
  end.

Definition getextrema (im : image) : list (Z * Z) :=
  map (fun band => extrema (getdata im band)) (seq 0 (length (bands (p_mode im)))).

#[export] Instance imaging : Imaging :=
  Build_Imaging image open new p_mode (fun im => (p_width im, p_height im))
    paste convert getextrema crop (fun im => bands (p_mode im)) getdata.

End Pixels.

(** A reference [str.format] for the keyword arguments z, x and y, on
    templates whose replacement fields are bare names.  It follows the
    scanner of CPython: text up to a brace, a doubled brace as a literal
    brace, then the field name up to its closing brace; an empty or numeric
    name is a positional field, any other name is looked up among the
    keywords.  A field with an attribute or index lookup, a conversion or a
    format specification is outside its domain and refused. *)
Module Templates.

Definition digit (c : ascii) : option Z :=
  let n := Z.of_nat (nat_of_ascii c) in
  if (48 <=? n) && (n <=? 57) then Some (n - 48) else None.

Definition PY_SSIZE_T_MAX : Z := 9223372036854775807.

Inductive index : Type :=
| NotAnIndex
| TooManyDigits
| Index (n : Z).

Fixpoint get_integer (accumulator : Z) (s : string) : index :=
  match s with
  | EmptyString => Index accumulator
  | String c s' =>
      match digit c with
      | None => NotAnIndex
      | Some digitval =>
          if (PY_SSIZE_T_MAX - digitval) / 10 <? accumulator then TooManyDigits
          else get_integer (accumulator * 10 + digitval) s'
      end
  end.

(** The lookup of a bare field name, with no positional argument and the
    keywords z, x and y. *)
Definition field_error (name : string) : option exn :=
  match get_integer 0 name with
  | TooManyDigits => Some (ValueError "Too many decimal digits in format string")
  | Index _ => Some IndexError
  | NotAnIndex =>
      if existsb (String.eqb name) ["z"; "x"; "y"] then None
      else Some (KeyError name)
  end.

Definition has_options (c : ascii) : bool :=
  existsb (Ascii.eqb c) ["."; "["; "!"; ":"]%char.

(** [field] is [None] in literal text and the name read so far inside a
    replacement field. *)
Fixpoint scan (field : option string) (s : string) : option exn :=
  match field with
  | None =>
      match s with
      | EmptyString => None
      | String "{" EmptyString =>
          Some (ValueError "Single '{' encountered in format string")
      | String "{" (String "{" s') => scan None s'
      | String "{" s' => scan (Some EmptyString) s'
      | String "}" (String "}" s') => scan None s'
      | String "}" _ => Some (ValueError "Single '}' encountered in format string")
      | String _ s' => scan None s'
      end
  | Some name =>
      match s with
      | EmptyString => Some (ValueError "expected '}' before end of string")
      | String "}" s' =>
          match field_error name with
          | Some e => Some e
          | None => scan None s'
          end
      | String "{" _ => Some (ValueError "unexpected '{' in field name")
      | String c s' =>
          if has_options c then Some (ValueError "field options are not supported")
          else scan (Some (String.append name (String c EmptyString))) s'
      end
  end.

#[export] Instance formatter : Formatter :=
  {| format_error := fun source _ _ _ => scan None source |}.

End Templates.

(** * A scenario: the bbox [-180, 0, 180, 45] at zoom 0

    The covering range is the single tile (0, 0) of the world map. *)
Module Scenario.
Import Pixels.

(** An opaque 256 by 256 tile of colour (100, 150, 200). *)
Definition tile_rgb : bytes := [x03; x01; x00; x01; x00; x64; x96; xc8].

Definition net_ok : Network := fun _ _ => Response 200 tile_rgb.
Definition net_404 : Network := fun _ _ => Response 404 [].
Definition net_500_empty : Network := fun _ _ => Response 500 [].
Definition net_500 : Network := fun _ _ => Response 500 [x4f; x4f; x50; x53].
Definition net_flaky : Network :=
  fun _ k => if (k <? 2)%nat then Fails (TransportError "timed out")
             else Response 200 tile_rgb.
Definition net_down : Network := fun _ _ => Fails (TransportError "connection refused").

(** The tiles of column 0 are absent, the others are served. *)
Definition net_west_absent : Network :=
  fun u _ => if ux u =? 0 then Response 404 [] else Response 200 tile_rgb.

(** Post-processing that always works: the warp relabels the dataset. *)
#[export] Instance rio : RasterIO := {|
  rio_cogeo_installed := true;
  warp := fun g dst_crs =>
    Ok {| xsize := xsize g; ysize := ysize g; options := options g;
          geotransform := geotransform g; projection := dst_crs;
          rasters := rasters g |};
  cog_translate := fun f _ => Ok f;
|}.

Definition no_basemaps : gmap string string := ∅.
Definition wkt : string := "PROJCS[WGS 84 / Pseudo-Mercator]".
Definition osm : string := "https://tile.openstreetmap.org/{z}/{x}/{y}.png".

(** The Mercator ordinate of latitude 45 is [ln (1 + sqrt 2)]. *)
Definition L45 : R := ln (tan (radians 45) + 1 / cos (radians 45))%R.

(** The tile ordinate of latitude 45 at zoom 0. *)
Definition y45 : R := ((1 - L45 / PI) / 2)%R.

(** The tile of the scenario, and a world where the output exists. *)
Definition tile : url := Url osm 0 0 0.

Definition with_output : World :=
  {| files := {["out.tif" := Blob [x49; x49; x2a; x00]]}; trace := [] |}.

End Scenario.

(** * Further scenarios *)

Module MoreScenarios.
Import Scenario.

(** An installation without rio-cogeo. *)
Definition rio_without_cogeo : RasterIO :=
  Build_RasterIO false
    (fun g dst_crs =>
       Ok {| xsize := xsize g; ysize := ysize g; options := options g;
             geotransform := geotransform g; projection := dst_crs;
             rasters := rasters g |})
    (fun f _ => Ok f).

(** Three images of a building, the second one the nearest to (0, 0). *)
Definition far_image : Geodesy.feature :=
  {| Geodesy.f_id := "101"; Geodesy.f_lon := 3; Geodesy.f_lat := 4 |}.
Definition near_image : Geodesy.feature :=
  {| Geodesy.f_id := "102"; Geodesy.f_lon := 1; Geodesy.f_lat := 0 |}.
Definition images : list Geodesy.feature := [far_image; near_image].

(** A template with a field that [draw_tile] does not fill in. *)
Definition subdomains : string := "https://{s}.tile.openstreetmap.org/{z}/{x}/{y}.png".

(** A client whose pull works and whose model answers every request with
    one [QnA]. *)
Definition yes : Dataset.QnA :=
  {| Dataset.question := "Is there a roof?";
     Dataset.answer := "yes";
     Dataset.explanation := "The roof is visible." |}.
Definition pull_ok : string -> option string := fun _ => None.
Definition pull_fails : string -> option string := fun _ => Some "connection refused".
Definition model_yes : Dataset.request -> Dataset.outcome Dataset.Response :=
  fun _ => Dataset.Done {| Dataset.responses := [yes] |}.

End MoreScenarios.

(** * Properties *)

(** ** Integer parts *)

Section IntegerParts.
#[local] Open Scope R_scope.

Lemma floor_spec (r : R) : IZR (floor r) <= r < IZR (floor r) + 1.
Proof.
  unfold floor. destruct (base_Int_part r) as [H1 H2]. lra.
Qed.

Lemma floor_unique (r : R) (z : Z) : IZR z <= r < IZR z + 1 -> floor r = z.
Proof.
  intros [H1 H2]. unfold floor. symmetry. apply Int_part_spec. lra.
Qed.

Lemma ceil_spec (r : R) : IZR (ceil r) - 1 < r <= IZR (ceil r).
Proof.
  unfold ceil. rewrite opp_IZR.
  destruct (base_Int_part (- r)) as [H1 H2]. lra.
Qed.

Lemma ceil_unique (r : R) (z : Z) : IZR z - 1 < r <= IZR z -> ceil r = z.
Proof.
  intros [H1 H2]. unfold ceil.
  rewrite <- (Int_part_spec (- r) (- z)); [lia |].
  rewrite opp_IZR. lra.
Qed.

Lemma floor_IZR (z : Z) : floor (IZR z) = z.
Proof. apply floor_unique. lra. Qed.

Lemma ceil_IZR (z : Z) : ceil (IZR z) = z.
Proof. apply ceil_unique. lra. Qed.

Lemma floor_le_ceil (a b : R) : a <= b -> (floor a <= ceil b)%Z.
Proof.
  intros Hab.
  destruct (floor_spec a) as [Ha _]. destruct (ceil_spec b) as [_ Hb].
  apply le_IZR. lra.
Qed.

Lemma int_nonneg (r : R) : 0 <= r -> int r = floor r.
Proof.
  intros H. unfold int. destruct (Rlt_dec r 0); [lra | reflexivity].
Qed.

Lemma int_neg (r : R) : r < 0 -> int r = ceil r.
Proof.
  intros H. unfold int. destruct (Rlt_dec r 0); [reflexivity | lra].
Qed.

Lemma round_IZR (z : Z) : round (IZR z) = z.
Proof.
  unfold round. rewrite floor_IZR.
  destruct (Rlt_dec (IZR z - IZR z) (1 / 2)); [reflexivity | lra].
Qed.

(** [round] never moves a number past an integer. *)
Lemma round_lower (r : R) (z : Z) : IZR z <= r -> (z <= round r)%Z.
Proof.
  intros H. unfold round.
  destruct (floor_spec r) as [F1 F2].
  assert (z <= floor r)%Z.
  { apply Z.lt_succ_r. apply lt_IZR. rewrite succ_IZR. lra. }
  destruct (Rlt_dec _ _); [assumption |].
  destruct (Rlt_dec _ _); [lia |].
  destruct (Z.even _); lia.
Qed.

End IntegerParts.

(** ** Logarithms *)

Section Logarithms.
#[local] Open Scope R_scope.

Lemma ln_2_pos : 0 < ln 2.
Proof. rewrite <- ln_1. apply ln_increasing; lra. Qed.

Lemma log2_nonneg (x : R) : 1 <= x -> 0 <= log2 x.
Proof.
  intros H. unfold log2.
  assert (0 <= ln x).
  { destruct H as [H | <-]; [| rewrite ln_1; lra].
    left. rewrite <- ln_1. apply ln_increasing; lra. }
  pose proof ln_2_pos.
  apply Rmult_le_pos; [assumption |].
  left. now apply Rinv_0_lt_compat.
Qed.

Lemma log2_neg (x : R) : 0 < x < 1 -> log2 x < 0.
Proof.
  intros [H0 H1]. unfold log2.
  assert (ln x < 0) by (rewrite <- ln_1; apply ln_increasing; lra).
  pose proof ln_2_pos as H2.
  apply Rinv_0_lt_compat in H2.
  unfold Rdiv. nra.
Qed.

Lemma log2_gt_m1 (x : R) : 1 / 2 < x -> -1 < log2 x.
Proof.
  intros H. unfold log2.
  assert (- ln 2 < ln x).
  { rewrite <- ln_Rinv by lra. apply ln_increasing; lra. }
  pose proof ln_2_pos as H2.
  apply Rmult_lt_reg_r with (ln 2); [assumption |].
  unfold Rdiv. rewrite Rmult_assoc, Rinv_l by lra. lra.
Qed.

End Logarithms.

(** ** C4: resolution to zoom *)

Section ResolutionToZoom.
#[local] Open Scope R_scope.

Lemma initial_resolution_pos : 0 < initial_resolution.
Proof. unfold initial_resolution. lra. Qed.

Lemma resolution_to_zoom_level_pos (r : R) :
  0 < r -> resolution_to_zoom_level r = Ok (int (log2 (initial_resolution / r))).
Proof.
  intros Hr. unfold resolution_to_zoom_level, truediv.
  destruct (Req_dec_T r 0) as [-> | _]; [lra |]. cbn.
  unfold math_log2.
  assert (0 < initial_resolution / r).
  { apply Rdiv_lt_0_compat; [apply initial_resolution_pos | assumption]. }
  destruct (Rlt_dec 0 (initial_resolution / r)); [reflexivity | contradiction].
Qed.

Lemma resolution_to_zoom_level_zero :
  resolution_to_zoom_level 0 = Raise ZeroDivisionError.
Proof.
  unfold resolution_to_zoom_level, truediv.
  destruct (Req_dec_T 0 0); [reflexivity | contradiction].
Qed.

Lemma resolution_to_zoom_level_neg (r : R) :
  r < 0 -> resolution_to_zoom_level r = Raise (ValueError "math domain error").
Proof.
  intros Hr. unfold resolution_to_zoom_level, truediv.
  destruct (Req_dec_T r 0) as [-> | _]; [lra |]. cbn.
  unfold math_log2.
  assert (initial_resolution / r < 0).
  { pose proof initial_resolution_pos.
    assert (/ r < 0) by (apply Rinv_lt_0_compat; assumption).
    unfold Rdiv. nra. }
  destruct (Rlt_dec 0 (initial_resolution / r)); [lra | reflexivity].
Qed.

(** The quotient is at least 1 exactly when the resolution is at most the
    resolution of zoom 0. *)
Lemma quotient_ge_1 (r : R) : 0 < r -> r <= initial_resolution -> 1 <= initial_resolution / r.
Proof.
  intros H0 H1. apply Rmult_le_reg_r with r; [assumption |].
  unfold Rdiv. rewrite Rmult_assoc, Rinv_l by lra. lra.
Qed.

Lemma quotient_lt_1 (r : R) : initial_resolution < r -> 0 < initial_resolution / r < 1.
Proof.
  intros H. pose proof initial_resolution_pos. split.
  - apply Rdiv_lt_0_compat; lra.
  - apply Rmult_lt_reg_r with r; [lra |].
    unfold Rdiv. rewrite Rmult_assoc, Rinv_l by lra. lra.
Qed.

End ResolutionToZoom.

(** C4 (as amended).  A resolution given in place of a zoom is converted by
    truncating [log2 (156543.03392804097 / r)] towards zero: this is the
    floor for [0 < r <= 156543.03392804097], and the ceiling for a larger
    [r].  For [r = 0] the division raises [ZeroDivisionError], for [r < 0]
    [math.log2] raises [ValueError]; there is no check of the resolution. *)
Theorem C4_resolution_truncated (r : R) :
  (0 < r -> r <= initial_resolution ->
     select_zoom None (Some r) = Ok (floor (log2 (initial_resolution / r))))%R /\
  (initial_resolution < r ->
     select_zoom None (Some r) = Ok (ceil (log2 (initial_resolution / r))))%R /\
  (r = 0 -> select_zoom None (Some r) = Raise ZeroDivisionError)%R /\
  (r < 0 -> select_zoom None (Some r) = Raise (ValueError "math domain error"))%R.
Proof.
  cbn [select_zoom]. repeat split.
  - intros H0 H1. rewrite resolution_to_zoom_level_pos by assumption.
    f_equal. apply int_nonneg, log2_nonneg, quotient_ge_1; assumption.
  - intros H. pose proof initial_resolution_pos.
    rewrite resolution_to_zoom_level_pos by lra.
    f_equal. apply int_neg, log2_neg, quotient_lt_1; assumption.
  - intros ->. apply resolution_to_zoom_level_zero.
  - apply resolution_to_zoom_level_neg.
Qed.

Lemma C4_resolution_truncated_witness :
  select_zoom None (Some 1%R) = Ok (floor (log2 (initial_resolution / 1))) /\
  select_zoom None (Some 200000%R) = Ok (ceil (log2 (initial_resolution / 200000))) /\
  select_zoom None (Some 0%R) = Raise ZeroDivisionError /\
  select_zoom None (Some (-1)%R) = Raise (ValueError "math domain error").
Proof.
  repeat split.
  - apply (proj1 (C4_resolution_truncated 1)); unfold initial_resolution; lra.
  - apply (proj1 (proj2 (C4_resolution_truncated 200000))); unfold initial_resolution; lra.
  - apply (proj1 (proj2 (proj2 (C4_resolution_truncated 0)))); reflexivity.
  - apply (proj2 (proj2 (proj2 (C4_resolution_truncated (-1))))); lra.
Defined.

(** C4 as stated fails at a resolution of 200000 metres: the zoom used is
    0, the floor of the logarithm is -1. *)
Lemma C4_floor_counterexample :
  select_zoom None (Some 200000%R) = Ok 0 /\
  floor (log2 (initial_resolution / 200000)) = -1 /\
  select_zoom None (Some 200000%R)
    <> Ok (floor (log2 (initial_resolution / 200000))).
Proof.
  assert (Hq : (1 / 2 < initial_resolution / 200000 < 1)%R)
    by (unfold initial_resolution; lra).
  assert (Hlo : (-1 < log2 (initial_resolution / 200000))%R)
    by (apply log2_gt_m1; lra).
  assert (Hhi : (log2 (initial_resolution / 200000) < 0)%R)
    by (apply log2_neg; lra).
  assert (Hc : ceil (log2 (initial_resolution / 200000)) = 0)
    by (apply ceil_unique; lra).
  assert (Hf : floor (log2 (initial_resolution / 200000)) = -1)
    by (apply floor_unique; lra).
  assert (Hz : select_zoom None (Some 200000%R) = Ok 0).
  { cbn [select_zoom]. rewrite resolution_to_zoom_level_pos by lra.
    rewrite int_neg by assumption. now rewrite Hc. }
  repeat split; [assumption | assumption |].
  rewrite Hz, Hf. discriminate.
Qed.

(** ** Reasoning about effects *)

Lemma mbind_ok_inv {A B} (m : M A) (k : A -> M B) (w w' : World) (b : B) :
  mbind m k w = (Ok b, w') ->
  exists a w1, m w = (Ok a, w1) /\ k a w1 = (Ok b, w').
Proof.
  unfold mbind. destruct (m w) as [[a | e] w1]; intros H.
  - now exists a, w1.
  - discriminate.
Qed.

Lemma mbind_ok {A B} (m : M A) (k : A -> M B) (w w1 : World) (a : A) :
  m w = (Ok a, w1) -> mbind m k w = k a w1.
Proof. unfold mbind. now intros ->. Qed.

Lemma mbind_raise {A B} (m : M A) (k : A -> M B) (w w1 : World) (e : exn) :
  m w = (Raise e, w1) -> mbind m k w = (Raise e, w1).
Proof. unfold mbind. now intros ->. Qed.

Lemma lift_ok_inv {A} (r : result A) (w w' : World) (a : A) :
  lift r w = (Ok a, w') -> r = Ok a /\ w' = w.
Proof. unfold lift. intros H. now inversion H. Qed.

Lemma keeps_trace_bind {A B} (m : M A) (k : A -> M B) :
  keeps_trace m -> (forall a, keeps_trace (k a)) -> keeps_trace (mbind m k).
Proof.
  intros Hm Hk w. unfold mbind. specialize (Hm w).
  destruct (m w) as [[a | e] w1]; cbn in *; [| assumption].
  now rewrite Hk.
Qed.

Lemma keeps_files_bind {A B} (m : M A) (k : A -> M B) :
  keeps_files m -> (forall a, keeps_files (k a)) -> keeps_files (mbind m k).
Proof.
  intros Hm Hk w. unfold mbind. specialize (Hm w).
  destruct (m w) as [[a | e] w1]; cbn in *; [| assumption].
  now rewrite Hk.
Qed.

Lemma keeps_trace_lift {A} (r : result A) : keeps_trace (lift r).
Proof. now intros w. Qed.
Lemma keeps_files_lift {A} (r : result A) : keeps_files (lift r).
Proof. now intros w. Qed.
Lemma keeps_trace_ret {A} (a : A) : keeps_trace (ret a).
Proof. now intros w. Qed.
Lemma keeps_files_ret {A} (a : A) : keeps_files (ret a).
Proof. now intros w. Qed.
Lemma keeps_files_raise {A} (e : exn) : keeps_files (@raise A e).
Proof. now intros w. Qed.

Lemma trace_bind_keeps {A B} (m : M A) (k : A -> M B) (w : World) :
  (forall a, keeps_trace (k a)) -> trace (snd (mbind m k w)) = trace (snd (m w)).
Proof.
  intros Hk. unfold mbind. destruct (m w) as [[a | e] w1]; cbn; [| reflexivity].
  apply Hk.
Qed.

Section RasterWriter.
Context {imaging : Imaging}.

Lemma keeps_trace_gdal_Create fn xs ys bands opts :
  keeps_trace (gdal_Create fn xs ys bands opts).
Proof. intros w. unfold gdal_Create. now destruct (_ || _). Qed.

Lemma keeps_trace_on_dataset fn f : keeps_trace (on_dataset fn f).
Proof. now intros w. Qed.

Lemma keeps_trace_write_bands fn img bands : keeps_trace (write_bands fn img bands).
Proof.
  induction bands as [| b bands IH]; cbn [write_bands].
  - apply keeps_trace_ret.
  - apply keeps_trace_bind; [apply keeps_trace_on_dataset | intros _; exact IH].
Qed.

Lemma gdal_Create_ok_inv fn xs ys bands opts w w' :
  gdal_Create fn xs ys bands opts w = (Ok tt, w') ->
  0 < xs /\ 0 < ys /\
  exists g, files w' !! fn = Some (Raster g) /\ xsize g = xs /\ ysize g = ys.
Proof.
  unfold gdal_Create.
  destruct (xs <=? 0) eqn:Hx; [discriminate |].
  destruct (ys <=? 0) eqn:Hy; [discriminate |].
  destruct (bands =? 0)%nat; [discriminate |]. cbn [orb].
  intros H. inversion H; subst w'; clear H.
  apply Z.leb_gt in Hx, Hy. repeat split; try assumption.
  eexists. cbn. rewrite lookup_insert_eq. repeat split.
Qed.

Lemma on_dataset_lookup fn f g w :
  files w !! fn = Some (Raster g) ->
  on_dataset fn f w = (Ok tt, snd (on_dataset fn f w)) /\
  files (snd (on_dataset fn f w)) !! fn = Some (Raster (f g)).
Proof.
  intros H. split; [reflexivity |]. cbn. now rewrite lookup_alter_eq, H.
Qed.

Lemma on_dataset_ok_inv fn f g w w' u :
  files w !! fn = Some (Raster g) ->
  on_dataset fn f w = (Ok u, w') ->
  files w' !! fn = Some (Raster (f g)).
Proof.
  intros H E. destruct (on_dataset_lookup fn f g w H) as [E1 L].
  rewrite E1 in E. inversion E; subst. exact L.
Qed.

(** Writing the bands succeeds and touches the rasters only. *)
Lemma write_bands_lookup fn img bands g w :
  files w !! fn = Some (Raster g) ->
  exists g' w',
    write_bands fn img bands w = (Ok tt, w') /\
    files w' !! fn = Some (Raster g') /\
    geotransform g' = geotransform g /\ projection g' = projection g /\
    xsize g' = xsize g /\ ysize g' = ysize g.
Proof.
  revert g w. induction bands as [| b bands IH]; intros g w Hg; cbn [write_bands].
  - exists g, w. now repeat split.
  - unfold WriteArray.
    destruct (on_dataset_lookup fn
      (fun g0 => {| xsize := xsize g0; ysize := ysize g0; options := options g0;
            geotransform := geotransform g0; projection := projection g0;
            rasters := <[b := getdata img b]> (rasters g0) |}) g w Hg) as [E1 E2].
    rewrite (mbind_ok _ _ _ _ _ E1).
    destruct (IH _ _ E2) as (g' & w' & R1 & R2 & R3 & R4 & R5 & R6).
    exists g', w'. now repeat split.
Qed.

End RasterWriter.

(** ** The fetcher *)

Section Fetcher.
Context {session : Session}.
Variable net : Network.

(** One pass of the loop, by the outcome of the attempt. *)
Lemma get_loop_response u retry k w s c :
  net u k = Response s c ->
  get_loop net u retry k w = (Ok (s, c), log (EvGet u) w).
Proof.
  intros H. destruct retry; cbn; unfold mbind, SESSION_get; now rewrite H.
Qed.

Lemma get_loop_retry u retry k w e :
  net u k = Fails e ->
  get_loop net u (S (S retry)) k w = get_loop net u (S retry) (S k) (log (EvGet u) w).
Proof.
  intros H. cbn. unfold mbind, SESSION_get. now rewrite H.
Qed.

Lemma get_loop_last u k w e :
  net u k = Fails e ->
  get_loop net u 1 k w = (Raise e, log (EvGet u) w).
Proof.
  intros H. cbn. unfold mbind, SESSION_get. now rewrite H.
Qed.

(** The loop only talks to the network, about its own URL, at least once
    and at most [retry] times. *)
Lemma get_loop_effects u retry k w :
  (1 <= retry)%nat ->
  exists n, (1 <= n <= retry)%nat /\
    trace (snd (get_loop net u retry k w)) = trace w ++ repeat (EvGet u) n /\
    files (snd (get_loop net u retry k w)) = files w.
Proof.
  revert k w. induction retry as [| retry IH]; intros k w Hr; [lia |].
  destruct (net u k) as [s c | e] eqn:Hn.
  - rewrite (get_loop_response _ _ _ _ _ _ Hn). exists 1%nat. cbn. repeat split; lia.
  - destruct retry as [| retry].
    + rewrite (get_loop_last _ _ _ _ Hn). exists 1%nat. cbn. repeat split; lia.
    + rewrite (get_loop_retry _ _ _ _ _ Hn).
      destruct (IH (S k) (log (EvGet u) w)) as (n & Hn1 & Ht & Hf); [lia |].
      exists (S n). rewrite Ht, Hf. cbn. rewrite <- app_assoc. repeat split; lia.
Qed.

Lemma get_tile_effects u w :
  exists n, (1 <= n <= 3)%nat /\
    trace (snd (get_tile net u w)) = trace w ++ repeat (EvGet u) n /\
    files (snd (get_tile net u w)) = files w.
Proof.
  destruct (get_loop_effects u 3 0 w) as (n & Hn & Ht & Hf); [lia |].
  exists n. split; [assumption |].
  unfold get_tile, mbind.
  destruct (get_loop net u 3 0 w) as [[[s c] | e] w1]; cbn in *; [| now split].
  destruct (s =? 404); [now split |].
  destruct c; [now split |].
  unfold lift. destruct (raise_for_status s) as [[] | e]; now split.
Qed.

Lemma submit_ok u w : submit net u w = (Ok (fst (get_tile net u w)), snd (get_tile net u w)).
Proof. unfold submit. now destruct (get_tile net u w). Qed.

(** Submitting never raises: one future per URL, in order. *)
Lemma submit_all_ok us w :
  exists futures w',
    submit_all net us w = (Ok futures, w') /\ length futures = length us.
Proof.
  revert w. induction us as [| u us IH]; intros w; cbn [submit_all].
  - now exists [], w.
  - rewrite (mbind_ok _ _ _ _ _ (submit_ok u w)).
    destruct (IH (snd (get_tile net u w))) as (fs & w' & E & L).
    rewrite (mbind_ok _ _ _ _ _ E).
    eexists _, w'. split; [reflexivity |]. cbn. now rewrite L.
Qed.

(** The requests of the fetch phase are those of the submitted URLs. *)
Lemma submit_all_effects us w :
  exists evs,
    trace (snd (submit_all net us w)) = trace w ++ evs /\
    files (snd (submit_all net us w)) = files w /\
    forall e, In e evs <-> exists u, In u us /\ e = EvGet u.
Proof.
  revert w. induction us as [| u us IH]; intros w; cbn [submit_all].
  - exists []. cbn. rewrite app_nil_r. repeat split; try tauto.
    intros (u & [] & _).
  - rewrite (mbind_ok _ _ _ _ _ (submit_ok u w)).
    destruct (get_tile_effects u w) as (n & Hn & Ht & Hf).
    set (w1 := snd (get_tile net u w)) in *.
    destruct (IH w1) as (evs & Et & Ef & Ein).
    destruct (submit_all_ok us w1) as (fs & w' & E & _).
    rewrite E in Et, Ef. cbn in Et, Ef.
    rewrite (mbind_ok _ _ _ _ _ E). cbn.
    exists (repeat (EvGet u) n ++ evs).
    rewrite Et, Ht, Ef, Hf, <- app_assoc. repeat split.
    + intros [H | H]%in_app_or.
      * apply repeat_spec in H. exists u. split; [now left | assumption].
      * apply Ein in H as (u' & Hu' & ->). exists u'. split; [now right | reflexivity].
    + intros (u' & [<- | Hu'] & ->); apply in_or_app.
      * left. destruct n as [| n]; [lia |]. now left.
      * right. apply Ein. now exists u'.
Qed.

End Fetcher.

(** ** The covering tile range *)

Lemma In_range (a b i : Z) : In i (range a b) <-> a <= i < b.
Proof.
  unfold range. rewrite in_map_iff. split.
  - intros (n & <- & Hn%in_seq). lia.
  - intros H. exists (Z.to_nat (i - a)). split; [lia |].
    apply in_seq. lia.
Qed.

Lemma In_product {A B} (xs : list A) (ys : list B) (x : A) (y : B) :
  In (x, y) (product xs ys) <-> In x xs /\ In y ys.
Proof.
  unfold product. rewrite in_flat_map. split.
  - intros (x' & Hx & Hy%in_map_iff). destruct Hy as (y' & [= <- <-] & Hy). now split.
  - intros [Hx Hy]. exists x. split; [assumption |]. apply in_map_iff. now exists y.
Qed.

Lemma In_tile_corners (x0 y0 x1 y1 : R) (x y : Z) :
  In (x, y) (tile_corners x0 y0 x1 y1) <->
  floor x0 <= x < ceil x1 /\ floor y0 <= y < ceil y1.
Proof.
  unfold tile_corners. now rewrite In_product, !In_range.
Qed.

Lemma NoDup_range (a b : Z) : List.NoDup (range a b).
Proof.
  unfold range. apply Finite.Injective_map_NoDup; [| apply List.seq_NoDup].
  intros i j. lia.
Qed.

Section SlippyMap.
#[local] Open Scope R_scope.

Lemma radians_toRad (deg : R) : radians deg = Spec.toRad deg.
Proof. unfold radians, Spec.toRad. lra. Qed.

Lemma deg2num_ok lat lon zoom :
  cos (radians lat) <> 0 ->
  0 < tan (radians lat) + 1 / cos (radians lat) ->
  deg2num lat lon zoom
  = Ok ((lon + 180) / 360 * pow2 zoom,
        (1 - ln (tan (radians lat) + 1 / cos (radians lat)) / PI) / 2 * pow2 zoom).
Proof.
  intros Hc Hl. unfold deg2num.
  unfold truediv. destruct (Req_dec_T (cos (radians lat)) 0); [contradiction |]. cbn.
  unfold math_log. destruct (Rlt_dec 0 _); [reflexivity | contradiction].
Qed.

(** When [deg2num] returns, it returns the coordinates of the slippy-map
    formula. *)
Lemma deg2num_ok_inv lat lon zoom p :
  deg2num lat lon zoom = Ok p -> p = Spec.tile_xy lat lon zoom.
Proof.
  unfold deg2num, truediv.
  destruct (Req_dec_T (cos (radians lat)) 0); [discriminate |]. cbn.
  unfold math_log. destruct (Rlt_dec 0 _); [| discriminate]. cbn.
  intros [= <-]. unfold Spec.tile_xy, Spec.sec, pow2.
  now rewrite radians_toRad.
Qed.

End SlippyMap.

Section DrawTile.
Context {session : Session} {formatter : Formatter} {imaging : Imaging}.
Variable net : Network.
Variable WKT_3857 : string.

(** After the fetch phase [draw_tile] does not use the network. *)
Lemma keeps_trace_draw_fetched jobs lat0 lon0 lat1 lon1 filename kwargs x0 y0 x1 y1 :
  keeps_trace (draw_fetched WKT_3857 jobs lat0 lon0 lat1 lon1 filename kwargs
                 x0 y0 x1 y1).
Proof.
  unfold draw_fetched.
  apply keeps_trace_bind; [apply keeps_trace_lift |]. intros [bigim base_size].
  apply keeps_trace_bind; [apply keeps_trace_lift |]. intros img.
  apply keeps_trace_bind; [apply keeps_trace_gdal_Create |]. intros _.
  apply keeps_trace_bind; [apply keeps_trace_lift |]. intros gt.
  apply keeps_trace_bind; [apply keeps_trace_on_dataset |]. intros _.
  apply keeps_trace_bind; [apply keeps_trace_on_dataset |]. intros _.
  apply keeps_trace_bind; [apply keeps_trace_write_bands |]. intros _.
  apply keeps_trace_ret.
Qed.

Lemma draw_sorted_trace source lat0 lon0 lat1 lon1 zoom filename kwargs x0 y0 x1 y1 w :
  trace (snd (draw_sorted net WKT_3857 source lat0 lon0 lat1 lon1 zoom filename
                kwargs x0 y0 x1 y1 w))
  = trace (snd (submit_tiles net source zoom (tile_corners x0 y0 x1 y1) w)).
Proof.
  unfold draw_sorted. apply trace_bind_keeps. intros futures.
  apply keeps_trace_draw_fetched.
Qed.

Lemma format_url_ok source zoom x y :
  format_error source zoom x y = None ->
  format_url source zoom x y = Ok (Url source zoom x y).
Proof. unfold format_url. now intros ->. Qed.

Lemma format_url_ok_inv source zoom x y u :
  format_url source zoom x y = Ok u ->
  format_error source zoom x y = None /\ u = Url source zoom x y.
Proof.
  unfold format_url. destruct (format_error source zoom x y); [discriminate |].
  intros [= <-]. now split.
Qed.

Lemma format_url_raise source zoom x y e :
  format_error source zoom x y = Some e ->
  format_url source zoom x y = Raise e.
Proof. unfold format_url. now intros ->. Qed.

Lemma formats_cons source zoom x y corners :
  formats source zoom ((x, y) :: corners) <->
  format_error source zoom x y = None /\ formats source zoom corners.
Proof.
  unfold formats. split.
  - intros H. split; [apply H; now left |]. intros x' y' Hin. apply H. now right.
  - intros [H0 H] x' y' [[= <- <-] | Hin]; [exact H0 | now apply H].
Qed.

Lemma formats_dec source zoom corners :
  formats source zoom corners \/ ~ formats source zoom corners.
Proof.
  induction corners as [| [x y] corners IH].
  - left. intros x y [].
  - destruct (format_error source zoom x y) as [e |] eqn:E.
    + right. intros H. apply formats_cons in H as [H _]. congruence.
    + destruct IH as [IH | IH].
      * left. apply formats_cons. now split.
      * right. intros H. apply formats_cons in H as [_ H]. contradiction.
Qed.

(** Once every URL is formatted the loop is the submission of the URLs. *)
Lemma submit_tiles_formats source zoom corners w :
  formats source zoom corners ->
  submit_tiles net source zoom corners w
  = submit_all net (map (fun c => Url source zoom (fst c) (snd c)) corners) w.
Proof.
  revert w. induction corners as [| [x y] corners IH]; intros w H; [reflexivity |].
  apply formats_cons in H as [H0 H].
  cbn [submit_tiles map submit_all fst snd]. unfold mbind at 1, lift.
  rewrite (format_url_ok _ _ _ _ H0). unfold mbind.
  destruct (submit net _ w) as [[f | e] w1]; [| reflexivity].
  now rewrite (IH w1 H).
Qed.

(** The loop returns only when every URL was formatted. *)
Lemma submit_tiles_ok_inv source zoom corners w futures w' :
  submit_tiles net source zoom corners w = (Ok futures, w') ->
  formats source zoom corners.
Proof.
  revert w futures w'. induction corners as [| [x y] corners IH]; intros w futures w' H.
  - intros x y [].
  - cbn [submit_tiles] in H. unfold mbind at 1, lift, format_url in H.
    destruct (format_error source zoom x y) eqn:E0; [discriminate |].
    unfold mbind in H.
    destruct (submit net _ w) as [[f | e] w1]; [| discriminate].
    destruct (submit_tiles net source zoom corners w1) as [[fs | e] w2] eqn:E;
      [| discriminate].
    apply formats_cons. split; [exact E0 |]. exact (IH _ _ _ E).
Qed.

(** Whatever the loop does, it changes no file and requests tiles of
    [corners] only. *)
Lemma submit_tiles_effects source zoom corners w :
  exists evs,
    trace (snd (submit_tiles net source zoom corners w)) = trace w ++ evs /\
    files (snd (submit_tiles net source zoom corners w)) = files w /\
    forall e, In e evs ->
      exists x y, In (x, y) corners /\ e = EvGet (Url source zoom x y).
Proof.
  revert w. induction corners as [| [x y] corners IH]; intros w.
  - exists []. cbn. rewrite app_nil_r. repeat split. intros e [].
  - cbn [submit_tiles]. unfold mbind at 1, lift, format_url.
    destruct (format_error source zoom x y).
    + exists []. cbn. rewrite app_nil_r. repeat split. intros e' [].
    + unfold mbind. rewrite submit_ok.
      destruct (get_tile_effects net (Url source zoom x y) w) as (n & Hn & Ht & Hf).
      set (w1 := snd (get_tile net (Url source zoom x y) w)) in *.
      destruct (IH w1) as (evs & Et & Ef & Ein).
      exists (repeat (EvGet (Url source zoom x y)) n ++ evs).
      destruct (submit_tiles net source zoom corners w1) as [[fs | e] w2];
        cbn in Et, Ef |- *; rewrite Et, Ht, Ef, Hf, <- app_assoc;
        (split; [reflexivity |]; split; [reflexivity |]);
        intros e0 [H | H]%in_app_or;
        try (apply repeat_spec in H; exists x, y; split; [now left | assumption]);
        apply Ein in H as (x' & y' & Hin & ->); exists x', y'; (split; [now right | reflexivity]).
Qed.

Lemma submit_tiles_files source zoom corners w :
  files (snd (submit_tiles net source zoom corners w)) = files w.
Proof. destruct (submit_tiles_effects source zoom corners w) as (_ & _ & H & _). exact H. Qed.

Lemma draw_tile_sorted source lat0 lon0 lat1 lon1 zoom filename kwargs xa ya xb yb w :
  deg2num lat0 lon0 zoom = Ok (xa, ya) ->
  deg2num lat1 lon1 zoom = Ok (xb, yb) ->
  draw_tile net WKT_3857 source lat0 lon0 lat1 lon1 zoom filename kwargs w
  = draw_sorted net WKT_3857 source lat0 lon0 lat1 lon1 zoom filename kwargs
      (Rmin xa xb) (Rmin ya yb) (Rmax xa xb) (Rmax ya yb) w.
Proof.
  intros Ha Hb. unfold draw_tile, mbind, lift. now rewrite Ha, Hb.
Qed.

End DrawTile.

(** C3.  The tiles requested from the source are those of the product of
    the ranges [floor x0, ceil x1) and [floor y0, ceil y1), where (x0, y0)
    and (x1, y1) are the sorted fractional tile coordinates of the two
    corners under the slippy-map formula: a request is made for an index
    exactly when it lies in both ranges, and nothing else is requested. *)
Theorem C3_requested_tiles {session : Session} {formatter : Formatter}
    {imaging : Imaging}
    (net : Network) (WKT_3857 source : string) (lat0 lon0 lat1 lon1 : R) (zoom : Z)
    (filename : string) (kwargs : option (list string)) (w : World)
    (xa ya xb yb : R) :
  deg2num lat0 lon0 zoom = Ok (xa, ya) ->
  deg2num lat1 lon1 zoom = Ok (xb, yb) ->
  let x0 := Rmin xa xb in let x1 := Rmax xa xb in
  let y0 := Rmin ya yb in let y1 := Rmax ya yb in
  formats source zoom (tile_corners x0 y0 x1 y1) ->
  (xa, ya) = Spec.tile_xy lat0 lon0 zoom /\
  (xb, yb) = Spec.tile_xy lat1 lon1 zoom /\
  exists evs,
    trace (snd (draw_tile net WKT_3857 source lat0 lon0 lat1 lon1 zoom filename kwargs w))
      = trace w ++ evs /\
    (forall x y, In (EvGet (Url source zoom x y)) evs <->
                 floor x0 <= x < ceil x1 /\ floor y0 <= y < ceil y1) /\
    (forall e, In e evs -> exists x y, e = EvGet (Url source zoom x y)).
Proof.
  intros Ha Hb x0 x1 y0 y1 Hf.
  split; [exact (deg2num_ok_inv _ _ _ _ Ha) |].
  split; [exact (deg2num_ok_inv _ _ _ _ Hb) |].
  rewrite (draw_tile_sorted _ _ _ _ _ _ _ _ _ _ _ _ _ _ _ Ha Hb), draw_sorted_trace.
  rewrite (submit_tiles_formats _ _ _ _ _ Hf).
  destruct (submit_all_effects net
              (map (fun c => Url source zoom (fst c) (snd c))
                 (tile_corners (Rmin xa xb) (Rmin ya yb) (Rmax xa xb) (Rmax ya yb))) w)
    as (evs & Et & _ & Ein).
  exists evs. split; [assumption |]. split.
  - intros x y. rewrite Ein, <- In_tile_corners. split.
    + intros (u & Hu%in_map_iff & [= <-]).
      destruct Hu as ([x' y'] & [= <- <-] & Hc). exact Hc.
    + intros Hc. eexists. split; [| reflexivity].
      apply in_map_iff. now exists (x, y).
  - intros e (u & Hu%in_map_iff & ->)%Ein.
    destruct Hu as ([x' y'] & <- & _). now exists x', y'.
Qed.

(** ** The geotransform *)


Section GeoTransform.
#[local] Open Scope R_scope.

Lemma mercator_angle (lat : R) : radians (45 + lat / 2.0) = PI / 4 + Spec.toRad lat / 2.
Proof. unfold radians, Spec.toRad. lra. Qed.

Lemma from4326_to3857_ok_inv lat lon x y :
  from4326_to3857 lat lon = Ok (x, y) ->
  x = Spec.mercator_x lon /\ y = Spec.mercator_y lat.
Proof.
  unfold from4326_to3857, math_log.
  destruct (Rlt_dec 0 (tan (radians (45 + lat / 2.0)))); cbn; [| discriminate].
  intros [= <- <-]. rewrite mercator_angle.
  unfold Spec.mercator_x, Spec.mercator_y.
  change EARTH_EQUATORIAL_RADIUS with Spec.Rearth.
  generalize Spec.Rearth as earth. intros earth.
  unfold radians, Spec.toRad. split; field.
Qed.

Lemma from4326_to3857_ok lat lon :
  0 < tan (radians (45 + lat / 2.0)) ->
  from4326_to3857 lat lon = Ok (Spec.mercator_x lon, Spec.mercator_y lat).
Proof.
  intros H.
  destruct (from4326_to3857 lat lon) as [[x y] | e] eqn:E.
  - apply from4326_to3857_ok_inv in E as [-> ->]. reflexivity.
  - unfold from4326_to3857, math_log in E.
    destruct (Rlt_dec 0 (tan (radians (45 + lat / 2.0)))); [discriminate | contradiction].
Qed.

Lemma truediv_ok_inv a b q : truediv a b = Ok q -> b <> 0 /\ q = a / b.
Proof.
  unfold truediv. destruct (Req_dec_T b 0); [discriminate |].
  intros [= <-]. now split.
Qed.

Lemma truediv_ok a b : b <> 0 -> truediv a b = Ok (a / b).
Proof.
  intros H. unfold truediv. destruct (Req_dec_T b 0); [contradiction | reflexivity].
Qed.

(** Whenever the geotransform is computed, it is the one of the
    specification. *)
Lemma make_geotransform_ok_inv lat0 lon0 lat1 lon1 w h gt :
  make_geotransform lat0 lon0 lat1 lon1 w h = Ok gt ->
  gt = Spec.geotransform lat0 lon0 lat1 lon1 w h.
Proof.
  unfold make_geotransform.
  destruct (from4326_to3857 lat0 lon0) as [[xp0 yp0] | e] eqn:E0; [| discriminate].
  destruct (from4326_to3857 lat1 lon1) as [[xp1 yp1] | e] eqn:E1; [| discriminate].
  cbn.
  destruct (truediv (Rabs (xp1 - xp0)) (IZR w)) as [pw | e] eqn:Ew; [| discriminate].
  destruct (truediv (Rabs (yp1 - yp0)) (IZR h)) as [ph | e] eqn:Eh; [| discriminate].
  cbn. intros [= <-].
  apply from4326_to3857_ok_inv in E0 as [-> ->], E1 as [-> ->].
  apply truediv_ok_inv in Ew as [_ ->], Eh as [_ ->].
  reflexivity.
Qed.

(** It is computed for every image with pixels between latitudes where
    the Mercator ordinate exists. *)
Lemma make_geotransform_ok lat0 lon0 lat1 lon1 w h :
  (0 < w)%Z -> (0 < h)%Z ->
  0 < tan (radians (45 + lat0 / 2.0)) ->
  0 < tan (radians (45 + lat1 / 2.0)) ->
  make_geotransform lat0 lon0 lat1 lon1 w h
  = Ok (Spec.geotransform lat0 lon0 lat1 lon1 w h).
Proof.
  intros Hw Hh H0 H1. unfold make_geotransform.
  rewrite (from4326_to3857_ok _ lon0 H0), (from4326_to3857_ok _ lon1 H1). cbn.
  apply IZR_lt in Hw, Hh.
  rewrite !truediv_ok by lra. reflexivity.
Qed.

End GeoTransform.

Section DrawTileResult.
Context {session : Session} {formatter : Formatter} {imaging : Imaging}.
Variable net : Network.
Variable WKT_3857 : string.

(** What a successful [draw_tile] leaves at [filename]. *)
Lemma draw_fetched_ok_inv jobs lat0 lon0 lat1 lon1 filename kwargs
    x0 y0 x1 y1 w img w' :
  draw_fetched WKT_3857 jobs lat0 lon0 lat1 lon1 filename kwargs
    x0 y0 x1 y1 w = (Ok img, w') ->
  exists g,
    files w' !! filename = Some (Raster g) /\
    geotransform g
      = Spec.geotransform lat0 lon0 lat1 lon1 (fst (size img)) (snd (size img)) /\
    projection g = WKT_3857 /\
    xsize g = fst (size img) /\ ysize g = snd (size img).
Proof.
  unfold draw_fetched. intros H.
  apply mbind_ok_inv in H as ([bigim base_size] & w2 & _ & H).
  apply mbind_ok_inv in H as (img' & w3 & _ & H).
  apply mbind_ok_inv in H as ([] & w4 & Hc & H).
  apply mbind_ok_inv in H as (gt & w5 & Hgt & H).
  apply lift_ok_inv in Hgt as [Hgt ->].
  apply mbind_ok_inv in H as ([] & w6 & Hs & H).
  apply mbind_ok_inv in H as ([] & w7 & Hp & H).
  apply mbind_ok_inv in H as ([] & w8 & Hb & H).
  inversion H; subst img' w8; clear H.
  apply gdal_Create_ok_inv in Hc as (_ & _ & g0 & L0 & X0 & Y0).
  apply make_geotransform_ok_inv in Hgt.
  pose proof (on_dataset_ok_inv _ _ _ _ _ _ L0 Hs) as L1.
  pose proof (on_dataset_ok_inv _ _ _ _ _ _ L1 Hp) as L2.
  destruct (write_bands_lookup filename img (seq 0 (length (getbands img))) _ w7 L2)
    as (g' & w8 & R1 & R2 & R3 & R4 & R5 & R6).
  rewrite R1 in Hb. inversion Hb; subst w8; clear Hb.
  exists g'. cbn in R3, R4, R5, R6.
  rewrite R3, R4, R5, R6, Hgt. now repeat split.
Qed.

Lemma draw_sorted_ok_inv source lat0 lon0 lat1 lon1 zoom filename kwargs
    x0 y0 x1 y1 w img w' :
  draw_sorted net WKT_3857 source lat0 lon0 lat1 lon1 zoom filename kwargs
    x0 y0 x1 y1 w = (Ok img, w') ->
  exists g,
    files w' !! filename = Some (Raster g) /\
    geotransform g
      = Spec.geotransform lat0 lon0 lat1 lon1 (fst (size img)) (snd (size img)) /\
    projection g = WKT_3857 /\
    xsize g = fst (size img) /\ ysize g = snd (size img).
Proof.
  unfold draw_sorted. intros H.
  apply mbind_ok_inv in H as (futures & w1 & _ & H).
  now apply draw_fetched_ok_inv in H.
Qed.

End DrawTileResult.

(** C2.  The raster that [draw_tile] writes for an image of [w] by [h]
    pixels carries the geotransform
    (min(x0,x1), |x1-x0|/w, 0, max(y0,y1), 0, -|y1-y0|/h), the corners being
    projected by x = R*lonRad and y = R*ln(tan(pi/4 + latRad/2)). *)
Theorem C2_geotransform_written {session : Session} {formatter : Formatter}
    {imaging : Imaging}
    (net : Network) (WKT_3857 source : string) (lat0 lon0 lat1 lon1 : R) (zoom : Z)
    (filename : string) (kwargs : option (list string)) (w w' : World) (img : Image) :
  draw_tile net WKT_3857 source lat0 lon0 lat1 lon1 zoom filename kwargs w
    = (Ok img, w') ->
  exists g,
    files w' !! filename = Some (Raster g) /\
    geotransform g
      = Spec.geotransform lat0 lon0 lat1 lon1 (fst (size img)) (snd (size img)).
Proof.
  unfold draw_tile. intros H.
  apply mbind_ok_inv in H as ([xa ya] & w1 & _ & H).
  apply mbind_ok_inv in H as ([xb yb] & w2 & _ & H).
  cbn in H.
  apply draw_sorted_ok_inv in H as (g & L & G & _).
  now exists g.
Qed.

(** ** What a fetch returns *)

Section FetchResults.
Context {session : Session}.
Variable net : Network.

Lemma get_loop_fst u retry k w w0 :
  fst (get_loop net u retry k w) = fst (get_loop net u retry k w0).
Proof.
  revert k w w0. induction retry as [| retry IH]; intros k w w0.
  - cbn. unfold mbind, SESSION_get. now destruct (net u k).
  - destruct (net u k) as [s c | e] eqn:Hn.
    + now rewrite !(get_loop_response _ _ _ _ _ _ _ Hn).
    + destruct retry as [| retry].
      * now rewrite !(get_loop_last _ _ _ _ _ Hn).
      * rewrite !(get_loop_retry _ _ _ _ _ _ Hn). apply IH.
Qed.

Lemma get_tile_fst u w : fst (get_tile net u w) = tile_future net u.
Proof.
  unfold tile_future, get_tile, mbind.
  pose proof (get_loop_fst u 3 0 w no_world) as H.
  destruct (get_loop net u 3 0 w) as [[[s c] | e] w1],
           (get_loop net u 3 0 no_world) as [[[s' c'] | e'] w1'];
    cbn in H; try discriminate; injection H as H; subst; [| reflexivity].
  destruct (s' =? 404); [reflexivity |].
  destruct c'; [reflexivity |].
  unfold lift. now destruct (raise_for_status s').
Qed.

(** The futures are those of the URLs, in submission order. *)
Lemma submit_all_futures us w :
  fst (submit_all net us w) = Ok (map (tile_future net) us).
Proof.
  revert w. induction us as [| u us IH]; intros w; cbn [submit_all map].
  - reflexivity.
  - rewrite (mbind_ok _ _ _ _ _ (submit_ok net u w)).
    specialize (IH (snd (get_tile net u w))).
    unfold mbind.
    destruct (submit_all net us (snd (get_tile net u w))) as [[fs | e] w'];
      cbn in IH; [| discriminate].
    injection IH as ->. cbn. now rewrite get_tile_fst.
Qed.

(** The loop stops at the first response. *)
Lemma get_loop_answers u k s c w :
  answers net u k s c ->
  get_loop net u 3 0 w
  = (Ok (s, c), {| files := files w; trace := trace w ++ repeat (EvGet u) (S k) |}).
Proof.
  intros (Hk & Hfail & Hresp).
  destruct k as [| [| [| k]]]; [| | | lia].
  - now rewrite (get_loop_response _ _ _ _ _ _ _ Hresp).
  - destruct (Hfail 0%nat) as [e0 H0]; [lia |].
    rewrite (get_loop_retry _ _ _ _ _ _ H0), (get_loop_response _ _ _ _ _ _ _ Hresp).
    unfold log. cbn. now rewrite <- app_assoc.
  - destruct (Hfail 0%nat) as [e0 H0]; [lia |].
    destruct (Hfail 1%nat) as [e1 H1]; [lia |].
    rewrite (get_loop_retry _ _ _ _ _ _ H0), (get_loop_retry _ _ _ _ _ _ H1),
      (get_loop_response _ _ _ _ _ _ _ Hresp).
    unfold log. cbn. now rewrite <- !app_assoc.
Qed.



(** The three ways [get_tile] ends on a response. *)
Lemma get_tile_absent u k s c w :
  answers net u k s c -> s = 404 \/ c = [] ->
  get_tile net u w
  = (Ok None, {| files := files w; trace := trace w ++ repeat (EvGet u) (S k) |}).
Proof.
  intros H Habs. unfold get_tile.
  rewrite (mbind_ok _ _ _ _ _ (get_loop_answers _ _ _ _ w H)).
  destruct (s =? 404) eqn:Hs; [reflexivity |].
  destruct Habs as [-> | ->]; [discriminate | reflexivity].
Qed.

Lemma get_tile_status_error u k s c w :
  answers net u k s c -> s <> 404 -> c <> [] -> error_status s = true ->
  get_tile net u w
  = (Raise (HTTPStatusError s),
     {| files := files w; trace := trace w ++ repeat (EvGet u) (S k) |}).
Proof.
  intros H Hs Hc He. unfold get_tile.
  rewrite (mbind_ok _ _ _ _ _ (get_loop_answers _ _ _ _ w H)).
  apply Z.eqb_neq in Hs. rewrite Hs.
  destruct c; [contradiction |].
  unfold mbind, lift, raise_for_status. now rewrite He.
Qed.

Lemma get_tile_content u k s c w :
  answers net u k s c -> s <> 404 -> c <> [] -> error_status s = false ->
  get_tile net u w
  = (Ok (Some c), {| files := files w; trace := trace w ++ repeat (EvGet u) (S k) |}).
Proof.
  intros H Hs Hc He. unfold get_tile.
  rewrite (mbind_ok _ _ _ _ _ (get_loop_answers _ _ _ _ w H)).
  apply Z.eqb_neq in Hs. rewrite Hs.
  destruct c; [contradiction |].
  unfold mbind, lift, raise_for_status. now rewrite He.
Qed.

Lemma tile_future_eq u w r w' : get_tile net u w = (r, w') -> tile_future net u = r.
Proof. intros H. now rewrite <- (get_tile_fst u w), H. Qed.

End FetchResults.

(** ** The compositor *)




Section Compositor.
Context {session : Session} {formatter : Formatter} {imaging : Imaging}.
Variable WKT_3857 : string.





(** An absent tile is a step of the loop that changes nothing. *)
Lemma paste_tile_absent bigim base_size corner_xy bbox :
  paste_tile bigim base_size None corner_xy bbox = Ok (bigim, base_size).
Proof. reflexivity. Qed.

Lemma paste_all_skip jobs1 jobs2 corner_xy bbox bigim base_size :
  paste_all (jobs1 ++ (Ok None, corner_xy) :: jobs2) bbox bigim base_size
  = paste_all (jobs1 ++ jobs2) bbox bigim base_size.
Proof.
  revert bigim base_size.
  induction jobs1 as [| [fut c] jobs1 IH]; intros bigim base_size; cbn.
  - reflexivity.
  - destruct fut as [tile | e]; cbn; [| reflexivity].
    destruct (paste_tile bigim base_size tile c bbox) as [[b s] | e]; cbn;
      [apply IH | reflexivity].
Qed.

Lemma paste_all_absent jobs bbox bigim base_size :
  (forall j, In j jobs -> fst j = Ok None) ->
  paste_all jobs bbox bigim base_size = Ok (bigim, base_size).
Proof.
  induction jobs as [| [fut c] jobs IH]; intros H; cbn.
  - reflexivity.
  - assert (fut = Ok None) as -> by exact (H (fut, c) (or_introl eq_refl)).
    cbn. apply IH. intros j Hj. apply H. now right.
Qed.

(** A future that holds an exception stops the loop, at that tile or
    before. *)
Lemma paste_all_raise jobs bbox bigim base_size e corner_xy :
  In (Raise e, corner_xy) jobs ->
  exists e', paste_all jobs bbox bigim base_size = Raise e'.
Proof.
  revert bigim base_size.
  induction jobs as [| [fut c] jobs IH]; intros bigim base_size Hin; [destruct Hin |].
  cbn. destruct Hin as [[= -> ->] | Hin]; [now exists e |].
  destruct fut as [tile | e0]; cbn; [| now exists e0].
  destruct (paste_tile bigim base_size tile c bbox) as [[b s] | e1]; cbn;
    [now apply IH | now exists e1].
Qed.

Lemma draw_fetched_paste_raise jobs lat0 lon0 lat1 lon1 filename kwargs x0 y0 x1 y1 w e :
  paste_all jobs (floor x0, floor y0, ceil x1, ceil y1) None (256, 256) = Raise e ->
  draw_fetched WKT_3857 jobs lat0 lon0 lat1 lon1 filename kwargs x0 y0 x1 y1 w
  = (Raise e, w).
Proof.
  intros H. unfold draw_fetched, mbind, lift. now rewrite H.
Qed.

(** Without a canvas the crop is an attribute access on [None]. *)
Lemma draw_fetched_no_canvas jobs lat0 lon0 lat1 lon1 filename kwargs x0 y0 x1 y1 w bs :
  paste_all jobs (floor x0, floor y0, ceil x1, ceil y1) None (256, 256) = Ok (None, bs) ->
  draw_fetched WKT_3857 jobs lat0 lon0 lat1 lon1 filename kwargs x0 y0 x1 y1 w
  = (Raise (AttributeError "'NoneType' object has no attribute 'crop'"), w).
Proof.
  intros H. unfold draw_fetched, mbind, lift. rewrite H. reflexivity.
Qed.

Lemma combine_map_self {A B} (f : A -> B) (l : list A) :
  combine (map f l) l = map (fun a => (f a, a)) l.
Proof. induction l as [| a l IH]; cbn; [reflexivity | now rewrite IH]. Qed.

Lemma draw_sorted_fetched net source lat0 lon0 lat1 lon1 zoom filename kwargs
    x0 y0 x1 y1 w :
  formats source zoom (tile_corners x0 y0 x1 y1) ->
  draw_sorted net WKT_3857 source lat0 lon0 lat1 lon1 zoom filename kwargs
    x0 y0 x1 y1 w
  = draw_fetched WKT_3857 (jobs_of net source zoom (tile_corners x0 y0 x1 y1))
      lat0 lon0 lat1 lon1 filename kwargs x0 y0 x1 y1
      (snd (submit_all net
              (map (fun c => Url source zoom (fst c) (snd c))
                 (tile_corners x0 y0 x1 y1)) w)).
Proof.
  intros Hf. unfold draw_sorted, mbind.
  rewrite (submit_tiles_formats net _ _ _ w Hf).
  pose proof (submit_all_futures net
    (map (fun c => Url source zoom (fst c) (snd c)) (tile_corners x0 y0 x1 y1)) w) as H.
  destruct (submit_all net _ w) as [[fs | e] w1]; cbn in H; [| discriminate].
  injection H as ->. cbn [snd].
  rewrite map_map.
  rewrite (combine_map_self
    (fun c => tile_future net (Url source zoom (fst c) (snd c)))). reflexivity.
Qed.

(** When some URL cannot be formatted [draw_tile] raises what [format]
    raises, whatever the network does, and the files are as they were. *)
Lemma draw_sorted_format_raises source lat0 lon0 lat1 lon1 zoom filename kwargs
    x0 y0 x1 y1 :
  ~ formats source zoom (tile_corners x0 y0 x1 y1) ->
  exists e, forall net w,
    fst (draw_sorted net WKT_3857 source lat0 lon0 lat1 lon1 zoom filename kwargs
           x0 y0 x1 y1 w) = Raise e /\
    files (snd (draw_sorted net WKT_3857 source lat0 lon0 lat1 lon1 zoom filename
                  kwargs x0 y0 x1 y1 w)) = files w.
Proof.
  intros Hn.
  assert (Hr : exists e, forall net w,
             fst (submit_tiles net source zoom (tile_corners x0 y0 x1 y1) w) = Raise e).
  { clear -Hn. induction (tile_corners x0 y0 x1 y1) as [| [x y] l IH].
    - exfalso. apply Hn. intros x y [].
    - destruct (format_error source zoom x y) as [e |] eqn:E0.
      + exists e. intros net w. cbn [submit_tiles]. unfold mbind at 1, lift.
        now rewrite (format_url_raise _ _ _ _ _ E0).
      + destruct IH as [e He].
        { intros Hf. apply Hn. apply formats_cons. now split. }
        exists e. intros net w. cbn [submit_tiles]. unfold mbind at 1, lift.
        rewrite (format_url_ok _ _ _ _ E0). unfold mbind.
        rewrite submit_ok.
        specialize (He net (snd (get_tile net (Url source zoom x y) w))).
        destruct (submit_tiles net source zoom l _) as [[fs | e'] w2];
          cbn in He; [discriminate |]. cbn. exact He. }
  destruct Hr as [e He]. exists e. intros net w.
  specialize (He net w). unfold draw_sorted, mbind.
  pose proof (submit_tiles_files net source zoom (tile_corners x0 y0 x1 y1) w) as Hfl.
  destruct (submit_tiles net source zoom _ w) as [[fs | e'] w1]; cbn in He;
    [discriminate |]. injection He as ->. cbn in Hfl |- *.
  split; [reflexivity | exact Hfl].
Qed.

End Compositor.

(** ** The whole operation *)

Section Operation.
Context {session : Session} {formatter : Formatter} {imaging : Imaging} {rio : RasterIO}.
Variable basemaps : gmap string string.
Variable WKT_3857 : string.

(** The operation, stage by stage. *)
Lemma tms_to_geotiff_unfold net output bbox zoom resolution source crs to_cog
    return_image overwrite quiet kwargs w :
  tms_to_geotiff net basemaps WKT_3857 output bbox zoom resolution source crs
    to_cog return_image overwrite quiet kwargs w
  = if negb overwrite && exists_ output w then (Ok None, w)
    else
      match resolve_source basemaps source with
      | Raise e => (Raise e, w)
      | Ok src =>
          match unpack_bbox bbox with
          | Raise e => (Raise e, w)
          | Ok (west, south, east, north) =>
              match select_zoom zoom resolution with
              | Raise e => (Raise e, w)
              | Ok z =>
                  reraise
                    (do! image := draw_tile net WKT_3857 src south west north east z
                                    output kwargs in
                     after_draw output crs to_cog return_image image) w
              end
          end
      end.
Proof.
  unfold tms_to_geotiff.
  destruct (negb overwrite && exists_ output w); [reflexivity |].
  unfold mbind at 1. unfold lift at 1.
  destruct (resolve_source basemaps source) as [src | e]; [| reflexivity].
  unfold mbind at 1. unfold lift at 1.
  destruct (unpack_bbox bbox) as [[[[west south] east] north] | e]; [| reflexivity].
  unfold mbind at 1. unfold lift at 1.
  destruct (select_zoom zoom resolution) as [z | e]; reflexivity.
Qed.

(** Past the validation the operation is the [try] block. *)
Lemma tms_to_geotiff_validated net output west south east north zoom resolution
    source crs to_cog return_image overwrite quiet kwargs w src z :
  overwrite = true \/ files w !! output = None ->
  resolve_source basemaps source = Ok src ->
  select_zoom zoom resolution = Ok z ->
  tms_to_geotiff net basemaps WKT_3857 output [west; south; east; north] zoom
    resolution source crs to_cog return_image overwrite quiet kwargs w
  = reraise
      (do! image := draw_tile net WKT_3857 src south west north east z output kwargs in
       after_draw output crs to_cog return_image image) w.
Proof.
  intros Hskip Hsrc Hz. rewrite tms_to_geotiff_unfold.
  assert (negb overwrite && exists_ output w = false) as ->.
  { destruct Hskip as [-> | Hnone]; [reflexivity |].
    unfold exists_. rewrite Hnone, bool_decide_eq_false_2; [apply andb_false_r |].
    intros [? [=]]. }
  now rewrite Hsrc, Hz.
Qed.








End Operation.

(** ** Aborted and empty mosaics *)

Section Aborts.
Context {session : Session} {formatter : Formatter} {imaging : Imaging} {rio : RasterIO}.
Variable net : Network.
Variable basemaps : gmap string string.
Variable WKT_3857 : string.

Lemma submit_all_files us w : files (snd (submit_all net us w)) = files w.
Proof. destruct (submit_all_effects net us w) as (_ & _ & H & _). exact H. Qed.

(** One future holding an exception aborts [draw_tile] before any file is
    created. *)
Lemma draw_sorted_aborts source lat0 lon0 lat1 lon1 zoom filename kwargs
    x0 y0 x1 y1 w x y e :
  In (x, y) (tile_corners x0 y0 x1 y1) ->
  tile_future net (Url source zoom x y) = Raise e ->
  exists e' w',
    draw_sorted net WKT_3857 source lat0 lon0 lat1 lon1 zoom filename kwargs
      x0 y0 x1 y1 w = (Raise e', w') /\ files w' = files w.
Proof.
  intros Hin Hfut.
  destruct (formats_dec source zoom (tile_corners x0 y0 x1 y1)) as [Hf | Hn].
  2:{ destruct (draw_sorted_format_raises WKT_3857 source lat0 lon0 lat1 lon1 zoom
                  filename kwargs x0 y0 x1 y1 Hn) as [e0 He].
      destruct (He net w) as [H1 H2].
      destruct (draw_sorted net WKT_3857 source lat0 lon0 lat1 lon1 zoom filename
                  kwargs x0 y0 x1 y1 w) as [r w1]. cbn in H1, H2. subst r.
      now exists e0, w1. }
  rewrite draw_sorted_fetched by exact Hf.
  destruct (paste_all_raise
              (jobs_of net source zoom (tile_corners x0 y0 x1 y1))
              (floor x0, floor y0, ceil x1, ceil y1) None (256, 256) e (x, y))
    as [e' He'].
  { unfold jobs_of. apply in_map_iff. exists (x, y). cbn. now rewrite Hfut. }
  exists e'. eexists. split.
  - now apply draw_fetched_paste_raise.
  - apply submit_all_files.
Qed.

(** When every tile of the range is absent no canvas is created. *)
Lemma draw_sorted_all_absent source lat0 lon0 lat1 lon1 zoom filename kwargs
    x0 y0 x1 y1 w :
  formats source zoom (tile_corners x0 y0 x1 y1) ->
  (forall x y, In (x, y) (tile_corners x0 y0 x1 y1) ->
               tile_future net (Url source zoom x y) = Ok None) ->
  exists w',
    draw_sorted net WKT_3857 source lat0 lon0 lat1 lon1 zoom filename kwargs
      x0 y0 x1 y1 w
    = (Raise (AttributeError "'NoneType' object has no attribute 'crop'"), w') /\
    files w' = files w.
Proof.
  intros Hf Habs. rewrite draw_sorted_fetched by exact Hf. eexists. split.
  - apply draw_fetched_no_canvas with (bs := (256, 256)).
    apply paste_all_absent. intros [fut c] Hj. unfold jobs_of in Hj.
    apply in_map_iff in Hj as ([x y] & [= <- <-] & Hc). cbn. now apply Habs.
  - apply submit_all_files.
Qed.

(** An exception of [draw_tile] leaves the operation wrapped in
    [Exception]. *)
Lemma tms_to_geotiff_draw_raises output west south east north zoom resolution
    source crs to_cog return_image overwrite quiet kwargs w src z e w' :
  overwrite = true \/ files w !! output = None ->
  resolve_source basemaps source = Ok src ->
  select_zoom zoom resolution = Ok z ->
  draw_tile net WKT_3857 src south west north east z output kwargs w = (Raise e, w') ->
  tms_to_geotiff net basemaps WKT_3857 output [west; south; east; north] zoom
    resolution source crs to_cog return_image overwrite quiet kwargs w
  = (Raise (Exception e), w').
Proof.
  intros Hskip Hsrc Hz Hd.
  rewrite (tms_to_geotiff_validated _ _ _ _ _ _ _ _ _ _ _ _ _ _ _ _ _ _ _ _
             Hskip Hsrc Hz).
  unfold reraise. now rewrite (mbind_raise _ _ _ _ _ Hd).
Qed.

End Aborts.

(** ** The claims on the operation *)

(** C5.  When the output exists and [overwrite] is false the operation
    returns [None] without raising and leaves the world as it is: no file is
    written and no request is made, so a second call finds the same files and
    does the same. *)
Theorem C5_existing_output_untouched {session : Session} {formatter : Formatter}
    {imaging : Imaging}
    {rio : RasterIO} (net : Network) (basemaps : gmap string string)
    (WKT_3857 output : string) (bbox : list R) (zoom : option Z)
    (resolution : option R) (source : pyobj) (crs : string)
    (to_cog return_image quiet : bool) (kwargs : option (list string))
    (w : World) (f : file) :
  files w !! output = Some f ->
  let run := tms_to_geotiff net basemaps WKT_3857 output bbox zoom resolution source
               crs to_cog return_image false quiet kwargs in
  run w = (Ok None, w) /\
  run (snd (run w)) = (Ok None, w) /\
  files (snd (run (snd (run w)))) !! output = Some f.
Proof.
  intros Hf run.
  assert (E : run w = (Ok None, w)).
  { unfold run, tms_to_geotiff. cbn [negb andb].
    unfold exists_. rewrite Hf, bool_decide_eq_true_2; [reflexivity | now eexists]. }
  rewrite E. cbn [snd]. rewrite E. cbn [snd]. now repeat split.
Qed.

(** C1 (the code at the failing input).  A string that is no provider name,
    no basemap name and does not start with "http" is not rejected: it is
    kept as the tile template, and with a valid bbox and zoom the operation
    goes on to [draw_tile] with it. *)
Theorem C1_unrecognized_source_kept {session : Session} {formatter : Formatter}
    {imaging : Imaging}
    {rio : RasterIO} (net : Network) (basemaps : gmap string string)
    (WKT_3857 output : string) (west south east north : R) (zoom : option Z)
    (resolution : option R) (s crs : string)
    (to_cog return_image overwrite quiet : bool) (kwargs : option (list string))
    (w : World) (z : Z) :
  xyz_tiles !! upper s = None ->
  basemaps !! s = None ->
  startswith s "http" = false ->
  overwrite = true \/ files w !! output = None ->
  select_zoom zoom resolution = Ok z ->
  resolve_source basemaps (PyStr s) = Ok s /\
  tms_to_geotiff net basemaps WKT_3857 output [west; south; east; north] zoom
    resolution (PyStr s) crs to_cog return_image overwrite quiet kwargs w
  = reraise
      (do! image := draw_tile net WKT_3857 s south west north east z output kwargs in
       after_draw output crs to_cog return_image image) w.
Proof.
  intros Hx Hb Hh Hskip Hz.
  assert (Hsrc : resolve_source basemaps (PyStr s) = Ok s).
  { unfold resolve_source. now rewrite Hx, Hb, Hh. }
  split; [exact Hsrc |].
  now apply tms_to_geotiff_validated.
Qed.

(** C10.  With [return_image] the operation returns the image of
    [draw_tile] in the world [draw_tile] left: whatever [crs] and [to_cog]
    are, the file holds the EPSG:3857 raster and the only events are tile
    requests, none of reprojection or COG conversion. *)
Theorem C10_return_image_skips_postprocessing {session : Session} {formatter : Formatter}
    {imaging : Imaging}
    {rio : RasterIO} (net : Network) (basemaps : gmap string string)
    (WKT_3857 output : string) (west south east north : R) (zoom : option Z)
    (resolution : option R) (source : pyobj) (crs : string)
    (to_cog overwrite quiet : bool) (kwargs : option (list string))
    (w w1 : World) (src : string) (z : Z) (img : Image) :
  overwrite = true \/ files w !! output = None ->
  resolve_source basemaps source = Ok src ->
  select_zoom zoom resolution = Ok z ->
  draw_tile net WKT_3857 src south west north east z output kwargs w = (Ok img, w1) ->
  tms_to_geotiff net basemaps WKT_3857 output [west; south; east; north] zoom
    resolution source crs to_cog true overwrite quiet kwargs w
  = (Ok (Some img), w1) /\
  (exists g, files w1 !! output = Some (Raster g) /\ projection g = WKT_3857) /\
  (exists evs, trace w1 = trace w ++ evs /\
               forall e, In e evs -> exists u, e = EvGet u).
Proof.
  intros Hskip Hsrc Hz Hd. split; [| split].
  - rewrite (tms_to_geotiff_validated _ _ _ _ _ _ _ _ _ _ _ _ _ _ _ _ _ _ _ _
               Hskip Hsrc Hz).
    unfold reraise. now rewrite (mbind_ok _ _ _ _ _ Hd).
  - unfold draw_tile in Hd.
    apply mbind_ok_inv in Hd as ([xa ya] & w2 & _ & Hd).
    apply mbind_ok_inv in Hd as ([xb yb] & w3 & _ & Hd).
    cbn in Hd. apply draw_sorted_ok_inv in Hd as (g & L & _ & P & _).
    now exists g.
  - unfold draw_tile in Hd.
    apply mbind_ok_inv in Hd as ([xa ya] & w2 & [_ ->]%lift_ok_inv & Hd).
    apply mbind_ok_inv in Hd as ([xb yb] & w3 & [_ ->]%lift_ok_inv & Hd).
    cbn in Hd.
    pose proof (draw_sorted_trace net WKT_3857 src south west north east z output kwargs
                  (Rmin xa xb) (Rmin ya yb) (Rmax xa xb) (Rmax ya yb) w) as Ht.
    rewrite Hd in Ht. cbn [snd] in Ht.
    destruct (submit_tiles_effects net src z
                (tile_corners (Rmin xa xb) (Rmin ya yb) (Rmax xa xb) (Rmax ya yb)) w)
      as (evs & Et & _ & Ein).
    exists evs. split; [now rewrite Ht |].
    intros e (x & y & _ & ->)%Ein. now eexists.
Qed.

(** C9.  If every tile of the covering range is absent (its URL is fetched
    and the response has a 404 status or an empty body), the operation
    raises: no canvas was created, the crop is an attribute access on
    [None], and no raster is written. *)
Theorem C9_all_tiles_absent_fails {session : Session} {formatter : Formatter}
    {imaging : Imaging}
    {rio : RasterIO} (net : Network) (basemaps : gmap string string)
    (WKT_3857 output : string) (west south east north : R) (zoom : option Z)
    (resolution : option R) (source : pyobj) (crs : string)
    (to_cog return_image overwrite quiet : bool) (kwargs : option (list string))
    (w : World) (src : string) (z : Z) (xa ya xb yb : R) :
  overwrite = true \/ files w !! output = None ->
  resolve_source basemaps source = Ok src ->
  select_zoom zoom resolution = Ok z ->
  deg2num south west z = Ok (xa, ya) ->
  deg2num north east z = Ok (xb, yb) ->
  (forall x y,
     In (x, y) (tile_corners (Rmin xa xb) (Rmin ya yb) (Rmax xa xb) (Rmax ya yb)) ->
     exists u k s c,
       format_url src z x y = Ok u /\ answers net u k s c /\ (s = 404 \/ c = [])) ->
  exists w',
    tms_to_geotiff net basemaps WKT_3857 output [west; south; east; north] zoom
      resolution source crs to_cog return_image overwrite quiet kwargs w
    = (Raise (Exception (AttributeError "'NoneType' object has no attribute 'crop'")),
       w') /\
    files w' = files w.
Proof.
  intros Hskip Hsrc Hz Ha Hb Habs.
  destruct (draw_sorted_all_absent net WKT_3857 src south west north east z output
              kwargs (Rmin xa xb) (Rmin ya yb) (Rmax xa xb) (Rmax ya yb) w)
    as (w' & Hd & Hf).
  { intros x y Hin. destruct (Habs x y Hin) as (u & _ & _ & _ & Hu & _).
    now apply format_url_ok_inv in Hu. }
  { intros x y Hin. destruct (Habs x y Hin) as (u & k & s & c & Hu & Hans & Hsc).
    apply format_url_ok_inv in Hu as [_ ->].
    apply (tile_future_eq net _ no_world _ _ (get_tile_absent net _ _ _ _ _ Hans Hsc)). }
  exists w'. split; [| exact Hf].
  apply (tms_to_geotiff_draw_raises net basemaps WKT_3857 _ _ _ _ _ _ _ _ _ _ _ _ _ _ _
           src z _ _ Hskip Hsrc Hz).
  now rewrite (draw_tile_sorted net WKT_3857 _ _ _ _ _ _ _ _ _ _ _ _ _ Ha Hb).
Qed.

(** ** The claims on the fetcher *)

Section FutureOfAnswer.
Context {session : Session}.


Lemma answers_at_once (net : Network) u s c : net u 0%nat = Response s c -> answers net u 0 s c.
Proof. intros H. split; [lia |]. split; [intros j Hj; lia | exact H]. Qed.

End FutureOfAnswer.

(** C6.  A tile whose response has status 404 or an empty body is absent,
    not an error: [get_tile] returns [None] for it, pasting it leaves the
    canvas and the base size as they were, and [draw_tile] ends as it ends
    on the remaining tiles alone: when these yield a raster the operation
    completes with the same image and the same file. *)
Theorem C6_absent_tile_skipped {session : Session} {imaging : Imaging}
    (net : Network) (WKT_3857 : string) (u : url) (k : nat) (s : Z) (c : bytes) :
  answers net u k s c ->
  s = 404 \/ c = [] ->
  (forall w, get_tile net u w
             = (Ok None,
                {| files := files w; trace := trace w ++ repeat (EvGet u) (S k) |})) /\
  (forall tile bigim base_size corner_xy bbox,
     tile_future net u = Ok tile ->
     paste_tile bigim base_size tile corner_xy bbox = Ok (bigim, base_size)) /\
  (forall jobs1 jobs2 corner_xy lat0 lon0 lat1 lon1 filename kwargs x0 y0 x1 y1 w,
     draw_fetched WKT_3857 (jobs1 ++ (tile_future net u, corner_xy) :: jobs2)
       lat0 lon0 lat1 lon1 filename kwargs x0 y0 x1 y1 w
     = draw_fetched WKT_3857 (jobs1 ++ jobs2)
         lat0 lon0 lat1 lon1 filename kwargs x0 y0 x1 y1 w) /\
  (forall jobs1 jobs2 corner_xy lat0 lon0 lat1 lon1 filename kwargs x0 y0 x1 y1 w img w',
     draw_fetched WKT_3857 (jobs1 ++ jobs2)
       lat0 lon0 lat1 lon1 filename kwargs x0 y0 x1 y1 w = (Ok img, w') ->
     draw_fetched WKT_3857 (jobs1 ++ (tile_future net u, corner_xy) :: jobs2)
       lat0 lon0 lat1 lon1 filename kwargs x0 y0 x1 y1 w = (Ok img, w')).
Proof.
  intros Hans Habs.
  assert (Hfut : tile_future net u = Ok None).
  { apply (tile_future_eq net u no_world _ _ (get_tile_absent net _ _ _ _ _ Hans Habs)). }
  assert (Hskip : forall jobs1 jobs2 corner_xy lat0 lon0 lat1 lon1 filename kwargs
                         x0 y0 x1 y1 w,
     draw_fetched WKT_3857 (jobs1 ++ (tile_future net u, corner_xy) :: jobs2)
       lat0 lon0 lat1 lon1 filename kwargs x0 y0 x1 y1 w
     = draw_fetched WKT_3857 (jobs1 ++ jobs2)
         lat0 lon0 lat1 lon1 filename kwargs x0 y0 x1 y1 w).
  { intros. rewrite Hfut. unfold draw_fetched. now rewrite paste_all_skip. }
  split; [| split; [| split]].
  - intros w. now apply get_tile_absent with (s := s) (c := c).
  - intros tile bigim base_size corner_xy bbox Ht.
    rewrite Hfut in Ht. injection Ht as <-. reflexivity.
  - exact Hskip.
  - intros. now rewrite Hskip.
Qed.

(** C7 (as amended).  A response with an error status other than 404 and a
    body that is not empty makes the fetch raise at once, with no further
    attempt, and [draw_tile] is aborted before any file is created; with an
    empty body the same status gives an absent tile. *)
Theorem C7_error_status_fatal_unless_empty {session : Session} {formatter : Formatter}
    {imaging : Imaging}
    (net : Network) (WKT_3857 source : string) (zoom x y : Z) (k : nat) (s : Z)
    (c : bytes) :
  answers net (Url source zoom x y) k s c ->
  s <> 404 ->
  error_status s = true ->
  (c <> [] ->
     (forall w,
        get_tile net (Url source zoom x y) w
        = (Raise (HTTPStatusError s),
           {| files := files w;
              trace := trace w ++ repeat (EvGet (Url source zoom x y)) (S k) |})) /\
     (forall lat0 lon0 lat1 lon1 filename kwargs x0 y0 x1 y1 w,
        In (x, y) (tile_corners x0 y0 x1 y1) ->
        exists e' w',
          draw_sorted net WKT_3857 source lat0 lon0 lat1 lon1 zoom filename kwargs
            x0 y0 x1 y1 w = (Raise e', w') /\ files w' = files w)) /\
  (c = [] ->
     forall w,
       get_tile net (Url source zoom x y) w
       = (Ok None,
          {| files := files w;
             trace := trace w ++ repeat (EvGet (Url source zoom x y)) (S k) |})).
Proof.
  intros Hans Hs He. split.
  - intros Hc. split.
    + intros w. now apply get_tile_status_error with (c := c).
    + intros lat0 lon0 lat1 lon1 filename kwargs x0 y0 x1 y1 w Hin.
      apply draw_sorted_aborts with (x := x) (y := y) (e := HTTPStatusError s);
        [exact Hin |].
      apply (tile_future_eq net _ no_world _ _
               (get_tile_status_error net _ _ _ _ _ Hans Hs Hc He)).
  - intros Hc w. apply get_tile_absent with (s := s) (c := c); [exact Hans | now right].
Qed.


(** ** A run that succeeds *)

Section Success.
Context {session : Session} {formatter : Formatter} {imaging : Imaging}.
Variable WKT_3857 : string.

(** With a canvas, a crop that has pixels and bands, and latitudes in the
    domain of the projection, the raster is written. *)
Lemma draw_fetched_succeeds jobs lat0 lon0 lat1 lon1 filename kwargs x0 y0 x1 y1 w
    bigim base_size img :
  paste_all jobs (floor x0, floor y0, ceil x1, ceil y1) None (256, 256)
    = Ok (bigim, base_size) ->
  finish_picture bigim base_size (floor x0, floor y0, ceil x1, ceil y1) x0 y0 x1 y1
    = Ok img ->
  0 < fst (size img) -> 0 < snd (size img) -> getbands img <> [] ->
  (0 < tan (radians (45 + lat0 / 2.0)))%R ->
  (0 < tan (radians (45 + lat1 / 2.0)))%R ->
  exists w',
    draw_fetched WKT_3857 jobs lat0 lon0 lat1 lon1 filename kwargs x0 y0 x1 y1 w
    = (Ok img, w').
Proof.
  intros Hp Hf Hw Hh Hb H0 H1. unfold draw_fetched.
  unfold mbind at 1. unfold lift at 1. rewrite Hp.
  unfold mbind at 1. unfold lift at 1. rewrite Hf.
  set (opts := match kwargs with Some o => o | None => default_options end).
  assert (Hc : exists w1 g,
             gdal_Create filename (fst (size img)) (snd (size img))
               (length (getbands img)) opts w = (Ok tt, w1) /\
             files w1 !! filename = Some (Raster g)).
  { unfold gdal_Create.
    apply Z.leb_gt in Hw, Hh. rewrite Hw, Hh.
    destruct (getbands img) as [| b bs]; [contradiction |]. cbn.
    eexists _, _. split; [reflexivity |]. cbn. apply lookup_insert_eq. }
  destruct Hc as (w1 & g & Hc & L1).
  rewrite (mbind_ok _ _ _ _ _ Hc).
  unfold mbind at 1. unfold lift at 1.
  rewrite (make_geotransform_ok _ _ _ _ _ _ Hw Hh H0 H1).
  unfold SetGeoTransform, SetProjection.
  unfold mbind at 1.
  destruct (on_dataset_lookup filename
    (fun g0 => {| xsize := xsize g0; ysize := ysize g0; options := options g0;
          geotransform := Spec.geotransform lat0 lon0 lat1 lon1
                            (fst (size img)) (snd (size img));
          projection := projection g0; rasters := rasters g0 |}) g w1 L1) as [E2 L2].
  rewrite E2.
  unfold mbind at 1.
  destruct (on_dataset_lookup filename
    (fun g0 => {| xsize := xsize g0; ysize := ysize g0; options := options g0;
          geotransform := geotransform g0; projection := WKT_3857;
          rasters := rasters g0 |}) _ _ L2) as [E3 L3].
  rewrite E3.
  destruct (write_bands_lookup filename img (seq 0 (length (getbands img))) _ _ L3)
    as (g' & w' & R1 & _).
  rewrite (mbind_ok _ _ _ _ _ R1). now exists w'.
Qed.

End Success.


(** * The scenario: coordinates and runs *)

Module ScenarioFacts.
Import Pixels Scenario.

Section Coordinates.
#[local] Open Scope R_scope.

Lemma radians_0 : radians 0 = 0.
Proof. unfold radians. lra. Qed.

Lemma radians_45 : radians 45 = PI / 4.
Proof. unfold radians. lra. Qed.

Lemma sqrt2_bounds : 1 < sqrt 2 < 2.
Proof.
  split.
  - rewrite <- sqrt_1 at 1. apply sqrt_lt_1; lra.
  - replace 2 with (sqrt (2 * 2)) at 2 by (apply sqrt_square; lra).
    apply sqrt_lt_1; lra.
Qed.

Lemma L45_eq : L45 = ln (1 + sqrt 2).
Proof.
  unfold L45. rewrite radians_45, tan_PI4, cos_PI4.
  f_equal. f_equal. pose proof sqrt2_neq_0. field. assumption.
Qed.

Lemma exp_2_gt_4 : 4 < exp 2.
Proof.
  assert (2 < exp 1) by (pose proof (exp_ineq1 1); lra).
  replace 2 with (1 + 1) by lra. rewrite exp_plus. nra.
Qed.

Lemma L45_bounds : 1 / 2 < L45 < 2.
Proof.
  rewrite L45_eq. pose proof sqrt2_bounds. split.
  - apply Rlt_trans with (ln 2); [pose proof ln_lt_2; lra |].
    apply ln_increasing; lra.
  - apply exp_lt_inv. rewrite exp_ln by lra.
    pose proof exp_2_gt_4. lra.
Qed.

Lemma PI_bounds : 2 < PI <= 4.
Proof. pose proof PI2_1. pose proof PI_4. lra. Qed.

Lemma y45_bounds : 0 < y45 < 1 / 2 /\ 1 <= 256 * (1 / 2 - y45).
Proof.
  unfold y45. pose proof L45_bounds as [Hl Hu]. pose proof PI_bounds as [Pl Pu].
  assert (Hq : 1 / 8 < L45 / PI < 1).
  { split.
    - apply Rmult_lt_reg_r with PI; [lra |].
      unfold Rdiv at 2. rewrite Rmult_assoc, Rinv_l by lra. lra.
    - apply Rmult_lt_reg_r with PI; [lra |].
      unfold Rdiv. rewrite Rmult_assoc, Rinv_l by lra. lra. }
  lra.
Qed.

Lemma deg2num_south_west : deg2num 0 (-180) 0 = Ok (0, 1 / 2).
Proof.
  rewrite deg2num_ok.
  - rewrite radians_0, tan_0, cos_0, Rplus_0_l.
    replace (1 / 1) with 1 by lra. rewrite ln_1.
    unfold pow2. cbn [powerRZ]. f_equal. f_equal; lra.
  - rewrite radians_0, cos_0. lra.
  - rewrite radians_0, tan_0, cos_0. lra.
Qed.

Lemma deg2num_north_east : deg2num 45 180 0 = Ok (1, y45).
Proof.
  assert (Hc : cos (radians 45) = 1 / sqrt 2) by (rewrite radians_45; apply cos_PI4).
  pose proof sqrt2_bounds as [S1 S2].
  assert (Hs : 1 / (1 / sqrt 2) = sqrt 2) by (field; lra).
  rewrite deg2num_ok.
  - fold L45. unfold y45, pow2. cbn [powerRZ]. f_equal. f_equal; lra.
  - rewrite Hc. intros H. apply (f_equal (fun r => 1 / r)) in H.
    rewrite Hs in H. unfold Rdiv in H. rewrite Rinv_0 in H. lra.
  - rewrite Hc, Hs, radians_45, tan_PI4. lra.
Qed.

(** The sorted fractional coordinates. *)
Lemma sorted_x : Rmin 0 1 = 0 /\ Rmax 0 1 = 1.
Proof. split; [apply Rmin_left | apply Rmax_right]; lra. Qed.

Lemma sorted_y : Rmin (1 / 2) y45 = y45 /\ Rmax (1 / 2) y45 = 1 / 2.
Proof.
  pose proof y45_bounds as [[H1 H2] _].
  split; [apply Rmin_right | apply Rmax_left]; lra.
Qed.

Lemma floor_y45 : floor y45 = 0%Z.
Proof. pose proof y45_bounds as [[H1 H2] _]. apply floor_unique. lra. Qed.

Lemma ceil_half : ceil (1 / 2) = 1%Z.
Proof. apply ceil_unique. lra. Qed.

Lemma corners : tile_corners 0 y45 1 (1 / 2) = [(0, 0)%Z].
Proof.
  unfold tile_corners.
  rewrite (floor_IZR 0), (ceil_IZR 1), floor_y45, ceil_half. reflexivity.
Qed.

Lemma pow2_1 : pow2 1 = 2.
Proof. unfold pow2. change (powerRZ 2 1) with (2 * 1). lra. Qed.

(** At zoom 1 the range is the two tiles (0, 0) and (1, 0). *)
Lemma deg2num_south_west_1 : deg2num 0 (-180) 1 = Ok (0, 1).
Proof.
  rewrite deg2num_ok.
  - rewrite radians_0, tan_0, cos_0, Rplus_0_l.
    replace (1 / 1) with 1 by lra. rewrite ln_1.
    rewrite pow2_1. f_equal. f_equal; lra.
  - rewrite radians_0, cos_0. lra.
  - rewrite radians_0, tan_0, cos_0. lra.
Qed.

Lemma deg2num_north_east_1 : deg2num 45 180 1 = Ok (2, y45 * 2).
Proof.
  assert (Hc : cos (radians 45) = 1 / sqrt 2) by (rewrite radians_45; apply cos_PI4).
  pose proof sqrt2_bounds as [S1 S2].
  assert (Hs : 1 / (1 / sqrt 2) = sqrt 2) by (field; lra).
  rewrite deg2num_ok.
  - fold L45. unfold y45. rewrite pow2_1. f_equal. f_equal; lra.
  - rewrite Hc. intros H. apply (f_equal (fun r => 1 / r)) in H.
    rewrite Hs in H. unfold Rdiv in H. rewrite Rinv_0 in H. lra.
  - rewrite Hc, Hs, radians_45, tan_PI4. lra.
Qed.

Lemma corners_1 :
  tile_corners (Rmin 0 2) (Rmin 1 (y45 * 2)) (Rmax 0 2) (Rmax 1 (y45 * 2))
  = [(0, 0)%Z; (1, 0)%Z].
Proof.
  pose proof y45_bounds as [[H1 H2] _].
  rewrite (Rmin_left 0 2), (Rmax_right 0 2), (Rmin_right 1), (Rmax_left 1) by lra.
  unfold tile_corners.
  rewrite (floor_IZR 0), (ceil_IZR 2), (ceil_IZR 1).
  rewrite (floor_unique (y45 * 2) 0) by lra. reflexivity.
Qed.

(** The two angles of the projection are in its domain. *)
Lemma mercator_domain :
  0 < tan (radians (45 + 0 / 2.0)) /\ 0 < tan (radians (45 + 45 / 2.0)).
Proof.
  pose proof PI_bounds. split.
  - replace (radians (45 + 0 / 2.0)) with (PI / 4) by (unfold radians; lra).
    rewrite tan_PI4. lra.
  - apply tan_gt_0; unfold radians; lra.
Qed.

End Coordinates.
End ScenarioFacts.

Module Runs.
Import Pixels Templates Scenario ScenarioFacts.
#[local] Existing Instance requests_Session.

Lemma tile_future_ok u : tile_future net_ok u = Ok (Some tile_rgb).
Proof. reflexivity. Qed.

Lemma tile_future_404 u : tile_future net_404 u = Ok None.
Proof. reflexivity. Qed.

Lemma tile_future_down u :
  tile_future net_down u = Raise (TransportError "connection refused").
Proof. reflexivity. Qed.

(** The mosaic of the scenario is drawn and written. *)
Lemma formats_plain (source : string) (zoom : Z) (corners : list (Z * Z)) :
  scan None source = None -> formats source zoom corners.
Proof. intros H x y _. exact H. Qed.

Lemma formats_tile (source : string) :
  format_error source 0 0 0 = None -> formats source 0 [(0, 0)].
Proof. intros H x y [[= <- <-] | []]. exact H. Qed.

Lemma draw_tile_succeeds (source filename : string) (w : World) :
  format_error source 0 0 0 = None ->
  exists img w1,
    draw_tile net_ok wkt source 0 (-180) 45 180 0 filename None w = (Ok img, w1).
Proof.
  intros Hfmt.
  rewrite (draw_tile_sorted net_ok wkt _ _ _ _ _ _ _ _ _ _ _ _ _
             deg2num_south_west deg2num_north_east).
  destruct sorted_x as [-> ->]. destruct sorted_y as [-> ->].
  rewrite draw_sorted_fetched by (rewrite corners; exact (formats_tile _ Hfmt)).
  rewrite corners.
  unfold jobs_of. cbn [map fst snd]. rewrite tile_future_ok.
  destruct mercator_domain as [M0 M1].
  destruct y45_bounds as [_ Hh].
  pose proof (round_lower (IZR 256 * (1 - 0)) 1 ltac:(lra)) as Rw.
  pose proof (round_lower (IZR 256 * (1 / 2 - y45)) 1 ltac:(lra)) as Rh.
  eexists.
  eapply draw_fetched_succeeds; try eassumption.
  - rewrite (floor_IZR 0), (ceil_IZR 1), floor_y45, ceil_half. reflexivity.
  - rewrite (floor_IZR 0), (ceil_IZR 1), floor_y45, ceil_half. reflexivity.
  - cbn. change (word x01 x00) with 256. lia.
  - cbn. change (word x01 x00) with 256. lia.
  - discriminate.
Qed.

End Runs.

(** * The claims at concrete inputs *)

Module Witnesses.
Import Pixels Templates Scenario ScenarioFacts Runs.
#[local] Existing Instance requests_Session.

Lemma resolve_osm : resolve_source no_basemaps (PyStr "OpenStreetMap") = Ok osm.
Proof. vm_compute. reflexivity. Qed.

Lemma scenario_range :
  tile_corners (Rmin 0 1) (Rmin (1 / 2) y45) (Rmax 0 1) (Rmax (1 / 2) y45) = [(0, 0)].
Proof.
  destruct sorted_x as [-> ->]. destruct sorted_y as [-> ->]. exact corners.
Qed.

(** C1 at the source "foo", with no basemaps. *)
Lemma C1_unrecognized_source_kept_witness :
  xyz_tiles !! upper "foo" = None /\
  startswith "foo" "http" = false /\
  resolve_source no_basemaps (PyStr "foo") = Ok "foo".
Proof.
  split; [| split].
  - vm_compute. reflexivity.
  - reflexivity.
  - apply (C1_unrecognized_source_kept net_down no_basemaps wkt "out.tif"
             (-180) 0 180 45 (Some 0) None "foo" "EPSG:3857" false false true true
             None no_world 0).
    + vm_compute. reflexivity.
    + reflexivity.
    + reflexivity.
    + left. reflexivity.
    + reflexivity.
Defined.

(** C1: the run on "foo".  No [ValueError] is raised; the string is
    requested three times as a URL and the transport error is what
    the caller gets. *)
Lemma unrecognized_source_run :
  tms_to_geotiff net_down no_basemaps wkt "out.tif" [-180; 0; 180; 45]%R (Some 0) None
    (PyStr "foo") "EPSG:3857" false false true true None no_world
  = (Raise (Exception (TransportError "connection refused")),
     {| files := ∅;
        trace := [EvGet (Url "foo" 0 0 0); EvGet (Url "foo" 0 0 0);
                  EvGet (Url "foo" 0 0 0)] |}).
Proof.
  apply (tms_to_geotiff_draw_raises net_down no_basemaps wkt _ _ _ _ _ _ _ _ _ _ _ _ _
           _ _ "foo" 0).
  - left. reflexivity.
  - vm_compute. reflexivity.
  - reflexivity.
  - rewrite (draw_tile_sorted net_down wkt _ _ _ _ _ _ _ _ _ _ _ _ _
               deg2num_south_west deg2num_north_east).
    rewrite draw_sorted_fetched by (apply formats_plain; reflexivity).
    rewrite scenario_range.
    destruct sorted_x as [-> ->]. destruct sorted_y as [-> ->].
    apply draw_fetched_paste_raise.
    rewrite (floor_IZR 0), (ceil_IZR 1), floor_y45, ceil_half. reflexivity.
Qed.

(** C2 on the mosaic of the scenario. *)
Lemma C2_geotransform_written_witness :
  exists img w1 g,
    draw_tile net_ok wkt osm 0 (-180) 45 180 0 "out.tif" None no_world = (Ok img, w1) /\
    files w1 !! "out.tif" = Some (Raster g) /\
    geotransform g
      = Spec.geotransform 0 (-180) 45 180 (fst (size img)) (snd (size img)).
Proof.
  destruct (draw_tile_succeeds osm "out.tif" no_world eq_refl) as (img & w1 & H).
  destruct (C2_geotransform_written net_ok wkt osm 0 (-180) 45 180 0 "out.tif" None
              no_world w1 img H) as (g & L & G).
  exists img, w1, g. split; [exact H |]. split; [exact L | exact G].
Defined.

(** C3 on the scenario: only the tile (0, 0) is requested. *)
Lemma C3_requested_tiles_witness :
  deg2num 0 (-180) 0 = Ok (0, 1 / 2)%R /\
  deg2num 45 180 0 = Ok (1, y45)%R /\
  formats osm 0 (tile_corners (Rmin 0 1) (Rmin (1 / 2) y45) (Rmax 0 1) (Rmax (1 / 2) y45)) /\
  (0, 1 / 2)%R = Spec.tile_xy 0 (-180) 0 /\
  (1, y45)%R = Spec.tile_xy 45 180 0 /\
  exists evs,
    trace (snd (draw_tile net_ok wkt osm 0 (-180) 45 180 0 "out.tif" None no_world))
      = trace no_world ++ evs /\
    (forall x y, In (EvGet (Url osm 0 x y)) evs <->
                 floor (Rmin 0 1) <= x < ceil (Rmax 0 1) /\
                 floor (Rmin (1 / 2) y45) <= y < ceil (Rmax (1 / 2) y45)) /\
    (forall e, In e evs -> exists x y, e = EvGet (Url osm 0 x y)).
Proof.
  split; [exact deg2num_south_west |]. split; [exact deg2num_north_east |].
  split; [exact (formats_plain osm 0 _ eq_refl) |].
  exact (C3_requested_tiles net_ok wkt osm 0 (-180) 45 180 0 "out.tif" None no_world
           0 (1 / 2) 1 y45 deg2num_south_west deg2num_north_east
           (formats_plain osm 0 _ eq_refl)).
Defined.

(** C5 on a world where the output exists. *)
Lemma C5_existing_output_untouched_witness :
  files with_output !! "out.tif" = Some (Blob [x49; x49; x2a; x00]) /\
  tms_to_geotiff net_ok no_basemaps wkt "out.tif" [-180; 0; 180; 45]%R (Some 0) None
    (PyStr "OpenStreetMap") "EPSG:3857" false false false true None with_output
  = (Ok None, with_output).
Proof.
  assert (H : files with_output !! "out.tif" = Some (Blob [x49; x49; x2a; x00]))
    by (vm_compute; reflexivity).
  split; [exact H |].
  exact (proj1 (C5_existing_output_untouched net_ok no_basemaps wkt "out.tif"
                  [-180; 0; 180; 45]%R (Some 0) None (PyStr "OpenStreetMap")
                  "EPSG:3857" false false true None with_output _ H)).
Defined.

(** The jobs of the scenario at zoom 1, where the bbox spans two tiles:
    the western one is absent, the eastern one is served. *)
Lemma jobs_west_absent :
  jobs_of net_west_absent osm 1 [(0, 0); (1, 0)]
  = [] ++ (tile_future net_west_absent (Url osm 1 0 0), (0, 0))
          :: [(Ok (Some tile_rgb), (1, 0))].
Proof. reflexivity. Qed.

(** The eastern tile alone yields a raster. *)
Lemma east_tile_alone (w : World) :
  exists img w',
    draw_fetched wkt ([] ++ [(Ok (Some tile_rgb), (1, 0))]) 0 (-180) 45 180
      "out.tif" None 0 (y45 * 2) 2 1 w = (Ok img, w').
Proof.
  destruct mercator_domain as [M0 M1].
  destruct y45_bounds as [[Hy0 Hy1] Hh].
  assert (F0 : floor (y45 * 2) = 0) by (apply floor_unique; simpl; lra).
  pose proof (round_lower (IZR 256 * (2 - 0)) 1 ltac:(lra)) as Rw.
  pose proof (round_lower (IZR 256 * (1 - y45 * 2)) 1 ltac:(lra)) as Rh.
  eexists.
  eapply draw_fetched_succeeds; try eassumption.
  - rewrite (floor_IZR 0), (ceil_IZR 2), (ceil_IZR 1), F0. reflexivity.
  - rewrite (floor_IZR 0), (ceil_IZR 2), (ceil_IZR 1), F0. reflexivity.
  - cbn. change (word x01 x00) with 256. lia.
  - cbn. change (word x01 x00) with 256. lia.
  - discriminate.
Qed.

(** C6 on the scenario at zoom 1: the western tile is answered by a 404,
    the eastern tile is served, and the operation writes the raster that
    the eastern tile alone yields. *)
Lemma C6_absent_tile_skipped_witness :
  answers net_west_absent (Url osm 1 0 0) 0 404 [] /\
  get_tile net_west_absent (Url osm 1 0 0) no_world
  = (Ok None, {| files := ∅; trace := [EvGet (Url osm 1 0 0)] |}) /\
  paste_tile None (256, 256) None (0, 0) (0, 0, 2, 1) = Ok (None, (256, 256)) /\
  exists img w1 w',
    draw_fetched wkt ([] ++ [(Ok (Some tile_rgb), (1, 0))]) 0 (-180) 45 180
      "out.tif" None 0 (y45 * 2) 2 1 w1 = (Ok img, w') /\
    draw_tile net_west_absent wkt osm 0 (-180) 45 180 1 "out.tif" None no_world
    = (Ok img, w') /\
    tms_to_geotiff net_west_absent no_basemaps wkt "out.tif" [-180; 0; 180; 45]%R
      (Some 1) None (PyStr "OpenStreetMap") "EPSG:3857" false false true true None
      no_world
    = (Ok None, w') /\
    trace w' = [EvGet (Url osm 1 0 0); EvGet (Url osm 1 1 0)] /\
    exists g, files w' !! "out.tif" = Some (Raster g).
Proof.
  assert (H : answers net_west_absent (Url osm 1 0 0) 0 404 [])
    by (apply answers_at_once; reflexivity).
  destruct (C6_absent_tile_skipped net_west_absent wkt (Url osm 1 0 0) 0 404 [] H
              (or_introl eq_refl)) as (G & P & _ & D).
  split; [exact H |]. split; [exact (G no_world) |].
  split; [exact (P None None (256, 256) (0, 0) (0, 0, 2, 1) eq_refl) |].
  set (w1 := snd (submit_all net_west_absent
                    (map (fun c => Url osm 1 (fst c) (snd c)) [(0, 0); (1, 0)])
                    no_world)).
  destruct (east_tile_alone w1) as (img & w' & He).
  exists img, w1, w'. split; [exact He |].
  assert (Hd : draw_tile net_west_absent wkt osm 0 (-180) 45 180 1 "out.tif" None
                 no_world = (Ok img, w')).
  { rewrite (draw_tile_sorted net_west_absent wkt _ _ _ _ _ _ _ _ _ _ _ _ _
               deg2num_south_west_1 deg2num_north_east_1).
    rewrite draw_sorted_fetched by (apply formats_plain; reflexivity).
    rewrite corners_1, jobs_west_absent.
    destruct y45_bounds as [[Hy0 Hy1] _].
    rewrite (Rmin_left 0 2), (Rmax_right 0 2), (Rmin_right 1), (Rmax_left 1) by lra.
    exact (D [] [(Ok (Some tile_rgb), (1, 0))] (0, 0) _ _ _ _ _ _ _ _ _ _ w1 img w' He). }
  split; [exact Hd |]. split.
  - rewrite (tms_to_geotiff_validated no_basemaps wkt net_west_absent "out.tif"
               (-180) 0 180 45 (Some 1) None (PyStr "OpenStreetMap") "EPSG:3857"
               false false true true None no_world osm 1
               (or_introl eq_refl) resolve_osm eq_refl).
    unfold reraise. rewrite (mbind_ok _ _ _ _ _ Hd). reflexivity.
  - split.
    + pose proof (keeps_trace_draw_fetched wkt
                    ([] ++ [(Ok (Some tile_rgb), (1, 0))]) 0 (-180) 45 180
                    "out.tif" None 0 (y45 * 2) 2 1 w1) as Ht.
      rewrite He in Ht. cbn [snd] in Ht. rewrite Ht. reflexivity.
    + destruct (draw_fetched_ok_inv wkt _ _ _ _ _ _ _ _ _ _ _ _ _ _ He) as (g & L & _).
      now exists g.
Defined.

(** C7 on a 500 with a body. *)
Lemma C7_error_status_fatal_unless_empty_witness :
  answers net_500 tile 0 500 [x4f; x4f; x50; x53] /\
  500 <> 404 /\
  error_status 500 = true /\
  get_tile net_500 tile no_world
  = (Raise (HTTPStatusError 500), {| files := ∅; trace := [EvGet tile] |}).
Proof.
  assert (H : answers net_500 tile 0 500 [x4f; x4f; x50; x53])
    by (apply answers_at_once; reflexivity).
  assert (N : 500 <> 404) by lia.
  assert (E : error_status 500 = true) by reflexivity.
  destruct (C7_error_status_fatal_unless_empty net_500 wkt osm 0 0 0 0 500
              [x4f; x4f; x50; x53] H N E) as [F _].
  split; [exact H |]. split; [exact N |]. split; [exact E |].
  exact (proj1 (F ltac:(discriminate)) no_world).
Defined.

(** C7 as stated fails on a 500 with an empty body: the status is an error
    status other than 404, and the fetch returns [None] instead of
    raising. *)
Lemma C7_empty_body_counterexample :
  net_500_empty tile 0%nat = Response 500 [] /\
  error_status 500 = true /\
  get_tile net_500_empty tile no_world
  = (Ok None, {| files := ∅; trace := [EvGet tile] |}).
Proof. repeat split. Qed.




(** C9 on the scenario, every tile answered by a 404. *)
Lemma C9_all_tiles_absent_fails_witness :
  (forall x y,
     In (x, y) (tile_corners (Rmin 0 1) (Rmin (1 / 2) y45) (Rmax 0 1) (Rmax (1 / 2) y45)) ->
     exists u k s c,
       format_url osm 0 x y = Ok u /\ answers net_404 u k s c /\ (s = 404 \/ c = [])) /\
  exists w',
    tms_to_geotiff net_404 no_basemaps wkt "out.tif" [-180; 0; 180; 45]%R (Some 0) None
      (PyStr "OpenStreetMap") "EPSG:3857" false false false true None no_world
    = (Raise (Exception (AttributeError "'NoneType' object has no attribute 'crop'")),
       w') /\
    files w' = files no_world.
Proof.
  assert (H : forall x y,
     In (x, y) (tile_corners (Rmin 0 1) (Rmin (1 / 2) y45) (Rmax 0 1) (Rmax (1 / 2) y45)) ->
     exists u k s c,
       format_url osm 0 x y = Ok u /\ answers net_404 u k s c /\ (s = 404 \/ c = [])).
  { intros x y _. exists (Url osm 0 x y), 0%nat, 404, [].
    split; [reflexivity |]. split; [| now left].
    apply answers_at_once. reflexivity. }
  split; [exact H |].
  exact (C9_all_tiles_absent_fails net_404 no_basemaps wkt "out.tif" (-180) 0 180 45
           (Some 0) None (PyStr "OpenStreetMap") "EPSG:3857" false false false true
           None no_world osm 0 0 (1 / 2) 1 y45
           (or_intror eq_refl) resolve_osm eq_refl
           deg2num_south_west deg2num_north_east H).
Defined.

(** C10 on the scenario, asking for EPSG:4326 and a COG together with the
    image. *)
Lemma C10_return_image_skips_postprocessing_witness :
  exists img w1,
    draw_tile net_ok wkt osm 0 (-180) 45 180 0 "out.tif" None no_world = (Ok img, w1) /\
    tms_to_geotiff net_ok no_basemaps wkt "out.tif" [-180; 0; 180; 45]%R (Some 0) None
      (PyStr "OpenStreetMap") "EPSG:4326" true true false true None no_world
    = (Ok (Some img), w1) /\
    (exists g, files w1 !! "out.tif" = Some (Raster g) /\ projection g = wkt).
Proof.
  destruct (draw_tile_succeeds osm "out.tif" no_world eq_refl) as (img & w1 & H).
  destruct (C10_return_image_skips_postprocessing net_ok no_basemaps wkt "out.tif"
              (-180) 0 180 45 (Some 0) None (PyStr "OpenStreetMap") "EPSG:4326"
              true false true None no_world w1 osm 0 img
              (or_intror eq_refl) resolve_osm eq_refl H) as (R1 & R2 & _).
  exists img, w1. split; [exact H |]. split; [exact R1 | exact R2].
Defined.

End Witnesses.

(** * Further properties of the pipeline *)

(** ** Validation *)

Section Validation.
Context {session : Session} {formatter : Formatter} {imaging : Imaging} {rio : RasterIO}.
Variable net : Network.
Variable basemaps : gmap string string.
Variable WKT_3857 : string.

Lemma unpack_bbox_ok_iff (bbox : list R) :
  (exists p, unpack_bbox bbox = Ok p) <-> length bbox = 4%nat.
Proof.
  split.
  - intros [p H]. destruct bbox as [| a [| b [| c [| d [| e l]]]]]; cbn in H;
      try discriminate. reflexivity.
  - intros H. destruct bbox as [| a [| b [| c [| d [| e l]]]]]; cbn in H;
      try discriminate. now eexists.
Qed.




End Validation.

(** X1.  A bbox that is a list of numbers whose length is not 4 makes the
    operation raise the bbox [ValueError], unwrapped, with no request made
    and no file changed; the source is checked before the bbox. *)
Theorem X1_bad_bbox_rejected {session : Session} {formatter : Formatter}
    {imaging : Imaging}
    {rio : RasterIO} (net : Network) (basemaps : gmap string string)
    (WKT_3857 output : string) (bbox : list R) (zoom : option Z)
    (resolution : option R) (source : pyobj) (crs : string)
    (to_cog return_image overwrite quiet : bool) (kwargs : option (list string))
    (w : World) (src : string) :
  length bbox <> 4%nat ->
  overwrite = true \/ files w !! output = None ->
  resolve_source basemaps source = Ok src ->
  tms_to_geotiff net basemaps WKT_3857 output bbox zoom resolution source crs
    to_cog return_image overwrite quiet kwargs w
  = (Raise (ValueError
       "bbox must be a list of 4 coordinates in the format of [xmin, ymin, xmax, ymax]"),
     w).
Proof.
  intros Hlen Hskip Hsrc. rewrite tms_to_geotiff_unfold.
  assert (negb overwrite && exists_ output w = false) as ->.
  { destruct Hskip as [-> | Hnone]; [reflexivity |].
    unfold exists_. rewrite Hnone, bool_decide_eq_false_2; [apply andb_false_r |].
    intros [? [=]]. }
  rewrite Hsrc.
  destruct bbox as [| a [| b [| c [| d [| e l]]]]]; cbn; try reflexivity.
  now contradiction Hlen.
Qed.

(** X2.  Giving both a zoom and a resolution, or neither, makes the operation
    raise a [ValueError], unwrapped, with no request made and no file
    changed. *)
Theorem X2_zoom_xor_resolution {session : Session} {formatter : Formatter}
    {imaging : Imaging}
    {rio : RasterIO} (net : Network) (basemaps : gmap string string)
    (WKT_3857 output : string) (west south east north : R) (zoom : option Z)
    (resolution : option R) (source : pyobj) (crs : string)
    (to_cog return_image overwrite quiet : bool) (kwargs : option (list string))
    (w : World) (src : string) :
  overwrite = true \/ files w !! output = None ->
  resolve_source basemaps source = Ok src ->
  (zoom = None /\ resolution = None ->
   tms_to_geotiff net basemaps WKT_3857 output [west; south; east; north] zoom
     resolution source crs to_cog return_image overwrite quiet kwargs w
   = (Raise (ValueError "Either zoom or resolution must be provided"), w)) /\
  (zoom <> None /\ resolution <> None ->
   tms_to_geotiff net basemaps WKT_3857 output [west; south; east; north] zoom
     resolution source crs to_cog return_image overwrite quiet kwargs w
   = (Raise (ValueError "Only one of zoom or resolution can be provided"), w)).
Proof.
  intros Hskip Hsrc.
  assert (E : negb overwrite && exists_ output w = false).
  { destruct Hskip as [-> | Hnone]; [reflexivity |].
    unfold exists_. rewrite Hnone, bool_decide_eq_false_2; [apply andb_false_r |].
    intros [? [=]]. }
  split.
  - intros [-> ->]. rewrite tms_to_geotiff_unfold, E, Hsrc. reflexivity.
  - intros [Hz Hr]. rewrite tms_to_geotiff_unfold, E, Hsrc.
    destruct zoom as [z |]; [| contradiction]. destruct resolution as [r |]; [| contradiction].
    reflexivity.
Qed.


(** ** Source names and zoom levels *)

(** X4.  The five provider names are matched whatever their letter case and
    before the basemaps: two spellings of one provider name resolve to the
    same template under any two basemap dictionaries. *)
Theorem X4_provider_names_case_insensitive (basemaps basemaps' : gmap string string)
    (s s' : string) :
  upper s = upper s' ->
  is_Some (xyz_tiles !! upper s) ->
  resolve_source basemaps (PyStr s) = resolve_source basemaps' (PyStr s') /\
  exists t, resolve_source basemaps (PyStr s) = Ok t /\ xyz_tiles !! upper s = Some t.
Proof.
  intros Hu [t Ht]. unfold resolve_source. rewrite <- Hu, Ht.
  split; [reflexivity |]. now exists t.
Qed.

Section ZoomOrder.
#[local] Open Scope R_scope.

Lemma floor_mono (a b : R) : a <= b -> (floor a <= floor b)%Z.
Proof.
  intros H. destruct (floor_spec a) as [A1 _]. destruct (floor_spec b) as [_ B2].
  apply Z.lt_succ_r, lt_IZR. rewrite succ_IZR. lra.
Qed.

Lemma ceil_mono (a b : R) : a <= b -> (ceil a <= ceil b)%Z.
Proof.
  intros H. destruct (ceil_spec a) as [A1 _]. destruct (ceil_spec b) as [_ B2].
  apply Z.lt_succ_r, lt_IZR. rewrite succ_IZR. lra.
Qed.

(** Truncation keeps the order. *)
Lemma int_mono (a b : R) : a <= b -> (int a <= int b)%Z.
Proof.
  intros H. unfold int.
  destruct (Rlt_dec a 0), (Rlt_dec b 0); try lra.
  - now apply ceil_mono.
  - destruct (ceil_spec a) as [A1 _]. destruct (floor_spec b) as [_ B2].
    assert (ceil a <= 0)%Z by (apply Z.lt_succ_r, lt_IZR; rewrite succ_IZR; lra).
    assert (0 <= floor b)%Z by (apply Z.lt_succ_r, lt_IZR; rewrite succ_IZR; lra).
    lia.
  - now apply floor_mono.
Qed.

Lemma log2_mono (x y : R) : 0 < x -> x <= y -> log2 x <= log2 y.
Proof.
  intros Hx [Hlt | ->]; [| lra]. unfold log2.
  pose proof ln_2_pos as H2. apply Rinv_0_lt_compat in H2.
  pose proof (ln_increasing x y Hx Hlt). unfold Rdiv. nra.
Qed.

Lemma log2_pow (k : nat) : log2 (2 ^ k) = INR k.
Proof.
  unfold log2. rewrite ln_pow by lra.
  pose proof ln_2_pos. field. lra.
Qed.

End ZoomOrder.

(** X5.  A coarser resolution never gives a higher zoom: for
    [0 < r1 <= r2] both conversions succeed and the zoom of [r2] is at most
    the zoom of [r1]. *)
Theorem X5_zoom_antitone (r1 r2 : R) :
  (0 < r1)%R -> (r1 <= r2)%R ->
  exists z1 z2,
    resolution_to_zoom_level r1 = Ok z1 /\
    resolution_to_zoom_level r2 = Ok z2 /\
    z2 <= z1.
Proof.
  intros H1 H12.
  exists (int (log2 (initial_resolution / r1))), (int (log2 (initial_resolution / r2))).
  rewrite !resolution_to_zoom_level_pos by lra.
  split; [reflexivity |]. split; [reflexivity |].
  apply int_mono, log2_mono.
  - apply Rdiv_lt_0_compat; [apply initial_resolution_pos | lra].
  - pose proof initial_resolution_pos.
    unfold Rdiv. apply Rmult_le_compat_l; [lra |].
    apply Rinv_le_contravar; lra.
Qed.

Lemma X5_zoom_antitone_witness :
  exists z1 z2,
    resolution_to_zoom_level 1 = Ok z1 /\
    resolution_to_zoom_level 2 = Ok z2 /\
    z2 <= z1.
Proof. apply (X5_zoom_antitone 1 2); lra. Defined.

(** X6.  The resolution of zoom level [k], 156543.03392804097 / 2^k, is
    converted back to [k]. *)
Theorem X6_zoom_of_level_resolution (k : nat) :
  resolution_to_zoom_level (initial_resolution / 2 ^ k) = Ok (Z.of_nat k).
Proof.
  pose proof initial_resolution_pos as Hc.
  assert (Hp : (0 < 2 ^ k)%R) by (apply pow_lt; lra).
  rewrite resolution_to_zoom_level_pos by (apply Rdiv_lt_0_compat; assumption).
  replace (initial_resolution / (initial_resolution / 2 ^ k))%R with (2 ^ k)%R
    by (field; lra).
  rewrite log2_pow, INR_IZR_INZ.
  rewrite int_nonneg by (apply IZR_le; lia).
  now rewrite floor_IZR.
Qed.

(** ** The covering range *)

Section CoveringRange.
#[local] Open Scope R_scope.

Lemma length_range (a b : Z) : length (range a b) = Z.to_nat (b - a).
Proof. unfold range. now rewrite length_map, length_seq. Qed.

Lemma length_product {A B} (xs : list A) (ys : list B) :
  length (product xs ys) = (length xs * length ys)%nat.
Proof.
  unfold product. induction xs as [| x xs IH]; cbn; [reflexivity |].
  now rewrite length_app, length_map, IH.
Qed.

Lemma NoDup_product {A B} (xs : list A) (ys : list B) :
  List.NoDup xs -> List.NoDup ys -> List.NoDup (product xs ys).
Proof.
  intros Hx Hy. unfold product. induction Hx as [| x xs Hnin Hx IH]; cbn.
  - constructor.
  - apply List.NoDup_app.
    + apply Finite.Injective_map_NoDup; [| exact Hy]. intros y1 y2 [=]. assumption.
    + exact IH.
    + intros [a b] (y & [= <- <-] & _)%in_map_iff Hin.
      apply (In_product xs ys) in Hin as [Hin _]. contradiction.
Qed.

End CoveringRange.

(** X7.  The range covers the box: the tile that contains a point of the
    box [x0, x1) x [y0, y1) of fractional tile coordinates is one of the
    tiles requested. *)
Theorem X7_range_covers_box (x0 y0 x1 y1 px py : R) :
  (x0 <= px < x1)%R -> (y0 <= py < y1)%R ->
  In (floor px, floor py) (tile_corners x0 y0 x1 y1).
Proof.
  intros [Hx0 Hx1] [Hy0 Hy1]. apply In_tile_corners.
  destruct (ceil_spec x1) as [_ Cx]. destruct (ceil_spec y1) as [_ Cy].
  destruct (floor_spec px) as [Fx _]. destruct (floor_spec py) as [Fy _].
  repeat split; try (apply floor_mono; assumption); apply lt_IZR; lra.
Qed.

Lemma X7_range_covers_box_witness :
  In (floor (1 / 2), floor (1 / 2)) (tile_corners 0 0 1 1).
Proof. apply (X7_range_covers_box 0 0 1 1 (1 / 2) (1 / 2)); lra. Defined.

(** X8.  The range has no tile to spare: every tile requested contains a
    point of the box [x0, x1] x [y0, y1]. *)
Theorem X8_range_within_box (x0 y0 x1 y1 : R) (i j : Z) :
  (x0 <= x1)%R -> (y0 <= y1)%R ->
  In (i, j) (tile_corners x0 y0 x1 y1) ->
  exists px py,
    (x0 <= px <= x1)%R /\ (y0 <= py <= y1)%R /\ floor px = i /\ floor py = j.
Proof.
  intros Hx Hy [[Hi0 Hi1] [Hj0 Hj1]]%In_tile_corners.
  assert (Hpoint : forall a b k, (a <= b)%R -> floor a <= k < ceil b ->
            (a <= Rmax a (IZR k) <= b)%R /\ floor (Rmax a (IZR k)) = k).
  { intros a b k Hab [Hk0 Hk1].
    destruct (floor_spec a) as [Fa1 Fa2]. destruct (ceil_spec b) as [Cb1 _].
    assert (IZR k <= IZR (ceil b) - 1)%R
      by (rewrite <- minus_IZR; apply IZR_le; lia).
    assert (IZR (floor a) <= IZR k)%R by (apply IZR_le; assumption).
    destruct (Rle_dec a (IZR k)).
    - rewrite Rmax_right by assumption. rewrite floor_IZR. repeat split; lra.
    - rewrite Rmax_left by lra.
      assert (k = floor a) as ->.
      { apply Z.le_antisymm; [| assumption].
        apply Z.lt_succ_r, lt_IZR. rewrite succ_IZR. lra. }
      repeat split; lra. }
  destruct (Hpoint x0 x1 i Hx (conj Hi0 Hi1)) as [Px Fx].
  destruct (Hpoint y0 y1 j Hy (conj Hj0 Hj1)) as [Py Fy].
  now exists (Rmax x0 (IZR i)), (Rmax y0 (IZR j)).
Qed.

Lemma X8_range_within_box_witness :
  exists px py,
    (0 <= px <= 1)%R /\ (0 <= py <= 1)%R /\ floor px = 0 /\ floor py = 0.
Proof.
  apply (X8_range_within_box 0 0 1 1 0 0); [lra | lra |].
  apply In_tile_corners. rewrite (floor_IZR 0), (ceil_IZR 1). lia.
Defined.

(** X9.  The range lists every index once; it has
    (ceil x1 - floor x0) * (ceil y1 - floor y0) tiles, and at least one when
    the box has an interior. *)
Theorem X9_range_size (x0 y0 x1 y1 : R) :
  List.NoDup (tile_corners x0 y0 x1 y1) /\
  length (tile_corners x0 y0 x1 y1)
  = (Z.to_nat (ceil x1 - floor x0) * Z.to_nat (ceil y1 - floor y0))%nat /\
  ((x0 < x1)%R -> (y0 < y1)%R -> tile_corners x0 y0 x1 y1 <> []).
Proof.
  split; [| split].
  - apply NoDup_product; apply NoDup_range.
  - unfold tile_corners. now rewrite length_product, !length_range.
  - intros Hx Hy Hnil.
    assert (Hin : In (floor x0, floor y0) (tile_corners x0 y0 x1 y1)).
    { apply In_tile_corners.
      destruct (floor_spec x0) as [Fx _]. destruct (ceil_spec x1) as [_ Cx].
      destruct (floor_spec y0) as [Fy _]. destruct (ceil_spec y1) as [_ Cy].
      repeat split; try lia; apply lt_IZR; lra. }
    rewrite Hnil in Hin. destruct Hin.
Qed.

(** ** How many requests *)

Section RequestCount.
Context {session : Session} {formatter : Formatter} {imaging : Imaging}.
Variable net : Network.
Variable WKT_3857 : string.

Lemma requests_of_app u evs1 evs2 :
  requests_of u (evs1 ++ evs2) = (requests_of u evs1 + requests_of u evs2)%nat.
Proof. unfold requests_of. now rewrite List.filter_app, length_app. Qed.

Lemma requests_of_repeat_eq u n : requests_of u (repeat (EvGet u) n) = n.
Proof.
  unfold requests_of. induction n as [| n IH]; cbn; [reflexivity |].
  rewrite bool_decide_eq_true_2 by reflexivity. cbn. now rewrite IH.
Qed.

Lemma requests_of_repeat_ne u u' n : u' <> u -> requests_of u (repeat (EvGet u') n) = 0%nat.
Proof.
  intros Hne. unfold requests_of. induction n as [| n IH]; cbn; [reflexivity |].
  rewrite bool_decide_eq_false_2 by assumption. exact IH.
Qed.

(** Every submitted URL is requested one to three times, no other URL is
    requested at all, and nothing else happens. *)
Lemma submit_all_requests us w :
  List.NoDup us ->
  exists evs,
    trace (snd (submit_all net us w)) = trace w ++ evs /\
    (forall u, In u us -> (1 <= requests_of u evs <= 3)%nat) /\
    (forall u, ~ In u us -> requests_of u evs = 0%nat) /\
    (length us <= length evs <= 3 * length us)%nat.
Proof.
  intros Hnd. revert w. induction Hnd as [| u us Hnin Hnd IH]; intros w; cbn [submit_all].
  - exists []. cbn. rewrite app_nil_r. repeat split; try lia; intros u [].
  - rewrite (mbind_ok _ _ _ _ _ (submit_ok net u w)).
    destruct (get_tile_effects net u w) as (n & Hn & Ht & _).
    set (w1 := snd (get_tile net u w)) in *.
    destruct (IH w1) as (evs & Et & Ein & Eout & Elen).
    destruct (submit_all_ok net us w1) as (fs & w' & E & _).
    rewrite E in Et. cbn in Et.
    rewrite (mbind_ok _ _ _ _ _ E). cbn.
    exists (repeat (EvGet u) n ++ evs).
    rewrite Et, Ht, <- app_assoc. split; [reflexivity |].
    split; [| split].
    + intros u' [<- | Hu'].
      * rewrite requests_of_app, requests_of_repeat_eq, (Eout u Hnin). lia.
      * assert (u <> u') by (intros ->; contradiction).
        rewrite requests_of_app, requests_of_repeat_ne by assumption.
        specialize (Ein u' Hu'). lia.
    + intros u' Hu'.
      assert (u <> u') by (intros ->; apply Hu'; now left).
      rewrite requests_of_app, requests_of_repeat_ne by assumption.
      rewrite Eout; [reflexivity |]. intros H'. apply Hu'. now right.
    + rewrite length_app, repeat_length. lia.
Qed.

End RequestCount.

(** X10.  When the template can be formatted for every tile of the range,
    [draw_tile] requests every tile of the range at least once and at most
    three times, requests no other URL, and so makes between N and 3N
    requests for a range of N tiles. *)
Theorem X10_request_count {session : Session} {formatter : Formatter}
    {imaging : Imaging}
    (net : Network) (WKT_3857 source : string) (lat0 lon0 lat1 lon1 : R) (zoom : Z)
    (filename : string) (kwargs : option (list string)) (w : World)
    (xa ya xb yb : R) :
  deg2num lat0 lon0 zoom = Ok (xa, ya) ->
  deg2num lat1 lon1 zoom = Ok (xb, yb) ->
  let corners := tile_corners (Rmin xa xb) (Rmin ya yb) (Rmax xa xb) (Rmax ya yb) in
  formats source zoom corners ->
  exists evs,
    trace (snd (draw_tile net WKT_3857 source lat0 lon0 lat1 lon1 zoom filename kwargs w))
      = trace w ++ evs /\
    (forall x y, In (x, y) corners ->
       (1 <= requests_of (Url source zoom x y) evs <= 3)%nat) /\
    (forall u, (forall x y, In (x, y) corners -> u <> Url source zoom x y) ->
       requests_of u evs = 0%nat) /\
    (length corners <= length evs <= 3 * length corners)%nat.
Proof.
  intros Ha Hb corners Hf.
  rewrite (draw_tile_sorted _ _ _ _ _ _ _ _ _ _ _ _ _ _ _ Ha Hb), draw_sorted_trace.
  fold corners. rewrite (submit_tiles_formats _ _ _ _ _ Hf).
  destruct (submit_all_requests net
              (map (fun c => Url source zoom (fst c) (snd c)) corners) w)
    as (evs & Et & Ein & Eout & Elen).
  { apply Finite.Injective_map_NoDup.
    - intros [x y] [x' y'] [= -> ->]. reflexivity.
    - apply NoDup_product; apply NoDup_range. }
  exists evs. split; [exact Et |]. split; [| split].
  - intros x y Hc. apply Ein. apply in_map_iff. now exists (x, y).
  - intros u Hu. apply Eout. intros ([x y] & <- & Hc)%in_map_iff.
    now apply (Hu x y Hc).
  - now rewrite length_map in Elen.
Qed.

(** ** Files the operation touches *)

Lemma writes_only_bind {A B} fn (m : M A) (k : A -> M B) :
  writes_only fn m -> (forall a, writes_only fn (k a)) -> writes_only fn (mbind m k).
Proof.
  intros Hm Hk w p Hp. unfold mbind. specialize (Hm w p Hp).
  destruct (m w) as [[a | e] w1]; cbn in *; [| assumption].
  now rewrite (Hk a w1 p Hp).
Qed.

Lemma writes_only_keeps {A} fn (m : M A) : keeps_files m -> writes_only fn m.
Proof. intros H w p _. now rewrite H. Qed.

Section Frame.
Context {session : Session} {formatter : Formatter} {imaging : Imaging} {rio : RasterIO}.
Variable net : Network.
Variable basemaps : gmap string string.
Variable WKT_3857 : string.

Lemma writes_only_gdal_Create fn xs ys bands opts :
  writes_only fn (gdal_Create fn xs ys bands opts).
Proof.
  intros w p Hp. unfold gdal_Create. destruct (_ || _); cbn; [reflexivity |].
  now apply lookup_insert_ne.
Qed.

Lemma writes_only_on_dataset fn f : writes_only fn (on_dataset fn f).
Proof. intros w p Hp. cbn. now apply lookup_alter_ne. Qed.

Lemma writes_only_write_bands fn img bands : writes_only fn (write_bands fn img bands).
Proof.
  induction bands as [| b bands IH]; cbn [write_bands].
  - apply writes_only_keeps, keeps_files_ret.
  - apply writes_only_bind; [apply writes_only_on_dataset | intros _; exact IH].
Qed.

Lemma writes_only_draw_fetched jobs lat0 lon0 lat1 lon1 filename kwargs x0 y0 x1 y1 :
  writes_only filename
    (draw_fetched WKT_3857 jobs lat0 lon0 lat1 lon1 filename kwargs x0 y0 x1 y1).
Proof.
  unfold draw_fetched.
  apply writes_only_bind; [apply writes_only_keeps, keeps_files_lift |].
  intros [bigim base_size].
  apply writes_only_bind; [apply writes_only_keeps, keeps_files_lift |]. intros img.
  apply writes_only_bind; [apply writes_only_gdal_Create |]. intros _.
  apply writes_only_bind; [apply writes_only_keeps, keeps_files_lift |]. intros gt.
  apply writes_only_bind; [apply writes_only_on_dataset |]. intros _.
  apply writes_only_bind; [apply writes_only_on_dataset |]. intros _.
  apply writes_only_bind; [apply writes_only_write_bands |]. intros _.
  apply writes_only_keeps, keeps_files_ret.
Qed.

Lemma writes_only_draw_tile source lat0 lon0 lat1 lon1 zoom filename kwargs :
  writes_only filename
    (draw_tile net WKT_3857 source lat0 lon0 lat1 lon1 zoom filename kwargs).
Proof.
  unfold draw_tile.
  apply writes_only_bind; [apply writes_only_keeps, keeps_files_lift |]. intros [x0 y0].
  apply writes_only_bind; [apply writes_only_keeps, keeps_files_lift |]. intros [x1 y1].
  cbn. unfold draw_sorted.
  apply writes_only_bind; [| intros futures; apply writes_only_draw_fetched].
  apply writes_only_keeps. intros w. apply submit_tiles_files.
Qed.

Lemma writes_only_image_to_cog src dst : writes_only dst (image_to_cog src dst).
Proof.
  unfold image_to_cog. destruct (negb rio_cogeo_installed).
  - apply writes_only_keeps, keeps_files_raise.
  - apply writes_only_bind; [apply writes_only_keeps; now intros w |].
    intros _ w p Hp. destruct (_ && _); [reflexivity |].
    destruct (files w !! src) as [f |]; [| reflexivity].
    destruct (cog_translate f "deflate"); cbn; [| reflexivity].
    now apply lookup_insert_ne.
Qed.

Lemma writes_only_reproject image out dst_crs to_cog :
  writes_only out (reproject image out dst_crs to_cog).
Proof.
  unfold reproject.
  apply writes_only_bind; [apply writes_only_keeps; now intros w |]. intros _.
  apply writes_only_bind.
  - intros w p Hp. destruct (files w !! image) as [[g | c] |]; try reflexivity.
    destruct (warp g dst_crs); cbn; [| reflexivity]. now apply lookup_insert_ne.
  - intros _. destruct to_cog; [apply writes_only_image_to_cog |].
    apply writes_only_keeps, keeps_files_ret.
Qed.

Lemma writes_only_after_draw output crs to_cog return_image image :
  writes_only output (after_draw output crs to_cog return_image image).
Proof.
  unfold after_draw. destruct return_image; [apply writes_only_keeps, keeps_files_ret |].
  destruct (negb _).
  - apply writes_only_bind; [apply writes_only_reproject |].
    intros _. apply writes_only_keeps, keeps_files_ret.
  - destruct to_cog; [| apply writes_only_keeps, keeps_files_ret].
    apply writes_only_bind; [apply writes_only_image_to_cog |].
    intros _. apply writes_only_keeps, keeps_files_ret.
Qed.

End Frame.

(** X11.  Whatever its arguments and however it ends, the operation changes
    no file other than the output path. *)
Theorem X11_only_output_written {session : Session} {formatter : Formatter}
    {imaging : Imaging}
    {rio : RasterIO} (net : Network) (basemaps : gmap string string)
    (WKT_3857 output : string) (bbox : list R) (zoom : option Z)
    (resolution : option R) (source : pyobj) (crs : string)
    (to_cog return_image overwrite quiet : bool) (kwargs : option (list string))
    (w : World) (p : string) :
  p <> output ->
  files (snd (tms_to_geotiff net basemaps WKT_3857 output bbox zoom resolution source
                crs to_cog return_image overwrite quiet kwargs w)) !! p
  = files w !! p.
Proof.
  intros Hp. rewrite tms_to_geotiff_unfold.
  destruct (negb overwrite && exists_ output w); [reflexivity |].
  destruct (resolve_source basemaps source) as [src | e]; [| reflexivity].
  destruct (unpack_bbox bbox) as [[[[west south] east] north] | e]; [| reflexivity].
  destruct (select_zoom zoom resolution) as [z | e]; [| reflexivity].
  assert (H : writes_only output
            (do! image := draw_tile net WKT_3857 src south west north east z output
                            kwargs in
             after_draw output crs to_cog return_image image)).
  { apply writes_only_bind; [apply writes_only_draw_tile |].
    intros image. apply writes_only_after_draw. }
  specialize (H w p Hp). unfold reraise.
  destruct (mbind _ _ w) as [[r | e] w1]; exact H.
Qed.

(** ** The two projections agree *)

Section Projections.
#[local] Open Scope R_scope.

(** [tan (pi/4 + a/2) = tan a + sec a] wherever [cos a] is not zero. *)
Lemma tan_quarter_plus_half (a : R) :
  cos a <> 0 -> tan (PI / 4 + a / 2) = tan a + 1 / cos a.
Proof.
  intros Hc.
  assert (Ha : a = 2 * (a / 2)) by lra.
  set (h := a / 2) in *.
  unfold tan. rewrite sin_plus, cos_plus, sin_PI4, cos_PI4.
  rewrite Ha in Hc |- *. rewrite sin_2a, cos_2a in *.
  pose proof (sin2_cos2 h) as H1. unfold Rsqr in H1.
  pose proof sqrt2_neq_0 as Hk.
  set (s := sin h) in *. set (c := cos h) in *.
  assert (Hm : c - s <> 0) by (intros E; apply Hc; nra).
  assert (Hp : c + s <> 0) by (intros E; apply Hc; nra).
  assert (Hd : c * c - s * s <> 0) by exact Hc.
  replace (1 / (c * c - s * s)) with ((s * s + c * c) / (c * c - s * s))
    by (now rewrite H1).
  field. repeat split; assumption.
Qed.

(** A latitude with tile coordinates is in the domain of the projection. *)
Lemma deg2num_mercator_domain lat lon zoom p :
  deg2num lat lon zoom = Ok p ->
  cos (radians lat) <> 0 /\
  0 < tan (radians lat) + 1 / cos (radians lat) /\
  tan (radians (45 + lat / 2.0)) = tan (radians lat) + 1 / cos (radians lat).
Proof.
  unfold deg2num, truediv.
  destruct (Req_dec_T (cos (radians lat)) 0) as [| Hc]; [discriminate |]. cbn.
  unfold math_log. destruct (Rlt_dec 0 _) as [Hl |]; [| discriminate]. intros _.
  split; [exact Hc |]. split; [exact Hl |].
  replace (radians (45 + lat / 2.0)) with (PI / 4 + radians lat / 2)
    by (unfold radians; lra).
  now apply tan_quarter_plus_half.
Qed.

End Projections.

(** X12.  The tile grid and the georeference are one projection: wherever
    [deg2num] gives tile coordinates (x, y), [from4326_to3857] gives metres
    (xp, yp) with x = (xp / (pi R) + 1) / 2 * 2^zoom and
    y = (1 - yp / (pi R)) / 2 * 2^zoom. *)
Theorem X12_tile_grid_is_mercator (lat lon : R) (zoom : Z) (x y : R) :
  deg2num lat lon zoom = Ok (x, y) ->
  exists xp yp,
    from4326_to3857 lat lon = Ok (xp, yp) /\
    x = ((xp / (PI * EARTH_EQUATORIAL_RADIUS) + 1) / 2 * pow2 zoom)%R /\
    y = ((1 - yp / (PI * EARTH_EQUATORIAL_RADIUS)) / 2 * pow2 zoom)%R.
Proof.
  intros H. destruct (deg2num_mercator_domain _ _ _ _ H) as (Hc & Hl & Ht).
  rewrite (deg2num_ok _ _ _ Hc Hl) in H. injection H as <- <-.
  unfold from4326_to3857, math_log. rewrite Ht.
  destruct (Rlt_dec 0 _); [| contradiction]. cbn.
  eexists _, _. split; [reflexivity |].
  pose proof PI_RGT_0.
  assert (EARTH_EQUATORIAL_RADIUS <> 0)%R by (unfold EARTH_EQUATORIAL_RADIUS; lra).
  generalize dependent EARTH_EQUATORIAL_RADIUS. intros earth He.
  unfold radians. split; field; split; lra.
Qed.

(** ** All or nothing *)

Section AllOrNothing.
Context {session : Session} {formatter : Formatter} {imaging : Imaging}.
Variable net : Network.
Variable WKT_3857 : string.

(** Once the dataset is created nothing can fail any more. *)
Lemma draw_fetched_raise_files jobs lat0 lon0 lat1 lon1 filename kwargs
    x0 y0 x1 y1 w e w' :
  (0 < tan (radians (45 + lat0 / 2.0)))%R ->
  (0 < tan (radians (45 + lat1 / 2.0)))%R ->
  draw_fetched WKT_3857 jobs lat0 lon0 lat1 lon1 filename kwargs x0 y0 x1 y1 w
    = (Raise e, w') ->
  w' = w.
Proof.
  intros H0 H1. unfold draw_fetched.
  unfold mbind at 1. unfold lift at 1.
  destruct (paste_all jobs _ None (256, 256)) as [[bigim base_size] | e0];
    [| now intros [= _ <-]].
  unfold mbind at 1. unfold lift at 1.
  destruct (finish_picture bigim base_size _ x0 y0 x1 y1) as [img | e0];
    [| now intros [= _ <-]].
  unfold mbind at 1.
  destruct (gdal_Create filename (fst (size img)) (snd (size img))
              (length (getbands img))
              match kwargs with Some o => o | None => default_options end w)
    as [[[] | e0] w1] eqn:Hc.
  2:{ intros [= _ <-]. unfold gdal_Create in Hc.
      destruct (_ || _); now inversion Hc. }
  apply gdal_Create_ok_inv in Hc as (Hw & Hh & g & L1 & _).
  unfold mbind at 1. unfold lift at 1.
  rewrite (make_geotransform_ok _ _ _ _ _ _ Hw Hh H0 H1).
  unfold SetGeoTransform, SetProjection.
  unfold mbind at 1.
  destruct (on_dataset_lookup filename
    (fun g0 => {| xsize := xsize g0; ysize := ysize g0; options := options g0;
          geotransform := Spec.geotransform lat0 lon0 lat1 lon1
                            (fst (size img)) (snd (size img));
          projection := projection g0; rasters := rasters g0 |}) g w1 L1) as [E2 L2].
  rewrite E2.
  unfold mbind at 1.
  destruct (on_dataset_lookup filename
    (fun g0 => {| xsize := xsize g0; ysize := ysize g0; options := options g0;
          geotransform := geotransform g0; projection := WKT_3857;
          rasters := rasters g0 |}) _ _ L2) as [E3 L3].
  rewrite E3.
  destruct (write_bands_lookup filename img (seq 0 (length (getbands img))) _ _ L3)
    as (g' & w2 & R1 & _).
  rewrite (mbind_ok _ _ _ _ _ R1). discriminate.
Qed.

End AllOrNothing.

(** X13.  [draw_tile] is all or nothing on the files: when it raises, for
    whatever reason, it has created and changed no file; the failures of the
    georeferencing cannot happen once the dataset has been created. *)
Theorem X13_draw_tile_all_or_nothing {session : Session} {formatter : Formatter}
    {imaging : Imaging}
    (net : Network) (WKT_3857 source : string) (lat0 lon0 lat1 lon1 : R) (zoom : Z)
    (filename : string) (kwargs : option (list string)) (w w' : World) (e : exn) :
  draw_tile net WKT_3857 source lat0 lon0 lat1 lon1 zoom filename kwargs w
    = (Raise e, w') ->
  files w' = files w.
Proof.
  unfold draw_tile.
  unfold mbind at 1. unfold lift at 1.
  destruct (deg2num lat0 lon0 zoom) as [[xa ya] | e0] eqn:Ha; [| now intros [= _ <-]].
  unfold mbind at 1. unfold lift at 1.
  destruct (deg2num lat1 lon1 zoom) as [[xb yb] | e0] eqn:Hb; [| now intros [= _ <-]].
  cbn.
  destruct (formats_dec source zoom
              (tile_corners (Rmin xa xb) (Rmin ya yb) (Rmax xa xb) (Rmax ya yb)))
    as [Hf | Hn].
  2:{ destruct (draw_sorted_format_raises WKT_3857 source lat0 lon0 lat1 lon1 zoom
                  filename kwargs _ _ _ _ Hn) as [e0 He].
      destruct (He net w) as [_ H2]. intros H. now rewrite H in H2. }
  rewrite draw_sorted_fetched by exact Hf. intros H.
  destruct (deg2num_mercator_domain _ _ _ _ Ha) as (_ & La & Ta).
  destruct (deg2num_mercator_domain _ _ _ _ Hb) as (_ & Lb & Tb).
  rewrite <- Ta in La. rewrite <- Tb in Lb.
  apply (draw_fetched_raise_files WKT_3857 _ _ _ _ _ _ _ _ _ _ _ _ _ _ La Lb) in H.
  subst w'. apply submit_all_files.
Qed.

(** ** The base size *)

Section BaseSize.
Context {imaging : Imaging}.

(** Once there is a canvas, the loop keeps a canvas and the base size. *)
Lemma paste_all_with_canvas jobs bbox im base_size bigim base_size' :
  paste_all jobs bbox (Some im) base_size = Ok (bigim, base_size') ->
  bigim <> None /\ base_size' = base_size.
Proof.
  revert im. induction jobs as [| [fut c] jobs IH]; intros im; cbn.
  - intros [= <- <-]. now split.
  - destruct fut as [tile | e]; cbn; [| discriminate].
    destruct tile as [tile |]; cbn; [| apply IH].
    destruct bbox as [[[b0 b1] b2] b3].
    destruct (Image_open tile) as [t | e]; cbn; [| discriminate].
    destruct (String.eqb (if String.eqb (mode t) "RGB" then "RGB" else "RGBA") "RGB");
      cbn; [apply IH |].
    destruct (is_empty _) as [empty | e]; cbn; [| discriminate].
    destruct (negb empty); apply IH.
Qed.

End BaseSize.

(** X14.  The base size used for the crop is the size of the first tile that
    is present, whatever the sizes of the tiles after it; with no tile
    present there is no canvas and the base size stays 256 by 256. *)
Theorem X14_base_size_of_first_tile {imaging : Imaging}
    (jobs : list (future * (Z * Z))) (bbox : Z * Z * Z * Z)
    (bigim : option Image) (base_size : Z * Z) :
  paste_all jobs bbox None (256, 256) = Ok (bigim, base_size) ->
  match first_present jobs with
  | None => bigim = None /\ base_size = (256, 256)
  | Some tile =>
      exists im, Image_open tile = Ok im /\ base_size = size im /\ bigim <> None
  end.
Proof.
  induction jobs as [| [fut c] jobs IH]; cbn.
  - intros [= <- <-]. now split.
  - destruct fut as [tile | e]; cbn; [| discriminate].
    destruct tile as [tile |]; cbn; [| exact IH].
    destruct bbox as [[[b0 b1] b2] b3].
    destruct (Image_open tile) as [t | e]; cbn; [| discriminate].
    intros H. exists t. split; [reflexivity |].
    destruct (String.eqb (if String.eqb (mode t) "RGB" then "RGB" else "RGBA") "RGB");
      cbn in H.
    + apply paste_all_with_canvas in H as [H1 ->]. now split.
    + destruct (is_empty _) as [empty | e]; cbn in H; [| discriminate].
      destruct (negb empty); apply paste_all_with_canvas in H as [H1 ->]; now split.
Qed.

(** ** After the raster is written *)

(** X15.  When rio-cogeo is missing and a COG is asked for in EPSG:3857, the
    operation raises the [ImportError] of [image_to_cog], with its text,
    wrapped in [Exception] after [draw_tile] has written the raster, which
    stays as [draw_tile] left it. *)
Theorem X15_missing_rio_cogeo_keeps_raster {session : Session} {formatter : Formatter}
    {imaging : Imaging}
    {rio : RasterIO} (net : Network) (basemaps : gmap string string)
    (WKT_3857 output : string) (west south east north : R) (zoom : option Z)
    (resolution : option R) (source : pyobj) (crs : string)
    (overwrite quiet : bool) (kwargs : option (list string))
    (w w1 : World) (src : string) (z : Z) (img : Image) :
  rio_cogeo_installed = false ->
  upper crs = "EPSG:3857" ->
  overwrite = true \/ files w !! output = None ->
  resolve_source basemaps source = Ok src ->
  select_zoom zoom resolution = Ok z ->
  draw_tile net WKT_3857 src south west north east z output kwargs w = (Ok img, w1) ->
  tms_to_geotiff net basemaps WKT_3857 output [west; south; east; north] zoom
    resolution source crs true false overwrite quiet kwargs w
  = (Raise (Exception (ImportError
       "The rio-cogeo package is not installed. Please install it with `pip install rio-cogeo` or `conda install rio-cogeo -c conda-forge`.")),
     w1) /\
  exists g, files w1 !! output = Some (Raster g) /\ projection g = WKT_3857.
Proof.
  intros Hrio Hcrs Hskip Hsrc Hz Hd. split.
  - rewrite (tms_to_geotiff_validated _ _ _ _ _ _ _ _ _ _ _ _ _ _ _ _ _ _ _ _
               Hskip Hsrc Hz).
    unfold reraise. rewrite (mbind_ok _ _ _ _ _ Hd).
    unfold after_draw. rewrite Hcrs. cbn [String.eqb negb].
    replace (String.eqb "EPSG:3857" "EPSG:3857") with true by reflexivity.
    cbn [negb]. unfold image_to_cog. rewrite Hrio. reflexivity.
  - unfold draw_tile in Hd.
    apply mbind_ok_inv in Hd as ([xa ya] & w2 & _ & Hd).
    apply mbind_ok_inv in Hd as ([xb yb] & w3 & _ & Hd).
    cbn in Hd. apply draw_sorted_ok_inv in Hd as (g & L & _ & P & _).
    now exists g.
Qed.

Section PostProcessingTrace.
Context {rio : RasterIO}.

Lemma image_to_cog_ok_trace src dst w w' :
  image_to_cog src dst w = (Ok tt, w') -> trace w' = trace w ++ [EvCog src dst].
Proof.
  unfold image_to_cog. destruct (negb rio_cogeo_installed); [discriminate |].
  unfold mbind, emit.
  destruct (_ && _); [discriminate |].
  destruct (files (log (EvCog src dst) w) !! src) as [f |]; [| discriminate].
  destruct (cog_translate f "deflate"); [| discriminate].
  now intros [= <-].
Qed.

Lemma reproject_ok_trace image out dst_crs to_cog w w' :
  reproject image out dst_crs to_cog w = (Ok tt, w') ->
  exists evs, trace w' = trace w ++ EvReproject image out dst_crs :: evs.
Proof.
  unfold reproject. unfold mbind at 1. unfold emit at 1.
  unfold mbind at 1.
  destruct (files (log (EvReproject image out dst_crs) w) !! image) as [[g | c] |];
    try discriminate.
  destruct (warp g dst_crs) as [g' | e]; [| discriminate].
  destruct to_cog.
  - intros H. apply image_to_cog_ok_trace in H. rewrite H. cbn.
    rewrite <- app_assoc. now eexists.
  - intros [= <-]. cbn. now exists [].
Qed.

End PostProcessingTrace.

(** X16.  Without [return_image], the operation ends right after
    [draw_tile], returning [None] in the world [draw_tile] left, exactly when
    [crs] is EPSG:3857 in some letter case and no COG is asked for. *)
Theorem X16_no_postprocessing_iff {session : Session} {formatter : Formatter}
    {imaging : Imaging}
    {rio : RasterIO} (net : Network) (basemaps : gmap string string)
    (WKT_3857 output : string) (west south east north : R) (zoom : option Z)
    (resolution : option R) (source : pyobj) (crs : string)
    (to_cog overwrite quiet : bool) (kwargs : option (list string))
    (w w1 : World) (src : string) (z : Z) (img : Image) :
  overwrite = true \/ files w !! output = None ->
  resolve_source basemaps source = Ok src ->
  select_zoom zoom resolution = Ok z ->
  draw_tile net WKT_3857 src south west north east z output kwargs w = (Ok img, w1) ->
  tms_to_geotiff net basemaps WKT_3857 output [west; south; east; north] zoom
    resolution source crs to_cog false overwrite quiet kwargs w = (Ok None, w1)
  <-> upper crs = "EPSG:3857" /\ to_cog = false.
Proof.
  intros Hskip Hsrc Hz Hd.
  rewrite (tms_to_geotiff_validated _ _ _ _ _ _ _ _ _ _ _ _ _ _ _ _ _ _ _ _
             Hskip Hsrc Hz).
  unfold reraise. rewrite (mbind_ok _ _ _ _ _ Hd). unfold after_draw.
  assert (Hgrow : forall (l l' : list event) e, l <> l ++ e :: l').
  { intros l l' e H. apply (f_equal (@length event)) in H.
    rewrite length_app in H. cbn in H. lia. }
  destruct (String.eqb (upper crs) "EPSG:3857") eqn:Hc; cbn [negb].
  - apply String.eqb_eq in Hc. destruct to_cog.
    + split; [| intros [_ [=]]].
      unfold mbind.
      destruct (image_to_cog output output w1) as [[[] | e] w2] eqn:E; [| discriminate].
      intros [= ->]. apply image_to_cog_ok_trace in E. now apply Hgrow in E.
    + split; [now split | reflexivity].
  - apply String.eqb_neq in Hc.
    split; [| intros [? _]; contradiction].
    unfold mbind.
    destruct (reproject output output crs to_cog w1) as [[[] | e] w2] eqn:E;
      [| discriminate].
    intros [= ->]. apply reproject_ok_trace in E as [evs E]. now apply Hgrow in E.
Qed.

(** ** Templates that cannot be formatted *)

(** X27.  When the template cannot be formatted for the first tile of the
    range, [draw_tile] raises what [format] raises: no request has been
    made and no file is changed. *)
Theorem X27_unformattable_template {session : Session} {formatter : Formatter}
    {imaging : Imaging}
    (net : Network) (WKT_3857 source : string) (lat0 lon0 lat1 lon1 : R) (zoom : Z)
    (filename : string) (kwargs : option (list string)) (w : World)
    (xa ya xb yb : R) (x y : Z) (rest : list (Z * Z)) (e : exn) :
  deg2num lat0 lon0 zoom = Ok (xa, ya) ->
  deg2num lat1 lon1 zoom = Ok (xb, yb) ->
  tile_corners (Rmin xa xb) (Rmin ya yb) (Rmax xa xb) (Rmax ya yb) = (x, y) :: rest ->
  format_error source zoom x y = Some e ->
  draw_tile net WKT_3857 source lat0 lon0 lat1 lon1 zoom filename kwargs w
  = (Raise e, w).
Proof.
  intros Ha Hb Hc He.
  rewrite (draw_tile_sorted _ _ _ _ _ _ _ _ _ _ _ _ _ _ _ Ha Hb).
  unfold draw_sorted. rewrite Hc. cbn [submit_tiles].
  unfold mbind, lift. now rewrite (format_url_raise _ _ _ _ _ He).
Qed.

(** * Properties of the helper functions of [utils.py] *)

Section GeodesyFacts.
Import Geodesy.
#[local] Open Scope R_scope.

Lemma meters_per_degree_bounds (latitude : R) :
  -90 <= latitude <= 90 ->
  111099 <= 111320 * (1 - 0.000022 * Rabs latitude) <= 111320.
Proof.
  intros H.
  assert (0 <= Rabs latitude <= 90).
  { split; [apply Rabs_pos |]. apply Rabs_le. lra. }
  lra.
Qed.

Lemma fmod_range (a b : R) : 0 < b -> 0 <= fmod a b < b.
Proof.
  intros Hb. unfold fmod.
  pose proof (floor_spec (a / b)) as H.
  assert (E : a = a / b * b) by (field; lra).
  set (q := a / b) in *. set (f := IZR (floor q)) in *.
  rewrite E. nra.
Qed.

Lemma fmod_shift (a : R) : 0 <= a < 360 -> fmod (a + 360) 360 = a.
Proof.
  intros H. unfold fmod.
  rewrite (floor_unique ((a + 360) / 360) 1).
  - lra.
  - split.
    + apply Rmult_le_reg_r with 360; [lra |].
      unfold Rdiv. rewrite Rmult_assoc, Rinv_l by lra. lra.
    + apply Rmult_lt_reg_r with 360; [lra |].
      unfold Rdiv. rewrite Rmult_assoc, Rinv_l by lra. lra.
Qed.

Lemma degrees_PI : degrees PI = 180.
Proof. unfold degrees. field. apply PI_neq0. Qed.

Lemma degrees_half_PI : degrees (PI / 2) = 90.
Proof. unfold degrees. field. apply PI_neq0. Qed.

Lemma radians_span (a b : R) :
  a < b < a + 180 -> 0 < radians b - radians a < PI.
Proof.
  intros H. unfold radians. pose proof PI_RGT_0.
  assert (E : PI = 180 * (PI / 180)) by (field; lra).
  assert (0 < PI / 180) by (apply Rdiv_lt_0_compat; lra).
  split; [nra |]. rewrite E at 3. nra.
Qed.

End GeodesyFacts.

(** X17.  [meters_to_degrees] at a latitude between -90 and 90 never divides
    by zero, gives the same value for a latitude and its opposite, and for
    a non-negative distance stays between [meters / 111320] (its value at
    the equator) and [meters / 111099]. *)
Theorem X17_meters_to_degrees_bounds (meters latitude : R) :
  (-90 <= latitude <= 90)%R ->
  exists d,
    Geodesy.meters_to_degrees meters latitude = Ok d /\
    Geodesy.meters_to_degrees meters (- latitude) = Ok d /\
    ((0 <= meters)%R -> (meters / 111320 <= d <= meters / 111099)%R).
Proof.
  intros H. pose proof (meters_per_degree_bounds latitude H) as B.
  unfold Geodesy.meters_to_degrees, truediv. rewrite Rabs_Ropp.
  set (mpd := (111320 * (1 - 0.000022 * Rabs latitude))%R) in *.
  destruct (Req_dec_T mpd 0) as [E | _]; [lra |].
  exists (meters / mpd)%R. split; [reflexivity |]. split; [reflexivity |].
  intros Hm. unfold Rdiv. split.
  - apply Rmult_le_compat_l; [exact Hm |].
    apply Rinv_le_contravar; lra.
  - apply Rmult_le_compat_l; [exact Hm |].
    apply Rinv_le_contravar; lra.
Qed.

Lemma X17_meters_to_degrees_bounds_witness :
  exists d,
    Geodesy.meters_to_degrees 5 45 = Ok d /\
    Geodesy.meters_to_degrees 5 (- 45) = Ok d /\
    ((0 <= 5)%R -> (5 / 111320 <= d <= 5 / 111099)%R).
Proof. apply (X17_meters_to_degrees_bounds 5 45). lra. Defined.

(** X18.  The bearing returned by [calculate_bearing] is normalised: for
    all coordinates it is at least 0 and less than 360. *)
Theorem X18_bearing_normalised (lat1 lon1 lat2 lon2 : R) :
  (0 <= Geodesy.calculate_bearing lat1 lon1 lat2 lon2 < 360)%R.
Proof.
  unfold Geodesy.calculate_bearing. apply fmod_range. lra.
Qed.

(** X19.  The bearing of the cardinal directions: towards a point on the
    same meridian it is 0 when the point lies to the north and 180 when it
    lies to the south (less than 180 degrees of latitude away); along the
    equator it is 90 towards the east and 270 towards the west (less than
    180 degrees of longitude away). *)
Theorem X19_bearing_cardinal (a b l : R) :
  (a < b < a + 180)%R ->
  Geodesy.calculate_bearing a l b l = 0%R /\
  Geodesy.calculate_bearing b l a l = 180%R /\
  Geodesy.calculate_bearing 0 a 0 b = 90%R /\
  Geodesy.calculate_bearing 0 b 0 a = 270%R.
Proof.
  intros H. pose proof (radians_span a b H) as S.
  pose proof PI_RGT_0 as HPI.
  assert (Hs : (0 < sin (radians b - radians a))%R)
    by (apply sin_gt_0; lra).
  assert (R0 : radians 0 = 0%R) by (unfold radians; lra).
  unfold Geodesy.calculate_bearing. cbv zeta.
  rewrite !Rminus_diag, !R0, sin_0, cos_0.
  repeat split.
  - rewrite Rmult_0_l.
    replace (cos (radians a) * sin (radians b) - sin (radians a) * cos (radians b) * 1)%R
      with (sin (radians b - radians a)) by (rewrite sin_minus; ring).
    unfold Geodesy.atan2.
    destruct (Rlt_dec 0 (sin (radians b - radians a))) as [_ | N]; [| contradiction].
    unfold Rdiv. rewrite Rmult_0_l, atan_0.
    replace (Geodesy.degrees 0) with 0%R by (unfold Geodesy.degrees; ring).
    apply fmod_shift. lra.
  - rewrite Rmult_0_l.
    replace (cos (radians b) * sin (radians a) - sin (radians b) * cos (radians a) * 1)%R
      with (- sin (radians b - radians a))%R by (rewrite sin_minus; ring).
    unfold Geodesy.atan2.
    destruct (Rlt_dec 0 (- sin (radians b - radians a))) as [N | _]; [lra |].
    destruct (Rlt_dec (- sin (radians b - radians a)) 0) as [_ | N]; [| lra].
    destruct (Rle_dec 0 0) as [_ | N]; [| lra].
    unfold Rdiv. rewrite Rmult_0_l, atan_0, Rplus_0_l, degrees_PI.
    apply fmod_shift. lra.
  - replace (1 * 0 - 0 * 1 * cos (radians b - radians a))%R with 0%R by ring.
    rewrite Rmult_1_r.
    unfold Geodesy.atan2.
    destruct (Rlt_dec 0 0) as [N | _]; [lra |].
    destruct (Rlt_dec 0 (sin (radians b - radians a))) as [_ | N]; [| contradiction].
    rewrite degrees_half_PI. apply fmod_shift. lra.
  - replace (1 * 0 - 0 * 1 * cos (radians a - radians b))%R with 0%R by ring.
    rewrite Rmult_1_r.
    replace (radians a - radians b)%R with (- (radians b - radians a))%R by ring.
    rewrite sin_neg.
    unfold Geodesy.atan2.
    destruct (Rlt_dec 0 0) as [N | _]; [lra |].
    destruct (Rlt_dec 0 (- sin (radians b - radians a))) as [N | _]; [lra |].
    destruct (Rlt_dec (- sin (radians b - radians a)) 0) as [_ | N]; [| lra].
    replace (Geodesy.degrees (- (PI / 2))) with (-90)%R
      by (unfold Geodesy.degrees; field; apply PI_neq0).
    replace (-90 + 360)%R with 270%R by lra.
    unfold Geodesy.fmod.
    rewrite (floor_unique (270 / 360) 0) by (simpl; lra).
    simpl. lra.
Qed.

Lemma X19_bearing_cardinal_witness :
  Geodesy.calculate_bearing 0 0 10 0 = 0%R /\
  Geodesy.calculate_bearing 10 0 0 0 = 180%R /\
  Geodesy.calculate_bearing 0 0 0 10 = 90%R /\
  Geodesy.calculate_bearing 0 10 0 0 = 270%R.
Proof. apply (X19_bearing_cardinal 0 10 0). lra. Defined.

Section ClosestFacts.
Import Geodesy.
#[local] Open Scope R_scope.

Lemma np_min_le (ds : list R) : forall d x, In x (d :: ds) -> np_min d ds <= x.
Proof.
  unfold np_min. induction ds as [| a ds IH]; intros d x Hx; simpl.
  - destruct Hx as [<- | []]. lra.
  - destruct Hx as [<- | [<- | Hx]].
    + transitivity (Rmin d a); [apply IH; left; reflexivity | apply Rmin_l].
    + transitivity (Rmin d a); [apply IH; left; reflexivity | apply Rmin_r].
    + apply IH. right. exact Hx.
Qed.

Lemma np_min_in (ds : list R) : forall d, In (np_min d ds) (d :: ds).
Proof.
  unfold np_min. induction ds as [| a ds IH]; intros d; simpl.
  - left. reflexivity.
  - destruct (IH (Rmin d a)) as [E | Hin].
    + unfold Rmin in E at 1. destruct (Rle_dec d a).
      * left. exact E.
      * right. left. exact E.
    + right. right. exact Hin.
Qed.

Lemma eqb_R_true (a b : R) : eqb_R a b = true <-> a = b.
Proof. unfold eqb_R. destruct (Req_dec_T a b); split; congruence. Qed.

Lemma with_id_of_unique (f : feature) (data : list feature) :
  List.NoDup (map f_id data) -> In f data -> with_id_of f data = [f].
Proof.
  unfold with_id_of. induction data as [| a data IH]; intros ND Hin; [destruct Hin |].
  simpl in ND. apply NoDup_cons_iff in ND. destruct ND as [Ha ND]. simpl.
  destruct Hin as [-> | Hin].
  - rewrite String.eqb_refl. f_equal.
    assert (F : List.Forall (fun g => f_id g <> f_id f) data).
    { apply List.Forall_forall. intros g Hg E. apply Ha. rewrite <- E.
      apply in_map. exact Hg. }
    clear -F. induction F as [| g l Hg _ IH]; [reflexivity |]. simpl.
    destruct (String.eqb_spec (f_id g) (f_id f)); [contradiction | exact IH].
  - destruct (String.eqb_spec (f_id a) (f_id f)) as [E | _].
    + exfalso. apply Ha. rewrite E. apply in_map. exact Hin.
    + apply IH; assumption.
Qed.

Lemma closest_single (argsort : list R -> list nat) (c : R * R)
    (f0 : feature) (fs : list feature) (multi : bool) :
  multi = false \/ (length (f0 :: fs) <= 3)%nat ->
  closest argsort c (f0 :: fs) multi =
  match List.find (fun f => eqb_R (sq_distance c f)
                     (np_min (sq_distance c f0) (map (sq_distance c) fs)))
          (f0 :: fs) with
  | None => Raise IndexError
  | Some f => Ok (with_id_of f (f0 :: fs))
  end.
Proof.
  intros H. unfold closest. cbv zeta. rewrite length_map.
  assert (E : multi && (3 <? length (f0 :: fs))%nat = false).
  { destruct H as [-> | Hl]; [reflexivity |].
    apply andb_false_iff. right. apply Nat.ltb_ge. exact Hl. }
  rewrite E. reflexivity.
Qed.

End ClosestFacts.

(** X20.  Unless three images are asked for among more than three,
    [closest] selects by nearest distance: for a non-empty [data] it
    returns the entries that carry the id of an entry [f] whose squared
    distance to the centroid is the least of all; [f] is among them, and
    when the ids are distinct it is the only one. *)
Theorem X20_closest_nearest (argsort : list R -> list nat) (c : R * R)
    (data : list Geodesy.feature) (multi : bool) :
  data <> [] ->
  multi = false \/ (length data <= 3)%nat ->
  exists f,
    Geodesy.closest argsort c data multi = Ok (with_id_of f data) /\
    In f data /\
    (forall g, In g data -> (sq_distance c f <= sq_distance c g)%R) /\
    In f (with_id_of f data) /\
    (List.NoDup (map Geodesy.f_id data) -> with_id_of f data = [f]).
Proof.
  intros Hne Hsingle.
  destruct data as [| f0 fs]; [contradiction |].
  rewrite closest_single by exact Hsingle.
  set (m := Geodesy.np_min (sq_distance c f0) (map (sq_distance c) fs)).
  assert (Hle : forall g, In g (f0 :: fs) -> (m <= sq_distance c g)%R).
  { intros g Hg. apply np_min_le.
    change (sq_distance c f0 :: map (sq_distance c) fs)
      with (map (sq_distance c) (f0 :: fs)).
    apply in_map. exact Hg. }
  assert (Hin : In m (map (sq_distance c) (f0 :: fs))) by apply np_min_in.
  apply in_map_iff in Hin. destruct Hin as [g [Eg Hg]].
  destruct (List.find (fun f => Geodesy.eqb_R (sq_distance c f) m) (f0 :: fs))
    as [f |] eqn:Ef.
  - apply find_some in Ef. destruct Ef as [Hf Em]. apply eqb_R_true in Em.
    exists f. split; [reflexivity |]. split; [exact Hf |].
    split; [intros g' Hg'; rewrite Em; apply Hle; exact Hg' |].
    split.
    + unfold with_id_of. apply filter_In. split; [exact Hf |].
      apply String.eqb_refl.
    + intros ND. apply with_id_of_unique; assumption.
  - exfalso. pose proof (find_none _ _ Ef g Hg) as N. cbv beta in N.
    apply (proj2 (eqb_R_true _ _)) in Eg. congruence.
Qed.

(** * Properties of the chat functions of [UrbanDataSet.py] *)

Section ChatFacts.
Import Dataset.

Variable ollama_pull : string -> option string.
Variable ollama_chat : request -> outcome Response.

Lemma chat_sends (model : string) (system prompt img : option string)
    (temp : option R) (k p : R) (log : list call) :
  chat ollama_chat model system prompt img temp (Some k) (Some p) log =
  (ollama_chat (request_of model system prompt img temp k p),
   log ++ [Chat (request_of model system prompt img temp k p)]).
Proof. reflexivity. Qed.

Lemma chat_no_options (model : string) (system prompt img : option string)
    (temp top_k top_p : option R) (log : list call) :
  top_k = None \/ top_p = None ->
  chat ollama_chat model system prompt img temp top_k top_p log =
  (Failed ETypeError, log).
Proof.
  intros [-> | ->]; [reflexivity |]. destruct top_k; reflexivity.
Qed.

Lemma chat_done_inv (model : string) (system prompt img : option string)
    (temp top_k top_p : option R) (log log' : list call) (r : Response) :
  chat ollama_chat model system prompt img temp top_k top_p log = (Done r, log') ->
  exists k p,
    top_k = Some k /\ top_p = Some p /\
    ollama_chat (request_of model system prompt img temp k p) = Done r /\
    log' = log ++ [Chat (request_of model system prompt img temp k p)].
Proof.
  destruct top_k as [k |]; [| discriminate].
  destruct top_p as [p |]; [| discriminate].
  rewrite chat_sends. intros [= E <-]. exists k, p. auto.
Qed.

End ChatFacts.

(** X21.  [chat] never sends sampling options outside their ranges: the one
    request it makes carries a [top_k] in (0, 100] and a [top_p] in
    [0, 1], whatever numbers were given; a value already in its range is
    sent unchanged.  The result is what the client returns for that
    request. *)
Theorem X21_chat_options_in_range (ollama_chat : Dataset.request -> Dataset.outcome Dataset.Response)
    (model : string) (system prompt img : option string) (temp : option R)
    (top_k top_p : R) (log : list Dataset.call) :
  exists req,
    Dataset.chat ollama_chat model system prompt img temp (Some top_k) (Some top_p) log =
      (ollama_chat req, log ++ [Dataset.Chat req]) /\
    (0 < Dataset.r_top_k req <= 100)%R /\
    (0 <= Dataset.r_top_p req <= 1)%R /\
    ((0 < top_k <= 100)%R -> Dataset.r_top_k req = top_k) /\
    ((0 <= top_p <= 1)%R -> Dataset.r_top_p req = top_p) /\
    Dataset.r_model req = model /\ Dataset.r_system req = system /\
    Dataset.r_prompt req = prompt /\ Dataset.r_image req = img /\
    Dataset.r_temperature req = temp.
Proof.
  exists (request_of model system prompt img temp top_k top_p).
  split; [apply chat_sends |]. unfold request_of. cbn.
  destruct (Rlt_dec 100 top_k), (Rle_dec top_k 0),
    (Rlt_dec 1 top_p), (Rle_dec top_p 0);
    repeat split; try reflexivity; intros; lra.
Qed.

(** X22.  [LLM_chat] called without [top_k] or without [top_p] (their
    default is [None]) on one or three images raises TypeError, and nothing
    is sent to the model. *)
Theorem X22_LLM_chat_default_options_raise
    (ollama_chat : Dataset.request -> Dataset.outcome Dataset.Response)
    (model : string) (system : option string) (prompt : string)
    (img : list (option string)) (temp top_k top_p : option R)
    (log : list Dataset.call) :
  top_k = None \/ top_p = None ->
  length img = 1%nat \/ length img = 3%nat ->
  Dataset.LLM_chat ollama_chat model system (Some prompt) (Some img) temp top_k top_p log =
  (Dataset.Failed Dataset.ETypeError, log).
Proof.
  intros Hopt Hlen. unfold Dataset.LLM_chat.
  destruct Hlen as [E | E]; rewrite E; cbn [Nat.eqb].
  - unfold Dataset.cbind. rewrite chat_no_options by exact Hopt. reflexivity.
  - destruct img as [| i1 img]; [discriminate |].
    cbn [Dataset.chat_each]. unfold Dataset.cbind.
    rewrite chat_no_options by exact Hopt. reflexivity.
Qed.

(** X23.  What [LLM_chat] returns tells how many requests it made.  It
    returns only when a prompt and a list of images are given.  A single
    [Response] comes from exactly one request, for the one image, with the
    system message as given.  A list comes from exactly three requests, one
    per image in the order of the images, all with the system message
    prefixed by the sentence on aerial and street views, and holds the three
    [responses] in that order.  For any other number of images it returns
    [None] and no request is made. *)
Theorem X23_LLM_chat_requests
    (ollama_chat : Dataset.request -> Dataset.outcome Dataset.Response)
    (model : string) (system prompt : option string)
    (img : option (list (option string))) (temp top_k top_p : option R)
    (log log' : list Dataset.call) (v : Dataset.reply) :
  Dataset.LLM_chat ollama_chat model system prompt img temp top_k top_p log =
    (Dataset.Done v, log') ->
  exists imgs, prompt <> None /\ img = Some imgs /\
    match v with
    | Dataset.NoReply =>
        length imgs <> 1%nat /\ length imgs <> 3%nat /\ log' = log
    | Dataset.Single r =>
        exists i k p,
          imgs = [i] /\ top_k = Some k /\ top_p = Some p /\
          ollama_chat (request_of model system prompt i temp k p) = Dataset.Done r /\
          log' = log ++ [Dataset.Chat (request_of model system prompt i temp k p)]
    | Dataset.PerImage res =>
        exists i1 i2 i3 k p r1 r2 r3,
          let q i := request_of model
                       (Some (String.append Dataset.analyzing (Dataset.fstr system)))
                       prompt i temp k p in
          imgs = [i1; i2; i3] /\ top_k = Some k /\ top_p = Some p /\
          ollama_chat (q i1) = Dataset.Done r1 /\
          ollama_chat (q i2) = Dataset.Done r2 /\
          ollama_chat (q i3) = Dataset.Done r3 /\
          res = [Dataset.responses r1; Dataset.responses r2; Dataset.responses r3] /\
          log' = log ++ [Dataset.Chat (q i1); Dataset.Chat (q i2); Dataset.Chat (q i3)]
    end.
Proof.
  unfold Dataset.LLM_chat.
  destruct prompt as [pr |]; [| destruct img; discriminate].
  destruct img as [imgs |]; [| discriminate].
  intros H. exists imgs. split; [discriminate |]. split; [reflexivity |].
  destruct imgs as [| i1 [| i2 [| i3 [| i4 imgs]]]]; cbn [length Nat.eqb] in H.
  - injection H as <- <-. cbn. repeat split; congruence.
  - unfold Dataset.cbind in H. cbn [nth] in H.
    destruct (Dataset.chat _ _ _ _ _ _ _ _ _) as [[r |e] l1] eqn:E1; [| discriminate].
    injection H as <- <-.
    apply chat_done_inv in E1. destruct E1 as (k & p & -> & -> & Er & ->).
    exists i1, k, p. auto.
  - injection H as <- <-. cbn. repeat split; congruence.
  - cbn [Dataset.chat_each] in H. unfold Dataset.cbind in H.
    destruct (Dataset.chat _ _ _ _ i1 _ _ _ _) as [[r1 |e] l1] eqn:E1; [| discriminate].
    destruct (Dataset.chat _ _ _ _ i2 _ _ _ _) as [[r2 |e] l2] eqn:E2; [| discriminate].
    destruct (Dataset.chat _ _ _ _ i3 _ _ _ _) as [[r3 |e] l3] eqn:E3; [| discriminate].
    injection H as <- <-.
    apply chat_done_inv in E1. destruct E1 as (k & p & -> & -> & Er1 & ->).
    apply chat_done_inv in E2. destruct E2 as (k2 & p2 & [= <-] & [= <-] & Er2 & ->).
    apply chat_done_inv in E3. destruct E3 as (k3 & p3 & [= <-] & [= <-] & Er3 & ->).
    exists i1, i2, i3, k, p, r1, r2, r3. cbv zeta.
    repeat (split; [first [reflexivity | assumption] |]).
    rewrite <- !app_assoc. reflexivity.
  - injection H as <- <-. cbn. repeat split; try congruence; lia.
Qed.

Section LoopFacts.
Import Dataset.

Variable ollama_pull : string -> option string.
Variable ollama_chat : request -> outcome Response.

Lemma supported_In (model : string) :
  existsb (String.eqb model) supported_models = true <-> In model supported_models.
Proof.
  rewrite existsb_exists. split.
  - intros (m & Hm & E). apply String.eqb_eq in E. subst. exact Hm.
  - intros H. exists model. split; [exact H | apply String.eqb_refl].
Qed.

Lemma LLM_chat_one_done_inv (model : string) (system prompt : option string)
    (i : option string) (temp top_k top_p : option R) (log log' : list call)
    (v : reply) :
  LLM_chat ollama_chat model system prompt (Some [i]) temp top_k top_p log = (Done v, log') ->
  exists k p r,
    prompt <> None /\ top_k = Some k /\ top_p = Some p /\ v = Single r /\
    ollama_chat (request_of model system prompt i temp k p) = Done r /\
    log' = log ++ [Chat (request_of model system prompt i temp k p)].
Proof.
  unfold LLM_chat. destruct prompt as [pr |]; [| discriminate].
  cbn [length Nat.eqb nth]. unfold cbind.
  destruct (chat _ _ _ _ _ _ _ _ _) as [[r | e] l1] eqn:E1; [| discriminate].
  intros [= <- <-].
  apply chat_done_inv in E1. destruct E1 as (k & p & -> & -> & Er & ->).
  exists k, p, r. repeat split; try assumption. discriminate.
Qed.

Lemma skipn_nth_error {A} (l : list A) : forall s x,
  nth_error l s = Some x -> skipn s l = x :: skipn (S s) l.
Proof.
  induction l as [| a l IH]; intros [| s] x H; try discriminate.
  - injection H as ->. reflexivity.
  - simpl in H. apply IH in H. exact H.
Qed.

Lemma slice_cons {A} (l : list A) (s n : nat) (x : A) :
  nth_error l s = Some x -> slice l s (S n) = x :: slice l (S s) n.
Proof.
  intros H. unfold slice. rewrite (skipn_nth_error l s x H). reflexivity.
Qed.

Variable self_imgs : list string.
Variable self_base64Imgs : option (list string).
Variable model : string.
Variable system prompt : option string.
Variable temp top_k top_p : option R.
Variable saveImg : bool.

Lemma loopImgChat_step_done_inv (i : nat) (dic dic' : loop_dic) (log log' : list call) :
  loopImgChat_step ollama_chat self_imgs self_base64Imgs model system prompt
    temp top_k top_p saveImg i dic log = (Done dic', log') ->
  exists b img pth k p r,
    self_base64Imgs = Some b /\ nth_error b i = Some img /\
    nth_error self_imgs i = Some pth /\
    top_k = Some k /\ top_p = Some p /\
    ollama_chat (request_of model system prompt (Some img) temp k p) = Done r /\
    log' = log ++ [Chat (request_of model system prompt (Some img) temp k p)] /\
    d_responses dic' = d_responses dic ++ [responses r] /\
    d_img dic' = d_img dic ++ [pth] /\
    d_imgBase64 dic' =
      (if saveImg then
         if (i =? 0)%nat then Some [img]
         else option_map (fun l => l ++ [img]) (d_imgBase64 dic)
       else d_imgBase64 dic).
Proof.
  unfold loopImgChat_step, cbind, clift.
  destruct self_base64Imgs as [b |]; [| discriminate].
  destruct (nth_error b i) as [img |] eqn:Eb; [| discriminate].
  destruct (LLM_chat _ _ _ _ _ _ _ _ _) as [[v | e] l1] eqn:EL; [| discriminate].
  apply LLM_chat_one_done_inv in EL.
  destruct EL as (k & p & r & _ & Ek & Ep & -> & Er & ->).
  cbn [responses_of].
  intros H.
  destruct (nth_error self_imgs i) as [pth |] eqn:Ei.
  - exists b, img, pth, k, p, r.
    destruct saveImg.
    + destruct (i =? 0)%nat.
      * injection H as <- <-. cbn. repeat split; assumption.
      * destruct (d_imgBase64 dic) as [l |]; [| discriminate].
        injection H as <- <-. cbn. repeat split; assumption.
    + injection H as <- <-. cbn. repeat split; assumption.
  - destruct saveImg; [| discriminate].
    destruct (i =? 0)%nat; [discriminate |].
    destruct (d_imgBase64 dic); discriminate.
Qed.

Lemma loopImgChat_loop_done_inv (b : list string) (k p : R) :
  self_base64Imgs = Some b -> top_k = Some k -> top_p = Some p ->
  forall n s dic log dic' log',
    loopImgChat_loop ollama_chat self_imgs self_base64Imgs model system prompt
      temp top_k top_p saveImg (seq s n) dic log = (Done dic', log') ->
    length (slice b s n) = n /\ length (slice self_imgs s n) = n /\
    log' = log ++ map (fun i => Chat (request_of model system prompt (Some i) temp k p))
                    (slice b s n) /\
    (exists rss,
       Forall2 (fun i rs => exists r,
                  ollama_chat (request_of model system prompt (Some i) temp k p) = Done r /\
                  responses r = rs) (slice b s n) rss /\
       d_responses dic' = d_responses dic ++ rss) /\
    d_img dic' = d_img dic ++ slice self_imgs s n /\
    d_imgBase64 dic' =
      (if saveImg then
         if (s =? 0)%nat && (0 <? n)%nat then Some (slice b s n)
         else option_map (fun l => l ++ slice b s n) (d_imgBase64 dic)
       else d_imgBase64 dic).
Proof.
  intros Hb Hk Hp. induction n as [| n IH]; intros s dic log dic' log' H.
  - cbn in H. injection H as <- <-. unfold slice. cbn [firstn length map].
    rewrite !app_nil_r. repeat split.
    + exists []. split; [constructor | rewrite app_nil_r; reflexivity].
    + rewrite andb_false_r. destruct saveImg; [| reflexivity].
      destruct (d_imgBase64 dic); cbn; [rewrite app_nil_r |]; reflexivity.
  - cbn [seq loopImgChat_loop] in H. unfold cbind in H.
    destruct (loopImgChat_step _ _ _ _ _ _ _ _ _ _ _ _ _) as [[dic1 | e] l1] eqn:Es;
      [| discriminate].
    apply loopImgChat_step_done_inv in Es.
    destruct Es as (b' & img & pth & k' & p' & r & Eb & Ni & Np & Ek & Ep & Er & -> & Dr & Di & D64).
    assert (b' = b) by congruence. assert (k' = k) by congruence.
    assert (p' = p) by congruence. subst b' k' p'.
    apply IH in H.
    destruct H as (L1 & L2 & -> & (rss & F & Drs) & Dis & D64').
    rewrite (slice_cons b s n img Ni), (slice_cons self_imgs s n pth Np).
    cbn [length map]. rewrite L1, L2.
    split; [reflexivity |]. split; [reflexivity |].
    split; [rewrite <- app_assoc; reflexivity |].
    split.
    { exists (responses r :: rss). split.
      - constructor; [exists r; auto | exact F].
      - rewrite Drs, Dr, <- app_assoc. reflexivity. }
    split; [rewrite Dis, Di, <- app_assoc; reflexivity |].
    rewrite D64'. destruct saveImg; [| exact D64].
    cbn [Nat.eqb andb]. rewrite D64.
    destruct (s =? 0)%nat; cbn; [reflexivity |].
    destruct (d_imgBase64 dic); cbn; [rewrite <- app_assoc |]; reflexivity.
Qed.

End LoopFacts.

(** X24.  When [oneImgChat] returns, the model is one of the eight supported
    names and was pulled first; exactly one request was made after the
    pull, for [self.img] with the system message and the prompt given; the
    reply held at least one [QnA] and the result is the first of them,
    with the image attached exactly when [saveImg] is set. *)
Theorem X24_oneImgChat_returns
    (ollama_pull : string -> option string)
    (ollama_chat : Dataset.request -> Dataset.outcome Dataset.Response)
    (self_img : option string) (model : string) (system prompt : option string)
    (temp top_k top_p : option R) (saveImg : bool)
    (log log' : list Dataset.call) (qa : Dataset.QnA) (im : option (option string)) :
  Dataset.oneImgChat ollama_pull ollama_chat self_img model system prompt
    temp top_k top_p saveImg log = (Dataset.Done (qa, im), log') ->
  In model Dataset.supported_models /\ ollama_pull model = None /\
  prompt <> None /\
  exists k p r rest,
    top_k = Some k /\ top_p = Some p /\
    ollama_chat (request_of model system prompt self_img temp k p) = Dataset.Done r /\
    Dataset.responses r = qa :: rest /\
    im = (if saveImg then Some self_img else None) /\
    log' = log ++ [Dataset.Pull model;
                   Dataset.Chat (request_of model system prompt self_img temp k p)].
Proof.
  unfold Dataset.oneImgChat, Dataset.cbind at 1, Dataset.checkModel.
  destruct (existsb (String.eqb model) Dataset.supported_models) eqn:Em;
    [| discriminate].
  apply supported_In in Em. cbn [Dataset.cret].
  unfold Dataset.cbind at 1, Dataset.preload_model.
  destruct (ollama_pull model) as [msg |] eqn:Epull; [discriminate |].
  unfold Dataset.cbind at 1.
  destruct (Dataset.LLM_chat _ _ _ _ _ _ _ _ _) as [[v | e] l1] eqn:EL; [| discriminate].
  apply LLM_chat_one_done_inv in EL.
  destruct EL as (k & p & r & Hpr & -> & -> & -> & Er & ->).
  unfold Dataset.cbind, Dataset.clift. cbn [Dataset.responses_of].
  destruct (Dataset.responses r) as [| r0 rest] eqn:Ers; [discriminate |].
  intros [= <- <- <-].
  split; [exact Em |]. split; [reflexivity |]. split; [exact Hpr |].
  exists k, p, r, rest. repeat split; try assumption.
  rewrite <- app_assoc. reflexivity.
Qed.

(** X25.  The dictionary that [loopImgChat] returns is aligned with the
    images: ['img'] is [self.imgs], there is one list of answers per image
    and, when there are images, the i-th list is the reply to the i-th
    request, which is the one for the i-th element of [self.base64Imgs];
    the requests follow one pull, in the order of the images; with
    [saveImg] the key ['imgBase64'] holds the encoded images used, and it
    is absent without [saveImg] or without images. *)
Theorem X25_loopImgChat_aligned
    (ollama_pull : string -> option string)
    (ollama_chat : Dataset.request -> Dataset.outcome Dataset.Response)
    (self_imgs self_base64Imgs : option (list string))
    (model : string) (system prompt : option string)
    (temp top_k top_p : option R) (saveImg : bool)
    (log log' : list Dataset.call) (dic : Dataset.loop_dic) :
  Dataset.loopImgChat ollama_pull ollama_chat self_imgs self_base64Imgs model
    system prompt temp top_k top_p saveImg log = (Dataset.Done dic, log') ->
  exists imgs,
    self_imgs = Some imgs /\
    In model Dataset.supported_models /\
    Dataset.d_img dic = imgs /\
    length (Dataset.d_responses dic) = length imgs /\
    (imgs = [] ->
       log' = log ++ [Dataset.Pull model] /\ Dataset.d_imgBase64 dic = None) /\
    (imgs <> [] ->
       exists b k p,
         self_base64Imgs = Some b /\ top_k = Some k /\ top_p = Some p /\
         (length imgs <= length b)%nat /\
         let q i := request_of model system prompt (Some i) temp k p in
         log' = log ++ Dataset.Pull model ::
                  map (fun i => Dataset.Chat (q i)) (firstn (length imgs) b) /\
         Forall2 (fun i rs => exists r,
                    ollama_chat (q i) = Dataset.Done r /\ Dataset.responses r = rs)
           (firstn (length imgs) b) (Dataset.d_responses dic) /\
         Dataset.d_imgBase64 dic =
           (if saveImg then Some (firstn (length imgs) b) else None)).
Proof.
  unfold Dataset.loopImgChat, Dataset.cbind at 1, Dataset.checkModel.
  destruct (existsb (String.eqb model) Dataset.supported_models) eqn:Em;
    [| discriminate].
  apply supported_In in Em. cbn [Dataset.cret].
  unfold Dataset.cbind at 1, Dataset.preload_model.
  destruct (ollama_pull model) as [msg |] eqn:Epull; [discriminate |].
  destruct self_imgs as [imgs |]; [| discriminate].
  intros H. exists imgs. split; [reflexivity |]. split; [exact Em |].
  destruct imgs as [| p0 imgs].
  - cbn in H. injection H as <- <-. cbn.
    repeat split; try reflexivity. intros N. contradiction.
  - pose proof H as H1. cbn [length seq Dataset.loopImgChat_loop] in H1.
    unfold Dataset.cbind at 1 in H1.
    destruct (Dataset.loopImgChat_step _ _ _ _ _ _ _ _ _ _ _ _ _) as [[dic1 | e] l1] eqn:Es;
      [| discriminate].
    apply loopImgChat_step_done_inv in Es.
    destruct Es as (b & _ & _ & k & p & _ & Eb & _ & _ & Ek & Ep & _).
    clear H1 dic1 l1.
    apply (loopImgChat_loop_done_inv ollama_chat (p0 :: imgs) self_base64Imgs model
             system prompt temp top_k top_p saveImg b k p Eb Ek Ep) in H.
    destruct H as (L1 & L2 & -> & (rss & F & Drs) & Dis & D64).
    cbn [Dataset.d_responses Dataset.d_img Dataset.d_imgBase64 app] in Drs, Dis, D64.
    unfold slice in *.
    change (skipn 0 b) with b in *.
    change (skipn 0 (p0 :: imgs)) with (p0 :: imgs) in *.
    rewrite firstn_all in Dis.
    assert (Hlen : (length (p0 :: imgs) <= length b)%nat).
    { rewrite length_firstn in L1. lia. }
    split; [exact Dis |].
    split.
    { rewrite Drs. apply Forall2_length in F. rewrite <- F. exact L1. }
    split; [intros N; discriminate |].
    intros _. exists b, k, p. cbv zeta.
    split; [exact Eb |]. split; [exact Ek |]. split; [exact Ep |].
    split; [exact Hlen |].
    split; [rewrite <- app_assoc; reflexivity |].
    split; [rewrite Drs; exact F |].
    rewrite D64. destruct saveImg; reflexivity.
Qed.

(** X26.  Nothing is asked of a model that is not supported or could not
    be pulled: in both cases [oneImgChat] and [loopImgChat] raise (the
    [Exception] naming the model, or the RuntimeError) and the log of
    calls holds no chat request beyond those it held; for an unsupported
    name not even the pull is made. *)
Theorem X26_no_chat_without_model
    (ollama_pull : string -> option string)
    (ollama_chat : Dataset.request -> Dataset.outcome Dataset.Response)
    (self_img : option string) (self_imgs self_base64Imgs : option (list string))
    (model : string) (system prompt : option string)
    (temp top_k top_p : option R) (saveImg : bool) (log : list Dataset.call) :
  ~ In model Dataset.supported_models \/ ollama_pull model <> None ->
  exists e log',
    Dataset.oneImgChat ollama_pull ollama_chat self_img model system prompt
      temp top_k top_p saveImg log = (Dataset.Failed e, log') /\
    Dataset.loopImgChat ollama_pull ollama_chat self_imgs self_base64Imgs model
      system prompt temp top_k top_p saveImg log = (Dataset.Failed e, log') /\
    Dataset.chats log' = Dataset.chats log /\
    (~ In model Dataset.supported_models ->
       log' = log /\
       e = Dataset.EException (String.append model " is not supported")) /\
    (In model Dataset.supported_models ->
       log' = log ++ [Dataset.Pull model] /\
       e = Dataset.ERuntimeError "Ollama not available. Install it before running.").
Proof.
  intros H.
  unfold Dataset.oneImgChat, Dataset.loopImgChat, Dataset.cbind, Dataset.checkModel.
  destruct (existsb (String.eqb model) Dataset.supported_models) eqn:Em.
  - apply supported_In in Em.
    destruct H as [H | H]; [contradiction |].
    cbn [Dataset.cret]. unfold Dataset.preload_model.
    destruct (ollama_pull model) as [msg |]; [| contradiction].
    eexists. eexists. split; [reflexivity |]. split; [reflexivity |].
    split.
    { unfold Dataset.chats. rewrite omap_app. cbn. apply app_nil_r. }
    split; [intros N; contradiction |]. intros _. split; reflexivity.
  - assert (N : ~ In model Dataset.supported_models).
    { intros I. apply supported_In in I. congruence. }
    cbn [Dataset.cfail].
    eexists. eexists. split; [reflexivity |]. split; [reflexivity |].
    split; [reflexivity |].
    split; [intros _; split; reflexivity |]. intros I. contradiction.
Qed.

(** * The further properties at concrete inputs *)

Module MoreWitnesses.
Import Pixels Templates Scenario ScenarioFacts Runs MoreScenarios.
#[local] Existing Instance requests_Session.

Lemma resolve_OpenStreetMap :
  resolve_source no_basemaps (PyStr "OpenStreetMap") = Ok osm.
Proof. vm_compute. reflexivity. Qed.

Lemma range_of_scenario :
  tile_corners (Rmin 0 1) (Rmin (1 / 2) y45) (Rmax 0 1) (Rmax (1 / 2) y45) = [(0, 0)].
Proof.
  destruct sorted_x as [-> ->]. destruct sorted_y as [-> ->]. exact corners.
Qed.

(** With the network down the mosaic of the scenario is not drawn. *)
Lemma draw_tile_network_down :
  exists w',
    draw_tile net_down wkt osm 0 (-180) 45 180 0 "out.tif" None no_world
    = (Raise (TransportError "connection refused"), w').
Proof.
  rewrite (draw_tile_sorted net_down wkt _ _ _ _ _ _ _ _ _ _ _ _ _
             deg2num_south_west deg2num_north_east).
  rewrite draw_sorted_fetched by (apply formats_plain; reflexivity).
    rewrite range_of_scenario.
  destruct sorted_x as [-> ->]. destruct sorted_y as [-> ->].
  eexists. apply draw_fetched_paste_raise.
  rewrite (floor_IZR 0), (ceil_IZR 1), floor_y45, ceil_half. reflexivity.
Qed.

(** X1 on a bbox of two numbers. *)
Lemma X1_bad_bbox_rejected_witness :
  tms_to_geotiff net_ok no_basemaps wkt "out.tif" [-180; 0]%R (Some 0) None
    (PyStr "OpenStreetMap") "EPSG:3857" false false true true None no_world
  = (Raise (ValueError
       "bbox must be a list of 4 coordinates in the format of [xmin, ymin, xmax, ymax]"),
     no_world).
Proof.
  apply (X1_bad_bbox_rejected net_ok no_basemaps wkt "out.tif" [-180; 0]%R (Some 0) None
           (PyStr "OpenStreetMap") "EPSG:3857" false false true true None no_world osm).
  - cbn. lia.
  - left. reflexivity.
  - exact resolve_OpenStreetMap.
Defined.

(** X2 without a zoom and a resolution, and with both. *)
Lemma X2_zoom_xor_resolution_witness :
  tms_to_geotiff net_ok no_basemaps wkt "out.tif" [-180; 0; 180; 45]%R None None
    (PyStr "OpenStreetMap") "EPSG:3857" false false true true None no_world
  = (Raise (ValueError "Either zoom or resolution must be provided"), no_world) /\
  tms_to_geotiff net_ok no_basemaps wkt "out.tif" [-180; 0; 180; 45]%R (Some 0)
    (Some 100%R) (PyStr "OpenStreetMap") "EPSG:3857" false false true true None no_world
  = (Raise (ValueError "Only one of zoom or resolution can be provided"), no_world).
Proof.
  split.
  - apply (X2_zoom_xor_resolution net_ok no_basemaps wkt "out.tif" (-180) 0 180 45
             None None (PyStr "OpenStreetMap") "EPSG:3857" false false true true None
             no_world osm (or_introl eq_refl) resolve_OpenStreetMap).
    split; reflexivity.
  - apply (X2_zoom_xor_resolution net_ok no_basemaps wkt "out.tif" (-180) 0 180 45
             (Some 0) (Some 100%R) (PyStr "OpenStreetMap") "EPSG:3857" false false true
             true None no_world osm (or_introl eq_refl) resolve_OpenStreetMap).
    split; discriminate.
Defined.



(** X4 on two spellings of OpenStreetMap, the second one also a basemap. *)
Lemma X4_provider_names_case_insensitive_witness :
  resolve_source no_basemaps (PyStr "openstreetmap")
  = resolve_source {["OpenStreetMap" := "https://example.org/{z}/{x}/{y}.png"]}
      (PyStr "OpenStreetMap") /\
  exists t, resolve_source no_basemaps (PyStr "openstreetmap") = Ok t /\
            xyz_tiles !! upper "openstreetmap" = Some t.
Proof.
  apply (X4_provider_names_case_insensitive no_basemaps
           {["OpenStreetMap" := "https://example.org/{z}/{x}/{y}.png"]}
           "openstreetmap" "OpenStreetMap").
  - reflexivity.
  - vm_compute. eexists. reflexivity.
Defined.

(** X9 on the unit square. *)
Lemma X9_range_size_witness : tile_corners 0 0 1 1 <> [].
Proof.
  apply (proj2 (proj2 (X9_range_size 0 0 1 1))); lra.
Defined.

(** X10 on the scenario. *)
Lemma X10_request_count_witness :
  let corners :=
    tile_corners (Rmin 0 1) (Rmin (1 / 2) y45) (Rmax 0 1) (Rmax (1 / 2) y45) in
  exists evs,
    trace (snd (draw_tile net_flaky wkt osm 0 (-180) 45 180 0 "out.tif" None no_world))
      = trace no_world ++ evs /\
    (forall x y, In (x, y) corners ->
       (1 <= requests_of (Url osm 0 x y) evs <= 3)%nat) /\
    (forall u, (forall x y, In (x, y) corners -> u <> Url osm 0 x y) ->
       requests_of u evs = 0%nat) /\
    (length corners <= length evs <= 3 * length corners)%nat.
Proof.
  exact (X10_request_count net_flaky wkt osm 0 (-180) 45 180 0 "out.tif" None no_world
           0 (1 / 2) 1 y45 deg2num_south_west deg2num_north_east
           (formats_plain osm 0 _ eq_refl)).
Defined.

(** X11 on the scenario, for a file next to the output. *)
Lemma X11_only_output_written_witness :
  files (snd (tms_to_geotiff net_ok no_basemaps wkt "out.tif" [-180; 0; 180; 45]%R
                (Some 0) None (PyStr "OpenStreetMap") "EPSG:4326" true false true true
                None with_output)) !! "other.tif"
  = files with_output !! "other.tif".
Proof.
  apply (X11_only_output_written net_ok no_basemaps wkt "out.tif" [-180; 0; 180; 45]%R
           (Some 0) None (PyStr "OpenStreetMap") "EPSG:4326" true false true true
           None with_output "other.tif").
  discriminate.
Defined.

(** X12 at the south-west corner of the scenario. *)
Lemma X12_tile_grid_is_mercator_witness :
  exists xp yp,
    from4326_to3857 0 (-180) = Ok (xp, yp) /\
    0%R = ((xp / (PI * EARTH_EQUATORIAL_RADIUS) + 1) / 2 * pow2 0)%R /\
    (1 / 2)%R = ((1 - yp / (PI * EARTH_EQUATORIAL_RADIUS)) / 2 * pow2 0)%R.
Proof.
  exact (X12_tile_grid_is_mercator 0 (-180) 0 0 (1 / 2) deg2num_south_west).
Defined.

(** X13 on the scenario with the network down. *)
Lemma X13_draw_tile_all_or_nothing_witness :
  exists w',
    draw_tile net_down wkt osm 0 (-180) 45 180 0 "out.tif" None no_world
    = (Raise (TransportError "connection refused"), w') /\
    files w' = files no_world.
Proof.
  destruct draw_tile_network_down as [w' H]. exists w'. split; [exact H |].
  exact (X13_draw_tile_all_or_nothing net_down wkt osm 0 (-180) 45 180 0 "out.tif" None
           no_world w' _ H).
Defined.

(** The loop over an absent tile followed by the tile of the scenario. *)
Lemma paste_absent_then_present :
  exists bigim,
    paste_all [(Ok None, (0, 0)); (Ok (Some tile_rgb), (1, 0))] (0, 0, 2, 1) None (256, 256)
    = Ok (Some bigim, (256, 256)).
Proof. eexists. vm_compute. reflexivity. Qed.

(** X14 on that loop. *)
Lemma X14_base_size_of_first_tile_witness :
  exists bigim,
    paste_all [(Ok None, (0, 0)); (Ok (Some tile_rgb), (1, 0))] (0, 0, 2, 1) None (256, 256)
    = Ok (Some bigim, (256, 256)) /\
    exists im, Image_open tile_rgb = Ok im /\ (256, 256) = size im /\
               Some bigim <> None.
Proof.
  destruct paste_absent_then_present as [bigim H].
  exists bigim. split; [exact H |].
  exact (X14_base_size_of_first_tile
           [(Ok None, (0, 0)); (Ok (Some tile_rgb), (1, 0))] (0, 0, 2, 1)
           (Some bigim) (256, 256) H).
Defined.

(** X15 on the scenario, without rio-cogeo. *)
Lemma X15_missing_rio_cogeo_keeps_raster_witness :
  exists w1,
    @tms_to_geotiff requests_Session formatter imaging rio_without_cogeo net_ok no_basemaps wkt
      "out.tif" [-180; 0; 180; 45]%R (Some 0) None (PyStr "OpenStreetMap") "epsg:3857"
      true false true true None no_world
    = (Raise (Exception (ImportError
       "The rio-cogeo package is not installed. Please install it with `pip install rio-cogeo` or `conda install rio-cogeo -c conda-forge`.")),
     w1) /\
    exists g, files w1 !! "out.tif" = Some (Raster g) /\ projection g = wkt.
Proof.
  destruct (draw_tile_succeeds osm "out.tif" no_world eq_refl) as (img & w1 & H).
  exists w1.
  exact (@X15_missing_rio_cogeo_keeps_raster requests_Session formatter imaging
           rio_without_cogeo
           net_ok no_basemaps wkt "out.tif" (-180) 0 180 45 (Some 0) None
           (PyStr "OpenStreetMap") "epsg:3857" true true None no_world w1 osm 0 img
           eq_refl eq_refl (or_introl eq_refl) resolve_OpenStreetMap eq_refl H).
Defined.

(** X16 on the scenario: EPSG:3857 and no COG. *)
Lemma X16_no_postprocessing_iff_witness :
  exists w1,
    tms_to_geotiff net_ok no_basemaps wkt "out.tif" [-180; 0; 180; 45]%R (Some 0) None
      (PyStr "OpenStreetMap") "EPSG:3857" false false true true None no_world
    = (Ok None, w1).
Proof.
  destruct (draw_tile_succeeds osm "out.tif" no_world eq_refl) as (img & w1 & H).
  exists w1.
  apply (proj2 (X16_no_postprocessing_iff net_ok no_basemaps wkt "out.tif"
                  (-180) 0 180 45 (Some 0) None (PyStr "OpenStreetMap") "EPSG:3857"
                  false true true None no_world w1 osm 0 img
                  (or_introl eq_refl) resolve_OpenStreetMap eq_refl H)).
  split; reflexivity.
Defined.

(** X20 on two images: the nearer one is selected. *)
Lemma X20_closest_nearest_witness :
  exists f,
    Geodesy.closest (fun _ => []) (0%R, 0%R) images false = Ok (with_id_of f images) /\
    In f images /\
    (forall g, In g images -> (sq_distance (0, 0) f <= sq_distance (0, 0) g)%R) /\
    In f (with_id_of f images) /\
    (List.NoDup (map Geodesy.f_id images) -> with_id_of f images = [f]).
Proof.
  apply (X20_closest_nearest (fun _ => []) (0%R, 0%R) images false).
  - discriminate.
  - left. reflexivity.
Defined.

(** X21 on options inside their ranges. *)
Lemma X21_chat_options_in_range_witness :
  exists req,
    Dataset.chat model_yes "gemma3" None (Some "Is there a roof?") (Some "aGVsbG8=")
      (Some 0%R) (Some 40%R) (Some 0.9%R) []
    = (model_yes req, [Dataset.Chat req]) /\
    Dataset.r_top_k req = 40%R /\ Dataset.r_top_p req = 0.9%R.
Proof.
  destruct (X21_chat_options_in_range model_yes "gemma3" None (Some "Is there a roof?")
              (Some "aGVsbG8=") (Some 0%R) 40 0.9 [])
    as (req & E & _ & _ & Hk & Hp & _).
  exists req. split; [exact E |]. split; [apply Hk; lra | apply Hp; lra].
Defined.

(** X22 on one image, with the default options. *)
Lemma X22_LLM_chat_default_options_raise_witness :
  Dataset.LLM_chat model_yes "gemma3" None (Some "Is there a roof?")
    (Some [Some "aGVsbG8="]) None None None []
  = (Dataset.Failed Dataset.ETypeError, []).
Proof.
  apply (X22_LLM_chat_default_options_raise model_yes "gemma3" None "Is there a roof?"
           [Some "aGVsbG8="] None None None []).
  - left. reflexivity.
  - left. reflexivity.
Defined.

(** X23 on three images. *)
Lemma X23_LLM_chat_requests_witness :
  exists res log',
    Dataset.LLM_chat model_yes "gemma3" (Some "Be brief.") (Some "Is there a roof?")
      (Some [Some "YQ=="; Some "Yg=="; Some "Yw=="]) (Some 0%R) (Some 1%R) (Some 0.8%R) []
    = (Dataset.Done (Dataset.PerImage res), log') /\
    length res = 3%nat /\ length log' = 3%nat.
Proof.
  pose (out := Dataset.LLM_chat model_yes "gemma3" (Some "Be brief.")
                 (Some "Is there a roof?")
                 (Some [Some "YQ=="; Some "Yg=="; Some "Yw=="])
                 (Some 0%R) (Some 1%R) (Some 0.8%R) []).
  assert (H : out = (Dataset.Done (Dataset.PerImage [[yes]; [yes]; [yes]]), snd out))
    by reflexivity.
  exists [[yes]; [yes]; [yes]], (snd out). split; [exact H |].
  destruct (X23_LLM_chat_requests model_yes "gemma3" (Some "Be brief.")
              (Some "Is there a roof?")
              (Some [Some "YQ=="; Some "Yg=="; Some "Yw=="])
              (Some 0%R) (Some 1%R) (Some 0.8%R) [] (snd out) _ H)
    as (imgs & _ & _ & i1 & i2 & i3 & k & p & r1 & r2 & r3 & _ & _ & _ & _ & _ & _ & Hres & Hlog).
  rewrite Hlog. split; reflexivity.
Defined.

(** X24 on one image. *)
Lemma X24_oneImgChat_returns_witness :
  exists log',
    Dataset.oneImgChat pull_ok model_yes (Some "YQ==") "gemma3" None
      (Some "Is there a roof?") (Some 0%R) (Some 1%R) (Some 0.8%R) true []
    = (Dataset.Done (yes, Some (Some "YQ==")), log') /\
    In "gemma3" Dataset.supported_models /\
    log' = [Dataset.Pull "gemma3";
            Dataset.Chat (request_of "gemma3" None (Some "Is there a roof?")
                            (Some "YQ==") (Some 0%R) 1 0.8)].
Proof.
  pose (out := Dataset.oneImgChat pull_ok model_yes (Some "YQ==") "gemma3" None
                 (Some "Is there a roof?") (Some 0%R) (Some 1%R) (Some 0.8%R) true []).
  assert (H : out = (Dataset.Done (yes, Some (Some "YQ==")), snd out)) by reflexivity.
  exists (snd out). split; [exact H |].
  destruct (X24_oneImgChat_returns pull_ok model_yes (Some "YQ==") "gemma3" None
              (Some "Is there a roof?") (Some 0%R) (Some 1%R) (Some 0.8%R) true []
              (snd out) yes (Some (Some "YQ==")) H)
    as (Hm & _ & _ & k & p & r & rest & [= <-] & [= <-] & _ & _ & _ & Hlog).
  split; [exact Hm | exact Hlog].
Defined.

(** X25 on two images. *)
Lemma X25_loopImgChat_aligned_witness :
  exists dic log',
    Dataset.loopImgChat pull_ok model_yes (Some ["a.jpg"; "b.jpg"])
      (Some ["YQ=="; "Yg=="]) "gemma3" None (Some "Is there a roof?")
      (Some 0%R) (Some 1%R) (Some 0.8%R) true []
    = (Dataset.Done dic, log') /\
    Dataset.d_img dic = ["a.jpg"; "b.jpg"] /\
    length (Dataset.d_responses dic) = 2%nat.
Proof.
  pose (out := Dataset.loopImgChat pull_ok model_yes (Some ["a.jpg"; "b.jpg"])
                 (Some ["YQ=="; "Yg=="]) "gemma3" None (Some "Is there a roof?")
                 (Some 0%R) (Some 1%R) (Some 0.8%R) true []).
  assert (H : out = (Dataset.Done
                       {| Dataset.d_responses := [[yes]; [yes]];
                          Dataset.d_img := ["a.jpg"; "b.jpg"];
                          Dataset.d_imgBase64 := Some ["YQ=="; "Yg=="] |}, snd out))
    by reflexivity.
  eexists. exists (snd out). split; [exact H |].
  destruct (X25_loopImgChat_aligned pull_ok model_yes (Some ["a.jpg"; "b.jpg"])
              (Some ["YQ=="; "Yg=="]) "gemma3" None (Some "Is there a roof?")
              (Some 0%R) (Some 1%R) (Some 0.8%R) true [] (snd out) _ H)
    as (imgs & E & _ & Hi & Hl & _).
  injection E as <-. split; [exact Hi | exact Hl].
Defined.

(** X26 on a model that is not supported. *)
Lemma X26_no_chat_without_model_witness :
  exists e log',
    Dataset.oneImgChat pull_ok model_yes (Some "YQ==") "gpt-4o" None
      (Some "Is there a roof?") (Some 0%R) (Some 1%R) (Some 0.8%R) true []
    = (Dataset.Failed e, log') /\
    Dataset.loopImgChat pull_ok model_yes (Some ["a.jpg"]) (Some ["YQ=="]) "gpt-4o" None
      (Some "Is there a roof?") (Some 0%R) (Some 1%R) (Some 0.8%R) true []
    = (Dataset.Failed e, log') /\
    Dataset.chats log' = Dataset.chats [].
Proof.
  destruct (X26_no_chat_without_model pull_ok model_yes (Some "YQ==") (Some ["a.jpg"])
              (Some ["YQ=="]) "gpt-4o" None (Some "Is there a roof?") (Some 0%R)
              (Some 1%R) (Some 0.8%R) true [])
    as (e & log' & H1 & H2 & H3 & _).
  - left. intros H. cbn in H.
    repeat (destruct H as [H | H]; [discriminate H |]). exact H.
  - exists e, log'. split; [exact H1 |]. split; [exact H2 | exact H3].
Defined.

(** X27 on a template with a subdomain field. *)
Lemma X27_unformattable_template_witness :
  draw_tile net_ok wkt subdomains 0 (-180) 45 180 0 "out.tif" None no_world
  = (Raise (KeyError "s"), no_world).
Proof.
  apply (X27_unformattable_template net_ok wkt subdomains 0 (-180) 45 180 0 "out.tif"
           None no_world 0 (1 / 2) 1 y45 0 0 [] (KeyError "s")
           deg2num_south_west deg2num_north_east range_of_scenario).
  reflexivity.
Defined.

End MoreWitnesses.
